(** * MediMind backend: OCR pipeline and request handlers

    A shallow embedding of [backend/utils.py] (text extraction, AI analysis,
    file pipeline) and of [backend/app.py] (the Flask handlers), followed by
    the properties of the behavioural specification that concern them.

    Python [str] values are modelled by [string]; a character stands for a
    code point below 256.  External collaborators (pdf2image, Tesseract, the
    Gemini client, Firebase auth / storage / Firestore, the local disk) are
    oracles of a record, and every call made to one of them is logged, so
    that statements such as "the service is never invoked" are statements
    about the log. *)

From Stdlib Require Import ZArith Lia Ascii String DecimalString.
From stdpp Require Import gmap strings list.

Local Open Scope string_scope.
#[local] Set Warnings "-abstract-large-number".

(** ** Python string primitives *)

Module PyStr.

(** [str.isspace] on one character, for code points below 256: TAB..CR,
    FS..US, SPACE, NEL and NBSP. *)
Definition is_space (c : ascii) : bool :=
  let n := nat_of_ascii c in
  (((9 <=? n) && (n <=? 13)) || ((28 <=? n) && (n <=? 32))
   || (n =? 133) || (n =? 160))%nat.

Fixpoint lstrip (s : string) : string :=
  match s with
  | EmptyString => EmptyString
  | String c s' => if is_space c then lstrip s' else s
  end.

(** [rstrip] keeps a character when it is not a space or when something
    remains to its right. *)
Fixpoint rstrip (s : string) : string :=
  match s with
  | EmptyString => EmptyString
  | String c s' =>
      match rstrip s' with
      | EmptyString => if is_space c then EmptyString else String c EmptyString
      | r => String c r
      end
  end.

(** [s.strip()] *)
Definition strip (s : string) : string := rstrip (lstrip s).

(** [len(s)] *)
Definition len (s : string) : nat := String.length s.

(** Truth value of a string: [bool(s)]. *)
Definition truthy (s : string) : bool :=
  match s with EmptyString => false | _ => true end.

(** [s[:n]] for a non-negative [n]. *)
Fixpoint take (n : nat) (s : string) : string :=
  match n, s with
  | S n', String c s' => String c (take n' s')
  | _, _ => EmptyString
  end.

(** [s.startswith(p)] *)
Fixpoint startswith (p s : string) : bool :=
  match p, s with
  | EmptyString, _ => true
  | String a p', String b s' => if ascii_dec a b then startswith p' s' else false
  | String _ _, EmptyString => false
  end.

(** [sub in s] *)
Fixpoint contains (sub s : string) : bool :=
  startswith sub s ||
  match s with
  | EmptyString => false
  | String _ s' => contains sub s'
  end.

(** [str.lower] on one character, for code points below 256. *)
Definition lower_char (c : ascii) : ascii :=
  let n := nat_of_ascii c in
  if (((65 <=? n) && (n <=? 90))
      || ((192 <=? n) && (n <=? 222) && negb (n =? 215)))%nat
  then ascii_of_nat (n + 32) else c.

Fixpoint lower (s : string) : string :=
  match s with
  | EmptyString => EmptyString
  | String c s' => String (lower_char c) (lower s')
  end.

(** [sep.join(l)] *)
Fixpoint join (sep : string) (l : list string) : string :=
  match l with
  | [] => EmptyString
  | [x] => x
  | x :: rest => x +:+ sep +:+ join sep rest
  end.

(** [str(n)] for a natural number. *)
Definition of_nat (n : nat) : string :=
  NilZero.string_of_uint (Nat.to_uint n).

(** [s.split(sep)] for a non-empty [sep]: [skip] characters of a separator
    just matched are still to be passed over, [cur] is the piece being
    read, reversed. *)
Fixpoint split_go (sep : string) (skip : nat) (cur : list ascii) (s : string)
  : list string :=
  match s with
  | EmptyString => [string_of_list_ascii (rev cur)]
  | String c s' =>
      match skip with
      | S k => split_go sep k cur s'
      | O =>
          if startswith sep s
          then string_of_list_ascii (rev cur)
               :: split_go sep (String.length sep - 1) [] s'
          else split_go sep 0 (c :: cur) s'
      end
  end.

Definition split (sep s : string) : list string := split_go sep 0 [] s.

(** [s.rsplit(c, 1)] for a one-character separator: [None] when [c] does not
    occur (the list then has one element), else the text before and after
    the last [c]. *)
Fixpoint rsplit1 (c : ascii) (s : string) : option (string * string) :=
  match s with
  | EmptyString => None
  | String a s' =>
      match rsplit1 c s' with
      | Some (h, t) => Some (String a h, t)
      | None => if ascii_dec a c then Some (EmptyString, s') else None
      end
  end.

(** The one-character string of a code point. *)
Definition chr (n : nat) : string := String (ascii_of_nat n) EmptyString.

Definition nl : string := chr 10.
Definition dq : string := chr 34.

End PyStr.

(** ** Exceptions, results and logged effects *)

(** A Python exception, as far as the code looks at it: [str(e)]. *)
Inductive exn : Type := Exception (msg : string).

Definition str_of_exn (e : exn) : string :=
  match e with Exception msg => msg end.

(** The outcome of a call: a value, or an exception raised. *)
Inductive result (A : Type) : Type :=
| Ok (a : A)
| Raise (e : exn).
Arguments Ok {A} a.
Arguments Raise {A} e.

(** A computation that logs the external calls it makes, in order, and ends
    in a value or an exception. *)
Definition Eff (Ev A : Type) : Type := list Ev * result A.

Section EffOps.
Context {Ev : Type}.

Definition eff_ret {A} (a : A) : Eff Ev A := ([], Ok a).

Definition eff_raise {A} (e : exn) : Eff Ev A := ([], Raise e).

Definition eff_bind {A B} (k : A -> Eff Ev B) (m : Eff Ev A) : Eff Ev B :=
  match m with
  | (l, Ok a) => let '(l', r) := k a in ((l ++ l')%list, r)
  | (l, Raise e) => (l, Raise e)
  end.

(** [try: m  except Exception as e: h e] *)
Definition try_except {A} (m : Eff Ev A) (h : exn -> Eff Ev A) : Eff Ev A :=
  match m with
  | (l, Raise e) => let '(l', r) := h e in ((l ++ l')%list, r)
  | (l, Ok a) => (l, Ok a)
  end.

(** One logged call to a collaborator, with the outcome it gave. *)
Definition call {A} (ev : Ev) (r : result A) : Eff Ev A := ([ev], r).

End EffOps.

#[global] Instance eff_mret {Ev} : MRet (Eff Ev) := fun A a => eff_ret a.
#[global] Instance eff_mbind {Ev} : MBind (Eff Ev) := fun A B k m => eff_bind k m.

(** ** [backend/utils.py] *)

Module Utils.

Section Pipeline.

(** A decoded raster image (a PIL image object). *)
Context {Image : Type}.

(** Calls that leave the process. *)
Inductive ext_call : Type :=
| ConvertFromPath (pdf_path : string)
| ImageOpen (image_path : string)
| ImageToString (image : Image)
| GenerateContent (contents : string).

(** The collaborators: pdf2image, PIL, Tesseract and the Gemini client.
    [generate_content] answers with [response.text], which may be absent.
    The model name, the system instruction and the sampling configuration
    of the Gemini call are constants of the call site and are left out. *)
Record services : Type := {
  convert_from_path : string -> result (list Image);
  image_open : string -> result Image;
  image_to_string : Image -> result string;
  generate_content : string -> result (option string)
}.

Variable svc : services.

Local Abbreviation M := (Eff ext_call).

Definition extract_text_from_image (image_path : string) : M string :=
  try_except
    (image ← call (ImageOpen image_path) (image_open svc image_path);
     text ← call (ImageToString image) (image_to_string svc image);
     mret (PyStr.strip text))
    (fun e => eff_raise (Exception
       ("Failed to extract text from image: " +:+ str_of_exn e))).

(** The f-string of one page: [--- Page {i+1} ---], a newline, the text. *)
Definition page_section (i : nat) (stripped : string) : string :=
  "--- Page " +:+ PyStr.of_nat (i + 1) +:+ " ---" +:+ PyStr.nl +:+ stripped.

(** The loop [for i, image in enumerate(images)], from index [i] on, with
    the list [all_text] built so far. *)
Fixpoint pdf_pages (i : nat) (images : list Image) (all_text : list string)
  : M (list string) :=
  match images with
  | [] => mret all_text
  | image :: rest =>
      page_text ← call (ImageToString image) (image_to_string svc image);
      if PyStr.truthy (PyStr.strip page_text)
      then pdf_pages (S i) rest
             (all_text ++ [page_section i (PyStr.strip page_text)])%list
      else pdf_pages (S i) rest all_text
  end.

Definition extract_text_from_pdf (pdf_path : string) : M string :=
  try_except
    (images ← call (ConvertFromPath pdf_path) (convert_from_path svc pdf_path);
     all_text ← pdf_pages 0 images [];
     mret (PyStr.join (PyStr.nl +:+ PyStr.nl) all_text))
    (fun e => eff_raise (Exception
       ("Failed to extract text from PDF: " +:+ str_of_exn e))).

Definition MAX_CHARS : nat := 15000.

Definition insufficient_text_message : string :=
  "Unable to analyze: insufficient text extracted from the document.".

Definition truncation_marker : string :=
  PyStr.nl +:+ "...[Text truncated due to length]".

Definition no_analysis_message : string :=
  "AI analysis could not be generated. Please try again or consult your healthcare provider.".

Definition unavailable_message : string :=
  "Service temporarily unavailable due to high demand. Please try again in a few moments.".

Definition configuration_message : string :=
  "API configuration error. Please contact support.".

Definition too_large_message : string :=
  "Document is too large to analyze. Please try a shorter document or split it into sections.".

(** The prompt f-string around [{extracted_text}]. *)
Definition user_prompt (extracted_text : string) : string :=
  PyStr.join PyStr.nl
    [ "Analyze the following medical text and provide a clear, patient-friendly explanation that includes:";
      EmptyString;
      "1. **Document Type**: Identify if this is a lab report, prescription, radiology report, etc.";
      "2. **Key Findings**: List the main test results, medications, or findings";
      "3. **Normal vs Abnormal**: Highlight any values that are outside normal ranges (if applicable)";
      "4. **Simple Explanation**: Explain what these results mean in simple, non-technical language";
      "5. **Recommendations**: Suggest next steps (e.g., " +:+ PyStr.dq
        +:+ "discuss with your doctor" +:+ PyStr.dq +:+ ", " +:+ PyStr.dq
        +:+ "this appears normal" +:+ PyStr.dq +:+ ")";
      EmptyString;
      "Medical Text:";
      extracted_text;
      EmptyString;
      "Remember to include the important disclaimer at the end of your analysis." ].

(** The text handed to the prompt: cut to [MAX_CHARS] with the marker
    appended when longer. *)
Definition limit_input (extracted_text : string) : string :=
  if (MAX_CHARS <? PyStr.len extracted_text)%nat
  then PyStr.take MAX_CHARS extracted_text +:+ truncation_marker
  else extracted_text.

(** The [except Exception as e] branch of the analysis function. *)
Definition analysis_failure (e : exn) : M string :=
  let error_msg := PyStr.lower (str_of_exn e) in
  if PyStr.contains "quota" error_msg || PyStr.contains "rate" error_msg
  then mret unavailable_message
  else if PyStr.contains "invalid" error_msg && PyStr.contains "api" error_msg
  then mret configuration_message
  else if PyStr.contains "token" error_msg || PyStr.contains "length" error_msg
  then mret too_large_message
  else eff_raise (Exception
         ("Failed to analyze medical text with AI: " +:+ str_of_exn e)).

Definition analyze_medical_text_with_ai (extracted_text : string) : M string :=
  try_except
    (if negb (PyStr.truthy extracted_text)
        || (PyStr.len (PyStr.strip extracted_text) <? 10)%nat
     then mret insufficient_text_message
     else
       let extracted_text := limit_input extracted_text in
       response_text ← call (GenerateContent (user_prompt extracted_text))
                            (generate_content svc (user_prompt extracted_text));
       match response_text with
       | Some text => if PyStr.truthy text then mret text
                      else mret no_analysis_message
       | None => mret no_analysis_message
       end)
    analysis_failure.

Definition no_text_message : string :=
  "No readable text found in the document. Please ensure the image is clear and contains text.".

(** The [if / elif / else] that picks the extractor. *)
Definition extract_by_extension (file_path file_extension : string) : M string :=
  if String.eqb (PyStr.lower file_extension) "pdf"
  then extract_text_from_pdf file_path
  else if existsb (String.eqb (PyStr.lower file_extension))
            ["png"; "jpg"; "jpeg"; "gif"]
  then extract_text_from_image file_path
  else eff_raise (Exception ("Unsupported file type: " +:+ file_extension)).

(** [process_uploaded_file], with the module-level name
    [analyze_medical_text_with_ai] it calls as the argument [analyze]. *)
Definition process_uploaded_file_with (analyze : string -> M string)
    (file_path file_extension : string) : M (string * string) :=
  try_except
    (extracted_text ← extract_by_extension file_path file_extension;
     if negb (PyStr.truthy extracted_text)
        || (PyStr.len (PyStr.strip extracted_text) <? 5)%nat
     then mret (EmptyString, no_text_message)
     else
       ai_analysis ← analyze extracted_text;
       mret (extracted_text, ai_analysis))
    (fun e => eff_raise (Exception
       ("Failed to process file: " +:+ str_of_exn e))).

Definition process_uploaded_file : string -> string -> M (string * string) :=
  process_uploaded_file_with analyze_medical_text_with_ai.

End Pipeline.

Arguments ext_call : clear implicits.
Arguments services : clear implicits.

End Utils.

(** ** Effects over a mutable store *)

(** As [Eff], threading a state that keeps the changes made before an
    exception was raised. *)
Definition EffS (St Ev A : Type) : Type := St -> St * Eff Ev A.

Section EffSOps.
Context {St Ev : Type}.

Definition st_ret {A} (a : A) : EffS St Ev A := fun st => (st, ([], Ok a)).

Definition st_raise {A} (e : exn) : EffS St Ev A :=
  fun st => (st, ([], Raise e)).

Definition st_bind {A B} (k : A -> EffS St Ev B) (m : EffS St Ev A)
  : EffS St Ev B :=
  fun st =>
    match m st with
    | (st', (l, Ok a)) =>
        let '(st'', (l', r)) := k a st' in (st'', ((l ++ l')%list, r))
    | (st', (l, Raise e)) => (st', (l, Raise e))
    end.

(** Runs [m] and hands its outcome over as a value: the [try] of a
    [try / except] whose two branches go on differently. *)
Definition st_attempt {A} (m : EffS St Ev A) : EffS St Ev (result A) :=
  fun st => let '(st', (l, r)) := m st in (st', (l, Ok r)).

(** One logged call to a collaborator. *)
Definition st_call {A} (ev : Ev) (r : result A) : EffS St Ev A :=
  fun st => (st, ([ev], r)).

Definition st_get : EffS St Ev St := fun st => (st, ([], Ok st)).

Definition st_modify (f : St -> St) : EffS St Ev unit :=
  fun st => (f st, ([], Ok tt)).

(** A computation without state, its calls logged through [inj]. *)
Definition st_lift {Ev' A} (inj : Ev' -> Ev) (m : Eff Ev' A) : EffS St Ev A :=
  fun st => (st, (inj <$> m.1, m.2)).

End EffSOps.

#[global] Instance effs_mret {St Ev} : MRet (EffS St Ev) :=
  fun A a => st_ret a.
#[global] Instance effs_mbind {St Ev} : MBind (EffS St Ev) :=
  fun A B k m => st_bind k m.

(** ** JSON values: Firestore documents and response bodies *)

#[local] Unset Elimination Schemes.
Inductive json : Type :=
| JNull
| JBool (b : bool)
| JNum (n : Z)
| JStr (s : string)
| JArr (items : list json)
| JObj (fields : gmap string json).
#[local] Set Elimination Schemes.

(** Truth value of a Python object read from a document. *)
Definition json_truthy (v : json) : bool :=
  match v with
  | JNull => false
  | JBool b => b
  | JNum n => negb (n =? 0)%Z
  | JStr s => PyStr.truthy s
  | JArr items => match items with [] => false | _ => true end
  | JObj fields => negb (bool_decide (fields = ∅))
  end.

(** [int(s)] on a string of code points below 256: surrounding white space,
    an optional sign, then decimal digits, with single underscores allowed
    between digits. [None] is the [ValueError]. *)
Module PyInt.

(** The white space [int] skips is not the one [str.strip] removes: the
    ASCII characters TAB..CR and SPACE, and, of the code points above 127,
    those that are Unicode white space (NEL and NBSP below 256). The
    separators FS..US (28..31) are not skipped, so they make [int] fail. *)
Definition is_space (c : ascii) : bool :=
  let n := nat_of_ascii c in
  (((9 <=? n) && (n <=? 13)) || (n =? 32) || (n =? 133) || (n =? 160))%nat.

Fixpoint lstrip (s : string) : string :=
  match s with
  | EmptyString => EmptyString
  | String c s' => if is_space c then lstrip s' else s
  end.

Fixpoint rstrip (s : string) : string :=
  match s with
  | EmptyString => EmptyString
  | String c s' =>
      match rstrip s' with
      | EmptyString => if is_space c then EmptyString else String c EmptyString
      | r => String c r
      end
  end.

Definition digit (c : ascii) : option Z :=
  let n := nat_of_ascii c in
  if ((48 <=? n) && (n <=? 57))%nat then Some (Z.of_nat (n - 48)) else None.

(** The digits after the first one; [after_us] tells that the previous
    character was an underscore. *)
Fixpoint digits (acc : Z) (after_us : bool) (s : string) : option Z :=
  match s with
  | EmptyString => if after_us then None else Some acc
  | String c s' =>
      match digit c with
      | Some d => digits (10 * acc + d) false s'
      | None =>
          if ascii_dec c "_"
          then (if after_us then None else digits acc true s')
          else None
      end
  end.

(** [sys.int_max_str_digits], at its default: since CPython 3.11 (and the
    security releases of the earlier versions) a string with more digits
    than this is refused with a [ValueError]; the sign, the underscores and
    the surrounding white space do not count, leading zeros do. *)
Definition MAX_STR_DIGITS : nat := 4300.

Fixpoint count_digits (s : string) : nat :=
  match s with
  | EmptyString => 0
  | String c s' =>
      match digit c with
      | Some _ => S (count_digits s')
      | None => count_digits s'
      end
  end.

Definition unsigned (s : string) : option Z :=
  if (MAX_STR_DIGITS <? count_digits s)%nat then None
  else
    match s with
    | EmptyString => None
    | String c s' =>
        match digit c with
        | Some d => digits d false s'
        | None => None
        end
    end.

Definition int (s : string) : option Z :=
  match rstrip (lstrip s) with
  | String "+" r => unsigned r
  | String "-" r => Z.opp <$> unsigned r
  | t => unsigned t
  end.

End PyInt.

(** Iterating a set of strings: the order is that of the slots of the hash
    table, which depends on the hash seed of the process. [slot] stands for
    it; [iterate] lists the members by slot, members in the same slot in the
    order given. Whatever [slot] is, the members are listed each once; and
    any order of the members is the one of some [slot], the position in
    that order. *)
Module PySet.

Fixpoint place (slot : string -> nat) (x : string) (l : list string)
  : list string :=
  match l with
  | [] => [x]
  | y :: l' => if (slot x <=? slot y)%nat then x :: l else y :: place slot x l'
  end.

Definition iterate (slot : string -> nat) (members : list string)
  : list string :=
  foldr (place slot) [] members.

End PySet.

(** ** [backend/app.py] *)

Module App.

Definition UPLOAD_FOLDER : string := "uploads".

(** The members of the set literal of the source. Membership is all that
    [allowed_file] asks of it; the one place that iterates the set, the
    message of a refused file type, goes through [PySet.iterate]. *)
Definition ALLOWED_EXTENSIONS : list string := ["pdf"; "png"; "jpg"; "jpeg"; "gif"].

(** What [auth.verify_id_token(id_token, check_revoked=True)] does: the
    [uid] of the decoded token, [RevokedIdTokenError], or another failure. *)
Inductive verification : Type :=
| Verified (uid : string)
| RevokedIdTokenError
| VerificationError (e : exn).

(** The storage bucket handle. *)
Record bucket_client : Type := {
  upload_from_filename : string -> string -> result unit;
  generate_signed_url_v4 : json -> result string
}.

(** The Firestore client handle, over [users/{uid}/reports]: [set] on a
    fresh document gives its id, the ordered and limited query streams
    (id, fields) pairs, [get] gives the fields of a document that exists. *)
Record firestore_client : Type := {
  document_set : string -> gmap string json -> result string;
  query_stream : string -> Z -> result (list (string * gmap string json));
  document_get : string -> string -> result (option (gmap string json))
}.

(** The HTTP request as the handlers read it: the [Authorization] header,
    the file name of the [file] part ([None] when the part is absent, the
    name itself may be absent too) and the query string. *)
Record request : Type := {
  authorization : option string;
  file_part : option (option string);
  args : gmap string string
}.

(** What [file.save(file_path)] does: it writes the file, or it raises (a
    full disk, a name too long, a missing folder), and then [file_left]
    tells whether a file, possibly partial, stays at [file_path]. *)
Inductive save_outcome : Type :=
| Saved
| SaveFailed (e : exn) (file_left : bool).

(** A Flask response: [jsonify(body), status]. *)
Definition response : Type := json * nat.

Definition error_body (msg : string) : json :=
  JObj {[ "error" := JStr msg ]}.

(** The dict [report_data] that the upload handler stores. *)
Definition report_record (filename blob_path extracted_text ai_analysis
    uploaded_at user_id : string) : gmap string json :=
  {[ "filename" := JStr filename;
     "blob_path" := JStr blob_path;
     "extracted_text" := JStr extracted_text;
     "ai_analysis" := JStr ai_analysis;
     "uploaded_at" := JStr uploaded_at;
     "user_id" := JStr user_id ]}.

(** The body of the upload handler's 200 response. *)
Definition upload_success (filename extracted_text ai_analysis
    report_id : string) : json :=
  JObj {[ "success" := JBool true;
          "filename" := JStr filename;
          "extracted_text" := JStr extracted_text;
          "ai_analysis" := JStr ai_analysis;
          "report_id" := JStr report_id;
          "message" := JStr "File processed successfully" ]}.

Section Handlers.

Context {Image : Type}.

(** The process and its surroundings: the module globals [bucket] and [db]
    ([None] after a failed Firebase initialisation), the identity service,
    werkzeug's [secure_filename], the values [uuid.uuid4()] and
    [datetime.utcnow().isoformat()] give, the OCR / AI collaborators, what
    the local disk answers to [file.save] and to [os.remove] of a file that
    exists, and the slots of the strings in the sets of this process. *)
Record world : Type := {
  verify_id_token : string -> verification;
  secure_filename : string -> string;
  uuid4 : string;
  utcnow_isoformat : string;
  bucket : option bucket_client;
  db : option firestore_client;
  pipeline : Utils.services Image;
  save : string -> save_outcome;
  os_remove : string -> result unit;
  str_slot : string -> nat
}.

Inductive ext_call : Type :=
| VerifyIdToken (id_token : string)
| FileSave (file_path : string)
| OsRemove (file_path : string)
| Pipeline (c : Utils.ext_call Image)
| UploadFromFilename (blob_path local_file_path : string)
| DocumentSet (user_id : string) (report_data : gmap string json)
| QueryStream (user_id : string) (limit : Z)
| DocumentGet (user_id report_id : string)
| GenerateSignedUrl (blob_path : json).

Variable w : world.

(** The state is the local disk: the set of paths that exist. *)
Local Abbreviation H := (EffS (gset string) ext_call).

Definition verify_firebase_token (id_token : string) : H string :=
  st_call (VerifyIdToken id_token)
    match verify_id_token w id_token with
    | Verified uid => Ok uid
    | RevokedIdTokenError => Raise (Exception "Token has been revoked")
    | VerificationError e =>
        Raise (Exception ("Invalid authentication token: " +:+ str_of_exn e))
    end.

Definition get_authenticated_user (req : request) : H string :=
  match authorization req with
  | None => st_raise (Exception "Missing or invalid Authorization header")
  | Some auth_header =>
      if negb (PyStr.truthy auth_header)
         || negb (PyStr.startswith "Bearer " auth_header)
      then st_raise (Exception "Missing or invalid Authorization header")
      else
        match PyStr.split "Bearer " auth_header !! 1%nat with
        | None => st_raise (Exception "list index out of range")
        | Some id_token => verify_firebase_token id_token
        end
  end.

Definition allowed_file (filename : string) : bool :=
  PyStr.contains "." filename &&
  match PyStr.rsplit1 "." filename with
  | Some (_, ext) => existsb (String.eqb (PyStr.lower ext)) ALLOWED_EXTENSIONS
  | None => false
  end.

Definition upload_to_firebase_storage
    (local_file_path filename user_id : string) : H string :=
  match bucket w with
  | None => mret EmptyString
  | Some b =>
      let blob_path := "medical_reports/" +:+ user_id +:+ "/" +:+ filename in
      r ← st_attempt (st_call (UploadFromFilename blob_path local_file_path)
                        (upload_from_filename b blob_path local_file_path));
      match r with
      | Ok _ => mret blob_path
      | Raise _ => mret EmptyString
      end
  end.

Definition generate_signed_url (blob_path : json) : H string :=
  match bucket w with
  | None => mret EmptyString
  | Some b =>
      if negb (json_truthy blob_path) then mret EmptyString
      else
        r ← st_attempt (st_call (GenerateSignedUrl blob_path)
                          (generate_signed_url_v4 b blob_path));
        match r with
        | Ok signed_url => mret signed_url
        | Raise _ => mret EmptyString
        end
  end.

Definition save_report_to_firestore
    (user_id : string) (report_data : gmap string json) : H string :=
  r ← st_attempt
        match db w with
        | None => st_raise (Exception "Database not available")
        | Some d => st_call (DocumentSet user_id report_data)
                      (document_set d user_id report_data)
        end;
  match r with
  | Ok doc_id => mret doc_id
  | Raise e => st_raise (Exception
      ("Failed to save report to database: " +:+ str_of_exn e))
  end.

(** [if os.path.exists(file_path): os.remove(file_path)]: a removal that
    raises leaves the file where it is. *)
Definition remove_if_exists (file_path : string) : H unit :=
  disk ← st_get;
  if bool_decide (file_path ∈ disk)
  then _ ← st_call (OsRemove file_path) (os_remove w file_path);
       st_modify (fun disk => disk ∖ {[ file_path ]})
  else mret tt.

(** [file.save(file_path)] *)
Definition file_save (file_path : string) : H unit :=
  match save w file_path with
  | Saved =>
      _ ← st_call (FileSave file_path) (Ok tt);
      st_modify (fun disk => {[ file_path ]} ∪ disk)
  | SaveFailed e file_left =>
      _ ← st_modify (fun disk =>
            if file_left then {[ file_path ]} ∪ disk else disk);
      st_call (FileSave file_path) (Raise e)
  end.

(** The outermost [try / except Exception] of a handler. *)
Definition guarded (prefix : string) (m : H response) : H response :=
  r ← st_attempt m;
  match r with
  | Ok resp => mret resp
  | Raise e => mret (error_body (prefix +:+ str_of_exn e), 500%nat)
  end.

Definition upload_file (req : request) : H response :=
  guarded "Upload failed: "
    (auth ← st_attempt (get_authenticated_user req);
     match auth with
     | Raise e => mret (error_body (str_of_exn e), 401%nat)
     | Ok user_id =>
       match file_part req with
       | None => mret (error_body "No file provided", 400%nat)
       | Some name =>
         let filename := default EmptyString name in
         if negb (PyStr.truthy filename)
         then mret (error_body "No file selected", 400%nat)
         else if negb (allowed_file filename)
         then mret (error_body ("Invalid file type. Allowed types: "
                       +:+ PyStr.join ", "
                             (PySet.iterate (str_slot w) ALLOWED_EXTENSIONS)),
                     400%nat)
         else
           let original_filename := secure_filename w filename in
           match PyStr.rsplit1 "." original_filename with
           | None => st_raise (Exception "list index out of range")
           | Some (_, ext) =>
             let file_extension := PyStr.lower ext in
             let unique_filename := uuid4 w +:+ "_" +:+ original_filename in
             let file_path := UPLOAD_FOLDER +:+ "/" +:+ unique_filename in
             _ ← file_save file_path;
             processed ← st_attempt (st_lift Pipeline
               (Utils.process_uploaded_file (pipeline w) file_path file_extension));
             match processed with
             | Raise e =>
                 _ ← remove_if_exists file_path;
                 mret (error_body ("Processing failed: " +:+ str_of_exn e), 500%nat)
             | Ok (extracted_text, ai_analysis) =>
                 blob_path ←
                   match bucket w with
                   | Some _ =>
                       r ← st_attempt (upload_to_firebase_storage
                                         file_path unique_filename user_id);
                       mret (match r with Ok p => p | Raise _ => EmptyString end)
                   | None => mret EmptyString
                   end;
                 report_id ←
                   match db w with
                   | Some _ =>
                       let report_data :=
                         report_record original_filename blob_path
                           extracted_text ai_analysis (utcnow_isoformat w)
                           user_id in
                       r ← st_attempt (save_report_to_firestore user_id report_data);
                       mret (match r with Ok i => i | Raise _ => EmptyString end)
                   | None => mret EmptyString
                   end;
                 _ ← remove_if_exists file_path;
                 mret (upload_success original_filename extracted_text
                         ai_analysis report_id, 200%nat)
             end
           end
       end
     end).

(** [request.args.get('limit', 50, type=int)] followed by [min(limit, 100)] *)
Definition requested_limit (req : request) : Z :=
  let limit :=
    match args req !! "limit" with
    | None => 50%Z
    | Some v => default 50%Z (PyInt.int v)
    end in
  Z.min limit 100.

(** The body of the loop over the streamed documents. *)
Definition present_report (doc : string * gmap string json)
  : H (gmap string json) :=
  let report_data := <[ "report_id" := JStr doc.1 ]> doc.2 in
  match report_data !! "blob_path" with
  | Some blob_path =>
      if json_truthy blob_path
      then file_url ← generate_signed_url blob_path;
           mret (<[ "file_url" := JStr file_url ]> report_data)
      else mret report_data
  | None => mret report_data
  end.

Fixpoint present_reports (docs : list (string * gmap string json))
    (reports : list json) : H (list json) :=
  match docs with
  | [] => mret reports
  | doc :: rest =>
      report_data ← present_report doc;
      present_reports rest (reports ++ [JObj report_data])%list
  end.

Definition unauthorized : response :=
  (error_body "Unauthorized: You can only access your own reports", 403%nat).

Definition get_user_reports (user_id : string) (req : request) : H response :=
  guarded "Failed to retrieve reports: "
    (auth ← st_attempt (get_authenticated_user req);
     match auth with
     | Raise e => mret (error_body (str_of_exn e), 401%nat)
     | Ok authenticated_uid =>
       if negb (String.eqb authenticated_uid user_id) then mret unauthorized
       else
         match db w with
         | None => mret (error_body "Database not available", 503%nat)
         | Some d =>
           let limit := requested_limit req in
           docs ← st_call (QueryStream user_id limit) (query_stream d user_id limit);
           reports ← present_reports docs [];
           mret (JObj {[ "success" := JBool true;
                         "user_id" := JStr user_id;
                         "count" := JNum (Z.of_nat (length reports));
                         "reports" := JArr reports ]},
                 200%nat)
         end
     end).

Definition get_report_detail (report_id : string) (req : request) : H response :=
  guarded "Failed to retrieve report: "
    (auth ← st_attempt (get_authenticated_user req);
     match auth with
     | Raise e => mret (error_body (str_of_exn e), 401%nat)
     | Ok authenticated_uid =>
       match db w with
       | None => mret (error_body "Database not available", 503%nat)
       | Some d =>
         let user_id := default EmptyString (args req !! "user_id") in
         if negb (PyStr.truthy user_id)
         then mret (error_body "user_id parameter is required", 400%nat)
         else if negb (String.eqb authenticated_uid user_id) then mret unauthorized
         else
           doc ← st_call (DocumentGet user_id report_id)
                   (document_get d user_id report_id);
           match doc with
           | None => mret (error_body "Report not found", 404%nat)
           | Some fields =>
               report_data ← present_report (report_id, fields);
               mret (JObj {[ "success" := JBool true;
                             "report" := JObj report_data ]}, 200%nat)
           end
       end
     end).

End Handlers.

Arguments world : clear implicits.
Arguments ext_call : clear implicits.

End App.

(** ** The stages of an upload, named for the statements below *)

Module Upload.

Section Stages.
Context {Image : Type} (w : App.world Image).

(** The local variables [unique_filename] and [file_path] of the handler,
    for an uploaded file called [filename]. *)
Definition unique_filename (filename : string) : string :=
  App.uuid4 w +:+ "_" +:+ App.secure_filename w filename.

Definition temp_path (filename : string) : string :=
  App.UPLOAD_FOLDER +:+ "/" +:+ unique_filename filename.

Definition blob_path_of (user_id filename : string) : string :=
  "medical_reports/" +:+ user_id +:+ "/" +:+ unique_filename filename.

(** The bucket is missing, or the upload to it raises. *)
Definition storage_fails (user_id filename : string) : Prop :=
  match App.bucket w with
  | None => True
  | Some b =>
      exists e, App.upload_from_filename b (blob_path_of user_id filename)
                  (temp_path filename) = Raise e
  end.

(** The record the handler stores for an upload of [user_id]. *)
Definition record (user_id filename blob_path extracted_text
    ai_analysis : string) : gmap string json :=
  App.report_record (App.secure_filename w filename) blob_path extracted_text
    ai_analysis (App.utcnow_isoformat w) user_id.

(** The store is missing, or writing the record raises. *)
Definition persistence_fails (user_id filename blob_path extracted_text
    ai_analysis : string) : Prop :=
  match App.db w with
  | None => True
  | Some d =>
      exists e, App.document_set d user_id
                  (record user_id filename blob_path extracted_text ai_analysis)
                = Raise e
  end.

(** The end of a request that comes to remove its temporary file
    [file_path], which is on [disk], and would then answer [resp]: the
    removal succeeds, or it raises, and then the file stays and the outer
    handler answers 500. The disk at the end and the response. *)
Definition after_removal (file_path : string) (disk : gset string)
    (resp : App.response) : gset string * App.response :=
  match App.os_remove w file_path with
  | Ok _ => (disk ∖ {[ file_path ]}, resp)
  | Raise e =>
      (disk, (App.error_body ("Upload failed: " +:+ str_of_exn e), 500%nat))
  end.

(** How the handler ends once the file has been saved and processed: the
    calls of the storage step [sl], then the write of the record if there
    is a store, then the removal of the temporary file. *)
Definition stored_outcome (req : App.request) (disk : gset string)
    (l : list (App.ext_call Image)) (user_id filename : string)
    (pl : list (Utils.ext_call Image)) (extracted_text ai_analysis : string)
    (sl : list (App.ext_call Image)) (blob_path report_id : string) : Prop :=
  let ended :=
    after_removal (temp_path filename) ({[ temp_path filename ]} ∪ disk)
      (App.upload_success (App.secure_filename w filename) extracted_text
         ai_analysis report_id, 200%nat) in
  App.upload_file w req disk
  = (ended.1,
     ((l ++ App.FileSave (temp_path filename)
          :: (App.Pipeline <$> pl) ++ sl
          ++ match App.db w with
             | Some _ =>
                 [App.DocumentSet user_id
                    (record user_id filename blob_path extracted_text
                       ai_analysis)]
             | None => []
             end
          ++ [App.OsRemove (temp_path filename)])%list,
      Ok ended.2))
  /\ (forall c, c ∈ sl ->
        c = App.UploadFromFilename (blob_path_of user_id filename)
              (temp_path filename))
  /\ (storage_fails user_id filename -> blob_path = EmptyString)
  /\ (persistence_fails user_id filename blob_path extracted_text
        ai_analysis -> report_id = EmptyString).

(** A response given before the file is saved: the disk is as it was and
    the log is [l]. *)
Definition rejected (req : App.request) (disk : gset string)
    (l : list (App.ext_call Image)) (resp : App.response) : Prop :=
  App.upload_file w req disk = (disk, (l, Ok resp)).

(** A request whose [file.save] raised: nothing is called afterwards, the
    outer handler answers, and the disk holds what the failed save left. *)
Definition not_saved (req : App.request) (disk : gset string)
    (l : list (App.ext_call Image)) (file_path : string) : Prop :=
  exists e file_left,
    App.save w file_path = App.SaveFailed e file_left
    /\ App.upload_file w req disk
       = ((if file_left then {[ file_path ]} ∪ disk else disk),
          ((l ++ [App.FileSave file_path])%list,
           Ok (App.error_body ("Upload failed: " +:+ str_of_exn e), 500%nat))).

(** A request whose file was saved at [file_path]: the log holds the save,
    then calls [mid] among which there is no other save, then the removal;
    [resp], a 200 or a 500, is the response that awaits a removal that
    succeeds. *)
Definition saved (req : App.request) (disk : gset string)
    (l : list (App.ext_call Image)) (file_path : string)
    (mid : list (App.ext_call Image)) (resp : App.response) : Prop :=
  App.save w file_path = App.Saved
  /\ App.upload_file w req disk
     = ((after_removal file_path ({[ file_path ]} ∪ disk) resp).1,
        ((l ++ App.FileSave file_path :: mid ++ [App.OsRemove file_path])%list,
         Ok (after_removal file_path ({[ file_path ]} ∪ disk) resp).2))
  /\ (forall p, App.FileSave p ∉ mid)
  /\ (resp.2 = 200 \/ resp.2 = 500).

End Stages.

End Upload.

(** ** The joined output of the PDF extractor, stated on the page texts *)

Module PdfOutput.

(** The section of page [i] (0-based) with OCR text [t]: nothing for a page
    that is blank, else the marker line and the trimmed text. *)
Definition section_of (i : nat) (t : string) : option string :=
  if PyStr.truthy (PyStr.strip t)
  then Some (Utils.page_section i (PyStr.strip t))
  else None.

(** The sections of the pages [texts], the first of which has index [i]. *)
Definition sections_from (i : nat) (texts : list string) : list string :=
  omap id (imap (fun j t => section_of (i + j) t) texts).

(** Sections separated by one empty line. *)
Definition joined (texts : list string) : string :=
  PyStr.join (PyStr.nl +:+ PyStr.nl) (sections_from 0 texts).

End PdfOutput.

(** ** The signals looked for in the message of a failed analysis *)

Module Signals.

(** [error_msg] is the lower-cased message of the failure. *)
Definition quota_or_rate (error_msg : string) : bool :=
  PyStr.contains "quota" error_msg || PyStr.contains "rate" error_msg.

Definition invalid_api (error_msg : string) : bool :=
  PyStr.contains "invalid" error_msg && PyStr.contains "api" error_msg.

Definition token_or_length (error_msg : string) : bool :=
  PyStr.contains "token" error_msg || PyStr.contains "length" error_msg.

End Signals.

(** ** Concrete collaborators, for running the model *)

Module Demo.

(** An image is the text printed on it. [pages] are the pages every PDF
    rasterises to, every image file shows [scan], and the Gemini call
    answers [reply]. *)
Definition services (pages : list string) (scan : string)
    (reply : result (option string)) : Utils.services string :=
  {| Utils.convert_from_path := fun _ => Ok pages;
     Utils.image_open := fun _ => Ok scan;
     Utils.image_to_string := fun image => Ok image;
     Utils.generate_content := fun _ => reply |}.

Definition blank_text : string :=
  string_of_list_ascii (repeat " "%char 15001).

Definition long_text : string :=
  string_of_list_ascii (repeat "a"%char 15001).

(** Tokens of the form [tok-<uid>] verify to [uid]. *)
Definition verify (id_token : string) : App.verification :=
  if PyStr.startswith "tok-" id_token
  then App.Verified (String.substring 4 (String.length id_token - 4) id_token)
  else App.VerificationError (Exception "bad signature").

Definition failing_bucket : App.bucket_client :=
  {| App.upload_from_filename := fun _ _ => Raise (Exception "bucket not found");
     App.generate_signed_url_v4 := fun _ => Raise (Exception "no credentials") |}.

Definition failing_store : App.firestore_client :=
  {| App.document_set := fun _ _ => Raise (Exception "deadline exceeded");
     App.query_stream := fun _ _ => Ok [];
     App.document_get := fun _ _ => Ok None |}.

(** A process whose disk takes every file and gives every file up, and
    whose sets iterate in the order their members are written. *)
Definition world (bucket : option App.bucket_client)
    (db : option App.firestore_client) (svc : Utils.services string)
  : App.world string :=
  {| App.verify_id_token := verify;
     App.secure_filename := fun name => name;
     App.uuid4 := "0b6f";
     App.utcnow_isoformat := "2024-05-01T10:00:00";
     App.bucket := bucket;
     App.db := db;
     App.pipeline := svc;
     App.save := fun _ => App.Saved;
     App.os_remove := fun _ => Ok tt;
     App.str_slot := fun _ => 0 |}.

Definition bearer (uid : string) : option string :=
  Some ("Bearer tok-" +:+ uid).

Definition upload_request (uid filename : string) : App.request :=
  {| App.authorization := bearer uid;
     App.file_part := Some (Some filename);
     App.args := ∅ |}.

Definition query_request (uid : string) (args : gmap string string)
  : App.request :=
  {| App.authorization := bearer uid;
     App.file_part := None;
     App.args := args |}.

End Demo.

(** ** Collaborators that fail on chosen inputs *)

Module Lab.

(** As [Demo.services], but the PDF [broken.pdf] cannot be rasterised, the
    file [missing.png] cannot be opened and the image [smudge] cannot be
    read by the OCR engine. *)
Definition services (pages : list string) (scan : string)
    (reply : result (option string)) : Utils.services string :=
  {| Utils.convert_from_path := fun pdf_path =>
       if String.eqb pdf_path "broken.pdf"
       then Raise (Exception "Unable to get page count")
       else Ok pages;
     Utils.image_open := fun image_path =>
       if String.eqb image_path "missing.png"
       then Raise (Exception "No such file or directory")
       else Ok scan;
     Utils.image_to_string := fun image =>
       if String.eqb image "smudge"
       then Raise (Exception "tesseract is not installed")
       else Ok image;
     Utils.generate_content := fun _ => reply |}.

(** A stored report of alice, with a stale [report_id] field of its own. *)
Definition report : gmap string json :=
  {[ "filename" := JStr "scan.png";
     "blob_path" := JStr "medical_reports/alice/0b6f_scan.png";
     "report_id" := JStr "stale" ]}.

(** A store that holds [report] for alice under the id [r1], gives new
    records the id [r2], refuses the queries of anyone else and times out
    on the id [slow]. *)
Definition store : App.firestore_client :=
  {| App.document_set := fun _ _ => Ok "r2";
     App.query_stream := fun user_id _ =>
       if String.eqb user_id "alice" then Ok [("r1", report)]
       else Raise (Exception "permission denied");
     App.document_get := fun _ report_id =>
       if String.eqb report_id "r1" then Ok (Some report)
       else if String.eqb report_id "slow"
       then Raise (Exception "deadline exceeded")
       else Ok None |}.

(** A bucket that takes every upload and signs every path. *)
Definition bucket : App.bucket_client :=
  {| App.upload_from_filename := fun _ _ => Ok tt;
     App.generate_signed_url_v4 := fun _ => Ok "https://storage.test/signed" |}.

(** As [Demo.world], on a disk that answers [save] and [os_remove], and in
    a process whose sets iterate by [str_slot]. *)
Definition world (save : string -> App.save_outcome)
    (os_remove : string -> result unit) (str_slot : string -> nat)
    (bucket : option App.bucket_client) (db : option App.firestore_client)
    (svc : Utils.services string) : App.world string :=
  {| App.verify_id_token := Demo.verify;
     App.secure_filename := fun name => name;
     App.uuid4 := "0b6f";
     App.utcnow_isoformat := "2024-05-01T10:00:00";
     App.bucket := bucket;
     App.db := db;
     App.pipeline := svc;
     App.save := save;
     App.os_remove := os_remove;
     App.str_slot := str_slot |}.

(** A disk that saves, and on which the saved file cannot be removed: it is
    still held open. *)
Definition held (file_path : string) : result unit :=
  Raise (Exception "The file is being used by another process").

(** A disk without room: the save raises, leaving a partial file. *)
Definition full (file_path : string) : App.save_outcome :=
  App.SaveFailed (Exception "No space left on device") true.

(** A process that iterates its sets by the length of the strings. *)
Definition by_length (s : string) : nat := String.length s.

End Lab.

(** ** What the read handlers and the upload handler may call *)

Module Calls.

Section Kinds.
Context {Image : Type}.

(** The calls of a handler that only reads. *)
Definition read_only (c : App.ext_call Image) : Prop :=
  match c with
  | App.VerifyIdToken _ | App.QueryStream _ _ | App.DocumentGet _ _
  | App.GenerateSignedUrl _ => True
  | _ => False
  end.

(** The calls of an upload made for [user_id]: local work, and writes that
    stay under the user's own blob folder and report collection. *)
Definition own_write (user_id : string) (c : App.ext_call Image) : Prop :=
  match c with
  | App.VerifyIdToken _ | App.FileSave _ | App.OsRemove _ | App.Pipeline _ =>
      True
  | App.UploadFromFilename blob_path _ =>
      PyStr.startswith ("medical_reports/" +:+ user_id +:+ "/") blob_path = true
  | App.DocumentSet owner report_data =>
      owner = user_id /\ report_data !! "user_id" = Some (JStr user_id)
  | App.QueryStream _ _ | App.DocumentGet _ _ | App.GenerateSignedUrl _ =>
      False
  end.

(** A report as the handlers hand it out for the stored document [doc]:
    the fields of the document, with [report_id] set to the id of the
    document, and possibly [file_url] set. *)
Definition presents (doc : string * gmap string json) (report : json) : Prop :=
  exists fields : gmap string json,
    report = JObj fields
    /\ fields !! "report_id" = Some (JStr doc.1)
    /\ forall k, k <> "report_id" -> k <> "file_url" ->
         fields !! k = doc.2 !! k.

End Kinds.

End Calls.

(** * Properties *)

(** ** The model at work on concrete inputs *)

Example strip_trims_both_ends :
  PyStr.strip ("  Hb 13.5 " +:+ PyStr.nl) = "Hb 13.5".
Proof. reflexivity. Qed.

Example split_on_bearer :
  PyStr.split "Bearer " "Bearer abc" = [EmptyString; "abc"].
Proof. reflexivity. Qed.

Example int_of_strings :
  PyInt.int " 12 " = Some 12%Z /\ PyInt.int "-3" = Some (-3)%Z
  /\ PyInt.int "1_000" = Some 1000%Z /\ PyInt.int "1__0" = None
  /\ PyInt.int "ten" = None /\ PyInt.int EmptyString = None.
Proof. repeat split; reflexivity. Qed.

(** [str.strip] removes the separators FS..US, [int] does not skip them;
    both pass over VT, FF, NEL and NBSP. *)
Example int_of_separators :
  PyStr.strip (PyStr.chr 28 +:+ "6") = "6"
  /\ PyInt.int (PyStr.chr 28 +:+ "6") = None
  /\ PyInt.int ("6" +:+ PyStr.chr 31) = None
  /\ PyInt.int (PyStr.chr 160 +:+ "6" +:+ PyStr.chr 133) = Some 6%Z
  /\ PyInt.int (PyStr.chr 11 +:+ "6" +:+ PyStr.chr 12) = Some 6%Z.
Proof. repeat split; reflexivity. Qed.

(** 4300 digits are read, one more is refused. *)
Example int_of_long_strings :
  PyInt.int (string_of_list_ascii (repeat "0"%char 4300)) = Some 0%Z
  /\ PyInt.int ("-" +:+ string_of_list_ascii (repeat "0"%char 4300))
     = Some 0%Z
  /\ PyInt.int (string_of_list_ascii (repeat "0"%char 4301)) = None.
Proof. repeat split; vm_compute; reflexivity. Qed.

(** The limit of the listing, as read from the query string. *)
Example requested_limit_examples :
  App.requested_limit (Demo.query_request "alice" ∅) = 50%Z
  /\ App.requested_limit (Demo.query_request "alice" {[ "limit" := "6" ]})
     = 6%Z
  /\ App.requested_limit (Demo.query_request "alice" {[ "limit" := "250" ]})
     = 100%Z
  /\ App.requested_limit (Demo.query_request "alice" {[ "limit" := "-5" ]})
     = (-5)%Z
  /\ App.requested_limit
       (Demo.query_request "alice" {[ "limit" := PyStr.chr 28 +:+ "6" ]})
     = 50%Z
  /\ App.requested_limit
       (Demo.query_request "alice"
          {[ "limit" := string_of_list_ascii (repeat "9"%char 4301) ]})
     = 50%Z.
Proof. repeat split; vm_compute; reflexivity. Qed.

Example allowed_file_examples :
  App.allowed_file "scan.PNG" = true /\ App.allowed_file "notes.txt" = false
  /\ App.allowed_file "pdf" = false.
Proof. repeat split; reflexivity. Qed.

(** The order in which the allowed types are listed is that of the process:
    two processes with different slots list them differently. *)
Example allowed_types_order_varies :
  PyStr.join ", " (PySet.iterate (fun _ => 0) App.ALLOWED_EXTENSIONS)
  = "pdf, png, jpg, jpeg, gif"
  /\ PyStr.join ", " (PySet.iterate Lab.by_length App.ALLOWED_EXTENSIONS)
     = "pdf, png, jpg, gif, jpeg".
Proof. split; reflexivity. Qed.

Lemma place_permutation (slot : string -> nat) (x : string) (l : list string) :
  PySet.place slot x l ≡ₚ x :: l.
Proof.
  induction l as [| y l IH]; [reflexivity |].
  cbn [PySet.place]. destruct (slot x <=? slot y)%nat; [reflexivity |].
  rewrite IH. apply perm_swap.
Qed.

(** Whatever the slots, iterating a set lists its members, each once. *)
Lemma iterate_permutation (slot : string -> nat) (members : list string) :
  PySet.iterate slot members ≡ₚ members.
Proof.
  induction members as [| x l IH]; [reflexivity |].
  unfold PySet.iterate in *. cbn [foldr].
  by rewrite place_permutation, IH.
Qed.

(** An upload with an extension that is not allowed: 400, nothing saved,
    and the message lists the five allowed types in some order. *)
Example upload_of_txt_is_rejected (slot : string -> nat) :
  exists types,
    types ≡ₚ ["pdf"; "png"; "jpg"; "jpeg"; "gif"]
    /\ App.upload_file
         (Lab.world (fun _ => App.Saved) (fun _ => Ok tt) slot None None
            (Demo.services [] "" (Ok None)))
         (Demo.upload_request "alice" "notes.txt") ∅
       = (∅, ([App.VerifyIdToken "tok-alice"],
              Ok (App.error_body
                    ("Invalid file type. Allowed types: "
                     +:+ PyStr.join ", " types),
                  400%nat))).
Proof.
  exists (PySet.iterate slot App.ALLOWED_EXTENSIONS).
  split; [apply iterate_permutation | reflexivity].
Qed.

(** A request without a bearer credential: 401. *)
Example upload_without_credential :
  App.upload_file
    (Demo.world None None (Demo.services [] "" (Ok None)))
    {| App.authorization := Some "Basic abc";
       App.file_part := Some (Some "scan.png");
       App.args := ∅ |} ∅
  = (∅, ([], Ok (App.error_body "Missing or invalid Authorization header",
                 401%nat))).
Proof. vm_compute. reflexivity. Qed.

(** ** Running the effect combinators *)

Section EffLemmas.
Context {Ev : Type}.

Lemma bind_call_ok {A B} (ev : Ev) (a : A) (k : A -> Eff Ev B) :
  call ev (Ok a) ≫= k = (ev :: (k a).1, (k a).2).
Proof.
  unfold mbind, eff_mbind, eff_bind, call. destruct (k a) as [l r]. reflexivity.
Qed.

Lemma bind_call_raise {A B} (ev : Ev) (e : exn) (k : A -> Eff Ev B) :
  call ev (Raise e) ≫= k = ([ev], Raise e).
Proof. reflexivity. Qed.

Lemma bind_ok {A B} (l : list Ev) (a : A) (k : A -> Eff Ev B) :
  (l, Ok a) ≫= k = ((l ++ (k a).1)%list, (k a).2).
Proof.
  unfold mbind, eff_mbind, eff_bind. destruct (k a) as [l' r]. reflexivity.
Qed.

End EffLemmas.

(** ** Text extraction *)

Section Extraction.
Context {Image : Type} (svc : Utils.services Image).

Lemma sections_from_cons (i : nat) (t : string) (texts : list string) :
  PdfOutput.sections_from i (t :: texts) =
  match PdfOutput.section_of i t with
  | Some s => s :: PdfOutput.sections_from (S i) texts
  | None => PdfOutput.sections_from (S i) texts
  end.
Proof.
  unfold PdfOutput.sections_from. rewrite imap_cons. simpl.
  replace (i + 0) with i by lia.
  assert (Hext : imap ((fun j t0 => PdfOutput.section_of (i + j) t0) ∘ S) texts
                 = imap (fun j t0 => PdfOutput.section_of (S i + j) t0) texts).
  { apply imap_ext. intros j x _. simpl. f_equal. lia. }
  rewrite Hext. destruct (PdfOutput.section_of i t); reflexivity.
Qed.

(** The page loop reads every page once, in order, and appends the
    sections of the pages that are not blank to what it was given. *)
Lemma pdf_pages_run (images : list Image) (texts : list string) :
  Forall2 (fun image t => Utils.image_to_string svc image = Ok t) images texts ->
  forall (i : nat) (all_text : list string),
    Utils.pdf_pages svc i images all_text =
    (Utils.ImageToString <$> images,
     Ok (all_text ++ PdfOutput.sections_from i texts)%list).
Proof.
  induction 1 as [| image t images texts Hocr _ IH]; intros i all_text.
  - simpl. unfold PdfOutput.sections_from. simpl. by rewrite app_nil_r.
  - cbn [Utils.pdf_pages]. rewrite Hocr. rewrite bind_call_ok, sections_from_cons.
    unfold PdfOutput.section_of.
    destruct (PyStr.truthy (PyStr.strip t)).
    + rewrite IH. simpl. by rewrite <- app_assoc.
    + rewrite IH. reflexivity.
Qed.

End Extraction.

Section ExtractionClaims.
Context {Image : Type} (svc : Utils.services Image).

(** C1 (as amended): when the PDF at [pdf_path] rasterises to [images] and
    these OCR to [texts], the extractor returns, without raising, the
    sections of exactly the pages whose text is not blank, in ascending page
    order; a section is the marker [--- Page i ---] (pages counted from 1),
    one line break and the trimmed page text, consecutive sections are
    separated by one empty line, and a blank page contributes nothing. Every
    page is handed to the OCR engine once, in page order. *)
Theorem extract_text_from_pdf_sections
    (pdf_path : string) (images : list Image) (texts : list string) :
  Utils.convert_from_path svc pdf_path = Ok images ->
  Forall2 (fun image t => Utils.image_to_string svc image = Ok t) images texts ->
  Utils.extract_text_from_pdf svc pdf_path =
  (Utils.ConvertFromPath pdf_path :: (Utils.ImageToString <$> images),
   Ok (PdfOutput.joined texts)).
Proof.
  intros Hconv Hocr. unfold Utils.extract_text_from_pdf.
  rewrite Hconv, bind_call_ok, (pdf_pages_run svc images texts Hocr).
  rewrite bind_ok. simpl. by rewrite app_nil_r.
Qed.

End ExtractionClaims.

Lemma extract_text_from_pdf_sections_witness :
  Utils.extract_text_from_pdf
    (Demo.services ["Hb 13.5"; "   "; " WBC 7.2 "] "" (Ok None)) "report.pdf" =
  ([Utils.ConvertFromPath "report.pdf"; Utils.ImageToString "Hb 13.5";
    Utils.ImageToString "   "; Utils.ImageToString " WBC 7.2 "],
   Ok ("--- Page 1 ---" +:+ PyStr.nl +:+ "Hb 13.5" +:+ PyStr.nl +:+ PyStr.nl
       +:+ "--- Page 3 ---" +:+ PyStr.nl +:+ "WBC 7.2")).
Proof.
  apply (extract_text_from_pdf_sections
           (Demo.services ["Hb 13.5"; "   "; " WBC 7.2 "] "" (Ok None))
           "report.pdf" ["Hb 13.5"; "   "; " WBC 7.2 "]
           ["Hb 13.5"; "   "; " WBC 7.2 "]).
  - reflexivity.
  - repeat constructor.
Defined.

(** C1 as stated fails: a one-page PDF whose page reads [A] gives the marker,
    a single line break and [A]; no empty line follows the marker (or
    anything else) in the output. *)
Lemma extract_text_from_pdf_no_blank_line :
  Utils.extract_text_from_pdf (Demo.services ["A"] "" (Ok None)) "report.pdf" =
    ([Utils.ConvertFromPath "report.pdf"; Utils.ImageToString "A"],
     Ok ("--- Page 1 ---" +:+ PyStr.nl +:+ "A"))
  /\ PyStr.contains (PyStr.nl +:+ PyStr.nl)
       ("--- Page 1 ---" +:+ PyStr.nl +:+ "A") = false.
Proof. split; vm_compute; reflexivity. Qed.

(** ** Analysis and the file pipeline *)

Lemma truthy_false_strip (s : string) :
  PyStr.truthy s = false -> PyStr.len (PyStr.strip s) = 0.
Proof. destruct s; [reflexivity | discriminate]. Qed.

Section PipelineClaims.
Context {Image : Type} (svc : Utils.services Image).

(** The guard of the pipeline and of the analysis function: an empty text
    has trimmed length 0, so the guard is the bound on the trimmed length. *)
Lemma short_guard (text : string) (n : nat) :
  0 < n ->
  negb (PyStr.truthy text) || (PyStr.len (PyStr.strip text) <? n)%nat
  = (PyStr.len (PyStr.strip text) <? n)%nat.
Proof.
  intros Hn. destruct (PyStr.truthy text) eqn:Ht; [reflexivity |].
  rewrite (truthy_false_strip _ Ht). simpl. symmetry. by apply Nat.ltb_lt.
Qed.

(** C2: when the extractor picked by the extension returns [text] and
    [text] is empty or has fewer than 5 characters once trimmed, the
    pipeline returns the pair of the empty string and the fixed message,
    as a value, having made the calls of the extraction and no other; this
    holds whatever [analyze] is bound to, so the analysis function is not
    invoked. *)
Theorem process_uploaded_file_no_text
    (file_path file_extension text : string)
    (log : list (Utils.ext_call Image)) :
  Utils.extract_by_extension svc file_path file_extension = (log, Ok text) ->
  text = EmptyString \/ PyStr.len (PyStr.strip text) < 5 ->
  Utils.process_uploaded_file svc file_path file_extension
    = (log, Ok (EmptyString, Utils.no_text_message))
  /\ forall analyze : string -> Eff (Utils.ext_call Image) string,
       Utils.process_uploaded_file_with svc analyze file_path file_extension
       = (log, Ok (EmptyString, Utils.no_text_message)).
Proof.
  intros Hext Hshort.
  assert (Hlen : (PyStr.len (PyStr.strip text) <? 5)%nat = true).
  { apply Nat.ltb_lt. destruct Hshort as [-> | H]; [simpl; lia | exact H]. }
  assert (Hall : forall analyze,
    Utils.process_uploaded_file_with svc analyze file_path file_extension
    = (log, Ok (EmptyString, Utils.no_text_message))).
  { intros analyze. unfold Utils.process_uploaded_file_with.
    rewrite Hext, bind_ok, short_guard, Hlen by lia. simpl.
    by rewrite app_nil_r. }
  split; [apply Hall | exact Hall].
Qed.

(** C3: on a text with fewer than 10 characters once trimmed, the analysis
    function returns the fixed insufficient-text message as a value and
    makes no call at all, so none to the generation service. *)
Theorem analyze_insufficient_text (extracted_text : string) :
  PyStr.len (PyStr.strip extracted_text) < 10 ->
  Utils.analyze_medical_text_with_ai svc extracted_text
  = ([], Ok Utils.insufficient_text_message).
Proof.
  intros Hlen. unfold Utils.analyze_medical_text_with_ai.
  rewrite short_guard by lia.
  apply Nat.ltb_lt in Hlen. rewrite Hlen. reflexivity.
Qed.

(** The failure branch makes no call. *)
Lemma analysis_failure_log (e : exn) :
  (Utils.analysis_failure (Image := Image) e).1 = [].
Proof.
  unfold Utils.analysis_failure.
  repeat match goal with |- context [if ?b then _ else _] => destruct b end;
    reflexivity.
Qed.

(** Past the guard, the analysis function makes exactly one call, to the
    generation service, with the prompt built from the limited text. *)
Lemma analyze_calls_once (extracted_text : string) :
  10 <= PyStr.len (PyStr.strip extracted_text) ->
  (Utils.analyze_medical_text_with_ai svc extracted_text).1
  = [Utils.GenerateContent
       (Utils.user_prompt (Utils.limit_input extracted_text))].
Proof.
  intros Hlen. unfold Utils.analyze_medical_text_with_ai.
  rewrite short_guard by lia.
  assert (Hge : (PyStr.len (PyStr.strip extracted_text) <? 10)%nat = false)
    by (apply Nat.ltb_ge; exact Hlen).
  rewrite Hge. cbv zeta.
  destruct (Utils.generate_content svc _) as [[text |] | e].
  - rewrite bind_call_ok. destruct (PyStr.truthy text); reflexivity.
  - rewrite bind_call_ok. reflexivity.
  - rewrite bind_call_raise. unfold try_except.
    pose proof (analysis_failure_log e) as Hlog.
    destruct (Utils.analysis_failure e) as [l r]. simpl in Hlog. by subst l.
Qed.

End PipelineClaims.

Lemma take_prefix (n : nat) (s : string) :
  n <= PyStr.len s ->
  PyStr.len (PyStr.take n s) = n /\ exists rest, s = PyStr.take n s +:+ rest.
Proof.
  revert s. induction n as [| n IH]; intros s Hn.
  - split; [by destruct s |]. exists s. by destruct s.
  - destruct s as [| c s]; [simpl in Hn; lia |].
    simpl in Hn. destruct (IH s) as [Hl [rest Hr]]; [lia |].
    split; [simpl; by rewrite Hl |]. exists rest.
    change (String c s = String c (PyStr.take n s +:+ rest)). by rewrite <- Hr.
Qed.

Section AnalysisClaims.
Context {Image : Type} (svc : Utils.services Image).

(** C4 (as amended): for a text whose trimmed length is at least 10, the
    analysis function calls the generation service exactly once, with the
    fixed prompt around a medical text that is, when the text has more than
    15,000 characters, its first 15,000 characters followed by the
    truncation marker, and otherwise the text unmodified. *)
Theorem analyze_truncation (extracted_text : string) :
  10 <= PyStr.len (PyStr.strip extracted_text) ->
  (Utils.MAX_CHARS < PyStr.len extracted_text ->
     exists head rest,
       extracted_text = head +:+ rest /\ PyStr.len head = Utils.MAX_CHARS /\
       (Utils.analyze_medical_text_with_ai svc extracted_text).1
       = [Utils.GenerateContent
            (Utils.user_prompt (head +:+ Utils.truncation_marker))])
  /\ (PyStr.len extracted_text <= Utils.MAX_CHARS ->
       (Utils.analyze_medical_text_with_ai svc extracted_text).1
       = [Utils.GenerateContent (Utils.user_prompt extracted_text)]).
Proof.
  intros Hlen. rewrite (analyze_calls_once svc _ Hlen).
  unfold Utils.limit_input. split; intros Hsize.
  - destruct (take_prefix Utils.MAX_CHARS extracted_text) as [Hl [rest Hr]];
      [lia |].
    exists (PyStr.take Utils.MAX_CHARS extracted_text), rest.
    split; [exact Hr |]. split; [exact Hl |].
    apply Nat.ltb_lt in Hsize. by rewrite Hsize.
  - apply Nat.ltb_ge in Hsize. by rewrite Hsize.
Qed.

End AnalysisClaims.

Lemma process_uploaded_file_no_text_witness :
  Utils.process_uploaded_file (Demo.services [] "abcd" (Ok None))
      "uploads/0b6f_scan.png" "png"
    = ([Utils.ImageOpen "uploads/0b6f_scan.png"; Utils.ImageToString "abcd"],
       Ok (EmptyString, Utils.no_text_message))
  /\ forall analyze : string -> Eff (Utils.ext_call string) string,
       Utils.process_uploaded_file_with (Demo.services [] "abcd" (Ok None))
         analyze "uploads/0b6f_scan.png" "png"
       = ([Utils.ImageOpen "uploads/0b6f_scan.png"; Utils.ImageToString "abcd"],
          Ok (EmptyString, Utils.no_text_message)).
Proof.
  apply (process_uploaded_file_no_text (Demo.services [] "abcd" (Ok None))
           "uploads/0b6f_scan.png" "png" "abcd").
  - reflexivity.
  - right. vm_compute. lia.
Defined.

Lemma analyze_insufficient_text_witness :
  Utils.analyze_medical_text_with_ai
    (Demo.services [] "" (Ok (Some "All values are normal."))) "  Hb 13.5  "
  = ([], Ok Utils.insufficient_text_message).
Proof.
  apply (analyze_insufficient_text
           (Demo.services [] "" (Ok (Some "All values are normal.")))
           "  Hb 13.5  ").
  vm_compute. lia.
Defined.

Lemma analyze_truncation_witness :
  (Utils.MAX_CHARS < PyStr.len Demo.long_text ->
     exists head rest,
       Demo.long_text = head +:+ rest /\ PyStr.len head = Utils.MAX_CHARS /\
       (Utils.analyze_medical_text_with_ai
          (Demo.services [] "" (Ok None)) Demo.long_text).1
       = [Utils.GenerateContent
            (Utils.user_prompt (head +:+ Utils.truncation_marker))])
  /\ (PyStr.len Demo.long_text <= Utils.MAX_CHARS ->
       (Utils.analyze_medical_text_with_ai
          (Demo.services [] "" (Ok None)) Demo.long_text).1
       = [Utils.GenerateContent (Utils.user_prompt Demo.long_text)]).
Proof.
  apply (analyze_truncation (Demo.services [] "" (Ok None)) Demo.long_text).
  apply Nat.leb_le. vm_compute. reflexivity.
Defined.

(** C4 as stated fails: a text of 15,001 spaces is longer than 15,000
    characters, yet the generation service is not called at all; the guard
    on the trimmed length answers first. *)
Lemma analyze_long_blank_text_not_sent :
  (Utils.MAX_CHARS <? PyStr.len Demo.blank_text)%nat = true
  /\ Utils.analyze_medical_text_with_ai
       (Demo.services [] "" (Ok (Some "All values are normal.")))
       Demo.blank_text
     = ([], Ok Utils.insufficient_text_message).
Proof. split; vm_compute; reflexivity. Qed.

Section FailureClaims.
Context {Image : Type} (svc : Utils.services Image).

(** C6 (as amended): when the generation service raises [e] on a text that
    passed the guard, the lower-cased message of [e] is classified by
    substring, the first class that matches winning: a quota or rate signal
    gives the temporarily-unavailable string; failing that, the signals
    invalid and api together give the configuration-error string; failing
    both, a token or length signal gives the document-too-large string;
    each of these is returned as a value.  A failure with none of the
    signals is raised again as the analysis-failed exception that carries
    the message of [e]. *)
Theorem analysis_failure_classes (extracted_text : string) (e : exn) :
  10 <= PyStr.len (PyStr.strip extracted_text) ->
  Utils.generate_content svc
    (Utils.user_prompt (Utils.limit_input extracted_text)) = Raise e ->
  (Signals.quota_or_rate (PyStr.lower (str_of_exn e)) = true ->
     (Utils.analyze_medical_text_with_ai svc extracted_text).2
     = Ok Utils.unavailable_message)
  /\ (Signals.quota_or_rate (PyStr.lower (str_of_exn e)) = false ->
      Signals.invalid_api (PyStr.lower (str_of_exn e)) = true ->
      (Utils.analyze_medical_text_with_ai svc extracted_text).2
      = Ok Utils.configuration_message)
  /\ (Signals.quota_or_rate (PyStr.lower (str_of_exn e)) = false ->
      Signals.invalid_api (PyStr.lower (str_of_exn e)) = false ->
      Signals.token_or_length (PyStr.lower (str_of_exn e)) = true ->
      (Utils.analyze_medical_text_with_ai svc extracted_text).2
      = Ok Utils.too_large_message)
  /\ (Signals.quota_or_rate (PyStr.lower (str_of_exn e)) = false ->
      Signals.invalid_api (PyStr.lower (str_of_exn e)) = false ->
      Signals.token_or_length (PyStr.lower (str_of_exn e)) = false ->
      (Utils.analyze_medical_text_with_ai svc extracted_text).2
      = Raise (Exception ("Failed to analyze medical text with AI: "
                          +:+ str_of_exn e))).
Proof.
  intros Hlen Hgen.
  assert (Hrun : (Utils.analyze_medical_text_with_ai svc extracted_text).2
                 = (Utils.analysis_failure (Image := Image) e).2).
  { unfold Utils.analyze_medical_text_with_ai.
    rewrite short_guard by lia.
    assert (Hge : (PyStr.len (PyStr.strip extracted_text) <? 10)%nat = false)
      by (apply Nat.ltb_ge; exact Hlen).
    rewrite Hge. cbv zeta. rewrite Hgen, bind_call_raise. unfold try_except.
    by destruct (Utils.analysis_failure e). }
  rewrite Hrun. unfold Utils.analysis_failure.
  unfold Signals.quota_or_rate, Signals.invalid_api, Signals.token_or_length.
  repeat split; intros; repeat match goal with H : _ = _ |- _ => rewrite H end;
    reflexivity.
Qed.

End FailureClaims.

Lemma analysis_failure_classes_witness :
  (Utils.analyze_medical_text_with_ai
     (Demo.services [] "" (Raise (Exception "429 Quota exceeded for model")))
     "Hemoglobin 13.5 g/dL").2
  = Ok Utils.unavailable_message.
Proof.
  apply (analysis_failure_classes
           (Demo.services [] "" (Raise (Exception "429 Quota exceeded for model")))
           "Hemoglobin 13.5 g/dL" (Exception "429 Quota exceeded for model")).
  - vm_compute. lia.
  - reflexivity.
  - reflexivity.
Defined.

(** C6 as stated fails: the message below carries the invalid and api
    signals, but also the letters [rate] (in the word generate), and the
    answer is the temporarily-unavailable string, not the
    configuration-error one. *)
Lemma analysis_failure_invalid_api_as_unavailable :
  Signals.invalid_api
    (PyStr.lower "Invalid API key; cannot generate content") = true
  /\ (Utils.analyze_medical_text_with_ai
        (Demo.services [] ""
           (Raise (Exception "Invalid API key; cannot generate content")))
        "Hemoglobin 13.5 g/dL").2
     = Ok Utils.unavailable_message
  /\ Utils.unavailable_message <> Utils.configuration_message.
Proof. split; [| split]; [vm_compute; reflexivity .. | discriminate]. Qed.

(** ** The request handlers *)

Section EffSLemmas.
Context {St Ev : Type}.

Lemma st_bind_ok {A B} (m : EffS St Ev A) (k : A -> EffS St Ev B)
    (st st' : St) (l : list Ev) (a : A) :
  m st = (st', (l, Ok a)) ->
  (m ≫= k) st = ((k a st').1, ((l ++ (k a st').2.1)%list, (k a st').2.2)).
Proof.
  intros Hm. unfold mbind, effs_mbind, st_bind. rewrite Hm.
  by destruct (k a st') as [st'' [l' r]].
Qed.

Lemma st_attempt_run {A} (m : EffS St Ev A) (st st' : St) (l : list Ev)
    (r : result A) :
  m st = (st', (l, r)) -> st_attempt m st = (st', (l, Ok r)).
Proof. intros Hm. unfold st_attempt. by rewrite Hm. Qed.

End EffSLemmas.

Section HandlerLemmas.
Context {Image : Type} (w : App.world Image).

(** Authentication leaves the disk alone and talks to the identity service
    only. *)
Lemma get_authenticated_user_frame (req : App.request) (disk : gset string) :
  (App.get_authenticated_user w req disk).1 = disk
  /\ forall c, c ∈ (App.get_authenticated_user w req disk).2.1 ->
       exists id_token, c = App.VerifyIdToken id_token.
Proof.
  unfold App.get_authenticated_user.
  destruct (App.authorization req) as [auth_header |];
    [| split; [reflexivity | intros c Hc; by apply elem_of_nil in Hc]].
  destruct (negb (PyStr.truthy auth_header) || _);
    [split; [reflexivity | intros c Hc; by apply elem_of_nil in Hc] |].
  destruct (PyStr.split "Bearer " auth_header !! 1%nat) as [id_token |];
    [| split; [reflexivity | intros c Hc; by apply elem_of_nil in Hc]].
  split; [reflexivity |].
  intros c Hc. simpl in Hc. apply list_elem_of_singleton in Hc. eauto.
Qed.

(** A handler whose authentication succeeded goes on with the subject
    identifier, the log opening with the calls of the authentication. *)
Lemma guarded_after_auth (prefix : string) (req : App.request)
    (disk : gset string) (l : list (App.ext_call Image)) (uid : string)
    (on_failure : exn -> App.response)
    (k : string -> EffS (gset string) (App.ext_call Image) App.response) :
  App.get_authenticated_user w req disk = (disk, (l, Ok uid)) ->
  App.guarded prefix
    (auth ← st_attempt (App.get_authenticated_user w req);
     match auth with
     | Raise e => mret (on_failure e)
     | Ok authenticated_uid => k authenticated_uid
     end) disk
  = ((k uid disk).1,
     ((l ++ (k uid disk).2.1)%list,
      Ok match (k uid disk).2.2 with
         | Ok resp => resp
         | Raise e => (App.error_body (prefix +:+ str_of_exn e), 500%nat)
         end)).
Proof.
  intros Hauth. unfold App.guarded.
  assert (Hinner :
    (auth ← st_attempt (App.get_authenticated_user w req);
     match auth with
     | Raise e => mret (on_failure e)
     | Ok authenticated_uid => k authenticated_uid
     end) disk = ((k uid disk).1, ((l ++ (k uid disk).2.1)%list, (k uid disk).2.2))).
  { by rewrite (st_bind_ok _ _ _ _ _ _ (st_attempt_run _ _ _ _ _ Hauth)). }
  rewrite (st_bind_ok _ _ _ _ _ _ (st_attempt_run _ _ _ _ _ Hinner)).
  destruct ((k uid disk).2.2); simpl; by rewrite app_nil_r.
Qed.

End HandlerLemmas.

Section AccessClaims.
Context {Image : Type} (w : App.world Image).

(** C7 (as amended): a request whose credential verifies to a subject
    other than [A] gets, from the listing of [A], the fixed 403 response;
    from the report detail with a non-empty query [user_id] equal to [A] it
    gets the fixed 403 response when the store is available and the fixed
    503 response when it is not.  In each case the handler has called the
    identity service only, so what the store holds for [A] has no part in
    the response. *)
Theorem other_subject_is_refused (req : App.request) (disk : gset string)
    (l : list (App.ext_call Image)) (uid A report_id : string) :
  App.get_authenticated_user w req disk = (disk, (l, Ok uid)) ->
  uid <> A ->
  App.get_user_reports w A req disk = (disk, (l, Ok App.unauthorized))
  /\ (App.args req !! "user_id" = Some A -> A <> EmptyString ->
      App.get_report_detail w report_id req disk
      = (disk, (l, Ok match App.db w with
                      | Some _ => App.unauthorized
                      | None => (App.error_body "Database not available", 503%nat)
                      end)))
  /\ (forall c, c ∈ l -> exists id_token, c = App.VerifyIdToken id_token).
Proof.
  intros Hauth Hne.
  assert (Heqb : String.eqb uid A = false) by (by apply String.eqb_neq).
  split; [| split].
  - unfold App.get_user_reports.
    rewrite (guarded_after_auth w _ _ _ _ _ _ _ Hauth), Heqb. simpl.
    by rewrite app_nil_r.
  - intros Harg HA. unfold App.get_report_detail.
    rewrite (guarded_after_auth w _ _ _ _ _ _ _ Hauth).
    destruct (App.db w) as [d |]; [| simpl; by rewrite app_nil_r].
    rewrite Harg. simpl.
    destruct A as [| c A']; [done |]. simpl. rewrite Heqb. simpl.
    by rewrite app_nil_r.
  - intros c Hc. pose proof (get_authenticated_user_frame w req disk) as [_ Hlog].
    apply Hlog. by rewrite Hauth.
Qed.

End AccessClaims.

Lemma other_subject_is_refused_witness :
  App.get_user_reports
    (Demo.world None (Some Demo.failing_store) (Demo.services [] "" (Ok None)))
    "alice" (Demo.query_request "bob" ∅) ∅
  = (∅, ([App.VerifyIdToken "tok-bob"], Ok App.unauthorized)).
Proof.
  apply (other_subject_is_refused
           (Demo.world None (Some Demo.failing_store)
              (Demo.services [] "" (Ok None)))
           (Demo.query_request "bob" ∅) ∅ [App.VerifyIdToken "tok-bob"]
           "bob" "alice" "r1").
  - reflexivity.
  - discriminate.
Defined.

(** C7 as stated fails for the report detail: with the store unavailable,
    a request of subject bob for a report of alice is answered 503, not
    403. *)
Lemma report_detail_of_another_subject_503 :
  App.get_report_detail
    (Demo.world None None (Demo.services [] "" (Ok None)))
    "r1" (Demo.query_request "bob" {[ "user_id" := "alice" ]}) ∅
  = (∅, ([App.VerifyIdToken "tok-bob"],
         Ok (App.error_body "Database not available", 503%nat))).
Proof. vm_compute. reflexivity. Qed.

Section OrderingClaims.
Context {Image : Type} (w : App.world Image).

(** C10: in the report-detail handler, after a credential that verifies,
    the availability of the store is looked at before the query parameter
    [user_id]: without a store the response is the fixed 503 one whatever
    the request says about [user_id] (absent or not the caller's), so 503 is
    an outcome of this endpoint, and a 400 or 403 response implies that the
    store is available. *)
Theorem report_detail_checks_store_first (report_id : string)
    (req : App.request) (disk : gset string)
    (l : list (App.ext_call Image)) (uid : string) :
  App.get_authenticated_user w req disk = (disk, (l, Ok uid)) ->
  (App.db w = None ->
     App.get_report_detail w report_id req disk
     = (disk, (l, Ok (App.error_body "Database not available", 503%nat))))
  /\ (forall disk' log body status,
        App.get_report_detail w report_id req disk
        = (disk', (log, Ok (body, status))) ->
        status = 400 \/ status = 403 -> is_Some (App.db w)).
Proof.
  intros Hauth. unfold App.get_report_detail.
  rewrite (guarded_after_auth w _ _ _ _ _ _ _ Hauth).
  destruct (App.db w) as [d |].
  - split; [discriminate | eauto].
  - split.
    + intros _. simpl. by rewrite app_nil_r.
    + intros disk' log body status Hrun Hst. simpl in Hrun.
      injection Hrun as _ _ _ Hstatus. destruct Hst; subst status; discriminate.
Qed.

(** C9: the listing handler, for the caller's own reports and with the
    store available, queries the store once the credential is verified, and
    the limit of that query is the [limit] parameter capped from above only:
    [min n 100] when the parameter reads as the integer [n], hence [n]
    itself when [n] is zero or negative, and 50 when the parameter is absent
    or does not read as an integer. *)
Theorem listing_limit_is_only_capped (user_id : string) (req : App.request)
    (disk : gset string) (l : list (App.ext_call Image))
    (d : App.firestore_client) :
  App.get_authenticated_user w req disk = (disk, (l, Ok user_id)) ->
  App.db w = Some d ->
  exists limit rest,
    (App.get_user_reports w user_id req disk).2.1
    = (l ++ App.QueryStream user_id limit :: rest)%list
    /\ (forall v n, App.args req !! "limit" = Some v -> PyInt.int v = Some n ->
          limit = Z.min n 100 /\ ((n <= 0)%Z -> limit = n))
    /\ (forall v, App.args req !! "limit" = Some v -> PyInt.int v = None ->
          limit = 50%Z)
    /\ (App.args req !! "limit" = None -> limit = 50%Z).
Proof.
  intros Hauth Hdb. unfold App.get_user_reports.
  rewrite (guarded_after_auth w _ _ _ _ _ _ _ Hauth), String.eqb_refl, Hdb.
  cbv zeta. cbn [negb].
  exists (App.requested_limit req).
  destruct (App.query_stream d user_id (App.requested_limit req)) as [docs | e] eqn:Hq.
  - eexists. split.
    + erewrite st_bind_ok by reflexivity. cbn [fst snd]. reflexivity.
    + unfold App.requested_limit.
      repeat split; intros; repeat match goal with H : _ = _ |- _ => rewrite H end;
        simpl; lia.
  - exists []. split; [reflexivity |].
    unfold App.requested_limit.
    repeat split; intros; repeat match goal with H : _ = _ |- _ => rewrite H end;
      simpl; lia.
Qed.

End OrderingClaims.

Lemma report_detail_checks_store_first_witness :
  App.get_report_detail
    (Demo.world None None (Demo.services [] "" (Ok None)))
    "r1" (Demo.query_request "alice" ∅) ∅
  = (∅, ([App.VerifyIdToken "tok-alice"],
         Ok (App.error_body "Database not available", 503%nat))).
Proof.
  apply (report_detail_checks_store_first
           (Demo.world None None (Demo.services [] "" (Ok None)))
           "r1" (Demo.query_request "alice" ∅) ∅
           [App.VerifyIdToken "tok-alice"] "alice").
  - reflexivity.
  - reflexivity.
Defined.

Lemma listing_limit_is_only_capped_witness :
  exists rest,
    (App.get_user_reports
       (Demo.world None (Some Demo.failing_store) (Demo.services [] "" (Ok None)))
       "alice" (Demo.query_request "alice" {[ "limit" := "-5" ]}) ∅).2.1
    = ([App.VerifyIdToken "tok-alice"; App.QueryStream "alice" (-5)%Z]
       ++ rest)%list.
Proof.
  destruct (listing_limit_is_only_capped
              (Demo.world None (Some Demo.failing_store)
                 (Demo.services [] "" (Ok None)))
              "alice" (Demo.query_request "alice" {[ "limit" := "-5" ]}) ∅
              [App.VerifyIdToken "tok-alice"] Demo.failing_store
              eq_refl eq_refl)
    as (limit & rest & Hlog & Hint & _).
  destruct (Hint "-5" (-5)%Z eq_refl eq_refl) as [_ Hneg].
  exists rest. rewrite Hlog, Hneg; [reflexivity | discriminate].
Defined.

(** ** The upload handler *)

Section RunLemmas.
Context {St Ev : Type}.

Lemma st_bind_run {A B} (m : EffS St Ev A) (k : A -> EffS St Ev B)
    (st st1 st2 : St) (l1 l2 : list Ev) (a : A) (r : result B) :
  m st = (st1, (l1, Ok a)) -> k a st1 = (st2, (l2, r)) ->
  (m ≫= k) st = (st2, ((l1 ++ l2)%list, r)).
Proof.
  intros Hm Hk. unfold mbind, effs_mbind, st_bind. by rewrite Hm, Hk.
Qed.

Lemma st_bind_run_log {A B} (m : EffS St Ev A) (k : A -> EffS St Ev B)
    (st st1 st2 : St) (l l1 l2 : list Ev) (a : A) (r : result B) :
  m st = (st1, (l1, Ok a)) -> k a st1 = (st2, (l2, r)) ->
  l = (l1 ++ l2)%list ->
  (m ≫= k) st = (st2, (l, r)).
Proof. intros Hm Hk ->. eapply st_bind_run; eassumption. Qed.

Lemma st_bind_raise_run {A B} (m : EffS St Ev A) (k : A -> EffS St Ev B)
    (st st1 : St) (l1 : list Ev) (e : exn) :
  m st = (st1, (l1, Raise e)) -> (m ≫= k) st = (st1, (l1, Raise e)).
Proof. intros Hm. unfold mbind, effs_mbind, st_bind. by rewrite Hm. Qed.

Lemma st_mret_run {A} (a : A) (st : St) :
  (mret a : EffS St Ev A) st = (st, ([], Ok a)).
Proof. reflexivity. Qed.

End RunLemmas.

(** The outermost [try / except]: what is raised inside becomes the 500
    response with the prefix of the handler. *)
Lemma guarded_run {Image : Type} (prefix : string)
    (m : EffS (gset string) (App.ext_call Image) App.response)
    (disk disk' : gset string) (l : list (App.ext_call Image))
    (r : result App.response) :
  m disk = (disk', (l, r)) ->
  App.guarded prefix m disk
  = (disk', (l, Ok match r with
                   | Ok resp => resp
                   | Raise e => (App.error_body (prefix +:+ str_of_exn e), 500%nat)
                   end)).
Proof.
  intros Hm. unfold App.guarded.
  eapply st_bind_run_log; [apply st_attempt_run; exact Hm | | by rewrite app_nil_r].
  destruct r; apply st_mret_run.
Qed.

(** The upload handler on a request that passes validation, up to the point
    where the file is saved. *)
Ltac upload_validated Hauth Hfile Htruthy Hallowed Hsplit :=
  unfold App.upload_file; etransitivity;
  [ apply guarded_run;
    eapply st_bind_run; [apply st_attempt_run; exact Hauth |];
    cbv beta iota; rewrite Hfile; cbv beta iota zeta;
    cbn [default from_option id]; rewrite Htruthy, Hallowed; cbn [negb];
    cbv beta iota; rewrite Hsplit; cbv beta iota zeta
  | ].

Section UploadLemmas.
Context {Image : Type} (w : App.world Image).

Lemma file_save_run (file_path : string) (disk : gset string) :
  App.save w file_path = App.Saved ->
  App.file_save w file_path disk
  = ({[ file_path ]} ∪ disk, ([App.FileSave file_path], Ok tt)).
Proof. intros Hsave. unfold App.file_save. by rewrite Hsave. Qed.

Lemma file_save_fails (file_path : string) (disk : gset string) (e : exn)
    (file_left : bool) :
  App.save w file_path = App.SaveFailed e file_left ->
  App.file_save w file_path disk
  = ((if file_left then {[ file_path ]} ∪ disk else disk),
     ([App.FileSave file_path], Raise e)).
Proof. intros Hsave. unfold App.file_save. by rewrite Hsave. Qed.

(** The removal of a file that is there, followed by the response [resp]. *)
Lemma remove_then_answer (file_path : string) (disk : gset string)
    (resp : App.response) :
  file_path ∈ disk ->
  (_ ← App.remove_if_exists w file_path; mret resp) disk
  = ((Upload.after_removal w file_path disk resp).1,
     ([App.OsRemove file_path],
      match App.os_remove w file_path with
      | Ok _ => Ok resp
      | Raise e => Raise e
      end)).
Proof.
  intros Hin. unfold Upload.after_removal.
  assert (Hrun : App.remove_if_exists w file_path disk
            = (match App.os_remove w file_path with
               | Ok _ => disk ∖ {[ file_path ]}
               | Raise _ => disk
               end,
               ([App.OsRemove file_path], App.os_remove w file_path))).
  { unfold App.remove_if_exists.
    erewrite st_bind_ok by reflexivity. cbn [fst snd].
    rewrite bool_decide_eq_true_2 by exact Hin.
    unfold mbind, effs_mbind, st_bind, st_call, st_modify.
    by destruct (App.os_remove w file_path) as [[] | e]. }
  destruct (App.os_remove w file_path) as [[] | e].
  - eapply st_bind_run_log; [exact Hrun | apply st_mret_run | reflexivity].
  - apply st_bind_raise_run. exact Hrun.
Qed.

(** What the outer handler makes of the end of a request. *)
Lemma after_removal_guarded (file_path : string) (disk : gset string)
    (resp : App.response) :
  match
    match App.os_remove w file_path with
    | Ok _ => Ok resp
    | Raise e => Raise e
    end
  with
  | Ok resp' => resp'
  | Raise e => (App.error_body ("Upload failed: " +:+ str_of_exn e), 500%nat)
  end = (Upload.after_removal w file_path disk resp).2.
Proof.
  unfold Upload.after_removal. by destruct (App.os_remove w file_path).
Qed.

Lemma process_lifted (file_path file_extension : string) (disk : gset string)
    (pl : list (Utils.ext_call Image)) (r : result (string * string)) :
  Utils.process_uploaded_file (App.pipeline w) file_path file_extension = (pl, r) ->
  st_lift App.Pipeline
    (Utils.process_uploaded_file (App.pipeline w) file_path file_extension) disk
  = (disk, (App.Pipeline <$> pl, r)).
Proof. intros Hp. unfold st_lift. by rewrite Hp. Qed.

(** The storage step never raises: it gives the blob path, or the empty
    string when the bucket is missing or the upload raises. *)
Lemma upload_to_firebase_storage_run
    (local_file_path filename user_id : string) (disk : gset string) :
  exists log blob_path,
    App.upload_to_firebase_storage w local_file_path filename user_id disk
    = (disk, (log, Ok blob_path))
    /\ (forall c, c ∈ log ->
          c = App.UploadFromFilename
                ("medical_reports/" +:+ user_id +:+ "/" +:+ filename)
                local_file_path)
    /\ (match App.bucket w with
        | None => True
        | Some b =>
            exists e, App.upload_from_filename b
              ("medical_reports/" +:+ user_id +:+ "/" +:+ filename)
              local_file_path = Raise e
        end -> blob_path = EmptyString).
Proof.
  unfold App.upload_to_firebase_storage.
  destruct (App.bucket w) as [b |].
  - cbv zeta.
    destruct (App.upload_from_filename b _ local_file_path) as [[] | e] eqn:Hup.
    + eexists _, _. split; [| split].
      * eapply st_bind_run; [apply st_attempt_run; reflexivity |].
        cbv beta iota. apply st_mret_run.
      * intros c Hc. rewrite app_nil_r in Hc.
        by apply list_elem_of_singleton in Hc.
      * intros [e He]. congruence.
    + eexists _, _. split; [| split].
      * eapply st_bind_run; [apply st_attempt_run; reflexivity |].
        cbv beta iota. apply st_mret_run.
      * intros c Hc. rewrite app_nil_r in Hc.
        by apply list_elem_of_singleton in Hc.
      * reflexivity.
  - exists [], EmptyString. split; [reflexivity |].
    split; [intros c Hc; by apply elem_of_nil in Hc | reflexivity].
Qed.

End UploadLemmas.

Section UploadRun.
Context {Image : Type} (w : App.world Image).

(** A request whose file was saved and processed. *)
Lemma upload_file_stored (req : App.request) (disk : gset string)
    (l : list (App.ext_call Image)) (user_id filename stem ext : string)
    (pl : list (Utils.ext_call Image)) (extracted_text ai_analysis : string) :
  App.get_authenticated_user w req disk = (disk, (l, Ok user_id)) ->
  App.file_part req = Some (Some filename) ->
  PyStr.truthy filename = true ->
  App.allowed_file filename = true ->
  PyStr.rsplit1 "." (App.secure_filename w filename) = Some (stem, ext) ->
  App.save w (Upload.temp_path w filename) = App.Saved ->
  Utils.process_uploaded_file (App.pipeline w) (Upload.temp_path w filename)
    (PyStr.lower ext) = (pl, Ok (extracted_text, ai_analysis)) ->
  exists sl blob_path report_id,
    Upload.stored_outcome w req disk l user_id filename pl extracted_text ai_analysis
      sl blob_path report_id.
Proof.
  intros Hauth Hfile Htruthy Hallowed Hsplit Hsaved Hproc.
  destruct (upload_to_firebase_storage_run w (Upload.temp_path w filename)
              (Upload.unique_filename w filename) user_id
              ({[ Upload.temp_path w filename ]} ∪ disk))
    as (sl0 & bp0 & Hup & Hsl0 & Hbp0).
  (* the storage step as the handler takes it *)
  assert (Hstore : exists sl blob_path,
    (match App.bucket w with
     | Some _ =>
         r ← st_attempt (App.upload_to_firebase_storage w
                           (Upload.temp_path w filename)
                           (Upload.unique_filename w filename) user_id);
         mret (match r with Ok p => p | Raise _ => EmptyString end)
     | None => mret EmptyString
     end : EffS (gset string) (App.ext_call Image) string)
      ({[ Upload.temp_path w filename ]} ∪ disk)
    = ({[ Upload.temp_path w filename ]} ∪ disk, (sl, Ok blob_path))
    /\ (forall c, c ∈ sl ->
          c = App.UploadFromFilename (Upload.blob_path_of w user_id filename)
                (Upload.temp_path w filename))
    /\ (Upload.storage_fails w user_id filename -> blob_path = EmptyString)).
  { unfold Upload.storage_fails, Upload.blob_path_of.
    destruct (App.bucket w) as [b |].
    - exists (sl0 ++ [])%list, bp0. split; [| split].
      + eapply st_bind_run; [apply st_attempt_run; exact Hup |].
        cbv beta iota. apply st_mret_run.
      + intros c Hc. rewrite app_nil_r in Hc. by apply Hsl0.
      + exact Hbp0.
    - exists [], EmptyString. split; [reflexivity |].
      split; [intros c Hc; by apply elem_of_nil in Hc | reflexivity]. }
  destruct Hstore as (sl & blob_path & Hstore & Hsl & Hbp).
  (* the persistence step as the handler takes it *)
  assert (Hsave : exists report_id,
    (match App.db w with
     | Some _ =>
         r ← st_attempt (App.save_report_to_firestore w user_id
                (Upload.record w user_id filename blob_path extracted_text
                   ai_analysis));
         mret (match r with Ok i => i | Raise _ => EmptyString end)
     | None => mret EmptyString
     end : EffS (gset string) (App.ext_call Image) string)
      ({[ Upload.temp_path w filename ]} ∪ disk)
    = ({[ Upload.temp_path w filename ]} ∪ disk,
       (match App.db w with
        | Some _ =>
            [App.DocumentSet user_id
               (Upload.record w user_id filename blob_path extracted_text
                  ai_analysis)]
        | None => []
        end, Ok report_id))
    /\ (Upload.persistence_fails w user_id filename blob_path extracted_text
          ai_analysis -> report_id = EmptyString)).
  { unfold Upload.persistence_fails, App.save_report_to_firestore.
    destruct (App.db w) as [d |].
    - destruct (App.document_set d user_id _) as [doc_id | e] eqn:Hset.
      + exists doc_id. split; [| intros [e He]; congruence].
        eapply st_bind_run_log;
          [ apply st_attempt_run; eapply st_bind_run;
            [ apply st_attempt_run; reflexivity
            | cbv beta iota; apply st_mret_run ]
          | cbv beta iota; apply st_mret_run
          | reflexivity ].
      + exists EmptyString. split; [| reflexivity].
        eapply st_bind_run_log;
          [ apply st_attempt_run; eapply st_bind_run;
            [ apply st_attempt_run; reflexivity
            | cbv beta iota; reflexivity ]
          | cbv beta iota; apply st_mret_run
          | reflexivity ].
    - exists EmptyString. split; reflexivity. }
  destruct Hsave as (report_id & Hsave & Hrid).
  exists sl, blob_path, report_id. unfold Upload.stored_outcome. cbv zeta.
  split; [| by repeat split].
  upload_validated Hauth Hfile Htruthy Hallowed Hsplit.
  - eapply st_bind_run; [apply file_save_run; exact Hsaved |].
    eapply st_bind_run;
      [apply st_attempt_run; apply process_lifted; exact Hproc |].
    cbv beta iota.
    eapply st_bind_run; [exact Hstore |].
    eapply st_bind_run; [exact Hsave |].
    apply remove_then_answer. set_solver.
  - by rewrite (after_removal_guarded w _
                  ({[ Upload.temp_path w filename ]} ∪ disk)).
Qed.

(** A request whose file was saved and could not be processed. *)
Lemma upload_file_unprocessed (req : App.request) (disk : gset string)
    (l : list (App.ext_call Image)) (user_id filename stem ext : string)
    (pl : list (Utils.ext_call Image)) (e : exn) :
  App.get_authenticated_user w req disk = (disk, (l, Ok user_id)) ->
  App.file_part req = Some (Some filename) ->
  PyStr.truthy filename = true ->
  App.allowed_file filename = true ->
  PyStr.rsplit1 "." (App.secure_filename w filename) = Some (stem, ext) ->
  App.save w (Upload.temp_path w filename) = App.Saved ->
  Utils.process_uploaded_file (App.pipeline w) (Upload.temp_path w filename)
    (PyStr.lower ext) = (pl, Raise e) ->
  let ended :=
    Upload.after_removal w (Upload.temp_path w filename)
      ({[ Upload.temp_path w filename ]} ∪ disk)
      (App.error_body ("Processing failed: " +:+ str_of_exn e), 500%nat) in
  App.upload_file w req disk
  = (ended.1,
     ((l ++ App.FileSave (Upload.temp_path w filename)
         :: (App.Pipeline <$> pl)
         ++ [App.OsRemove (Upload.temp_path w filename)])%list,
      Ok ended.2)).
Proof.
  intros Hauth Hfile Htruthy Hallowed Hsplit Hsaved Hproc. cbv zeta.
  upload_validated Hauth Hfile Htruthy Hallowed Hsplit.
  - eapply st_bind_run; [apply file_save_run; exact Hsaved |].
    eapply st_bind_run;
      [apply st_attempt_run; apply process_lifted; exact Hproc |].
    cbv beta iota. apply remove_then_answer. set_solver.
  - by rewrite (after_removal_guarded w _
                  ({[ Upload.temp_path w filename ]} ∪ disk)).
Qed.

(** A request whose file could not be saved. *)
Lemma upload_file_not_saved (req : App.request) (disk : gset string)
    (l : list (App.ext_call Image)) (user_id filename stem ext : string)
    (e : exn) (file_left : bool) :
  App.get_authenticated_user w req disk = (disk, (l, Ok user_id)) ->
  App.file_part req = Some (Some filename) ->
  PyStr.truthy filename = true ->
  App.allowed_file filename = true ->
  PyStr.rsplit1 "." (App.secure_filename w filename) = Some (stem, ext) ->
  App.save w (Upload.temp_path w filename) = App.SaveFailed e file_left ->
  App.upload_file w req disk
  = ((if file_left then {[ Upload.temp_path w filename ]} ∪ disk else disk),
     ((l ++ [App.FileSave (Upload.temp_path w filename)])%list,
      Ok (App.error_body ("Upload failed: " +:+ str_of_exn e), 500%nat))).
Proof.
  intros Hauth Hfile Htruthy Hallowed Hsplit Hsave.
  upload_validated Hauth Hfile Htruthy Hallowed Hsplit.
  - apply st_bind_raise_run. apply file_save_fails. exact Hsave.
  - reflexivity.
Qed.

End UploadRun.

Section UploadClaims.
Context {Image : Type} (w : App.world Image).

(** C5 (as amended): an upload that reaches the storage and persistence
    stage (the credential verifies, the file passes validation, is saved
    and is processed) goes through both steps whatever their outcome: the
    blob path is empty when the bucket is missing or the upload raises, the
    report id is empty when the store is missing or the write raises, and
    the record handed to an available store carries that blob path.  When
    the removal of the temporary file that follows succeeds, the response
    is 200 and carries the extracted text, the analysis and the report id;
    when the removal raises, the response is the 500 of the outer handler,
    without the text or the analysis. *)
Theorem upload_degrades_gracefully (req : App.request) (disk : gset string)
    (l : list (App.ext_call Image)) (user_id filename stem ext : string)
    (pl : list (Utils.ext_call Image)) (extracted_text ai_analysis : string) :
  App.get_authenticated_user w req disk = (disk, (l, Ok user_id)) ->
  App.file_part req = Some (Some filename) ->
  PyStr.truthy filename = true ->
  App.allowed_file filename = true ->
  PyStr.rsplit1 "." (App.secure_filename w filename) = Some (stem, ext) ->
  App.save w (Upload.temp_path w filename) = App.Saved ->
  Utils.process_uploaded_file (App.pipeline w) (Upload.temp_path w filename)
    (PyStr.lower ext) = (pl, Ok (extracted_text, ai_analysis)) ->
  exists disk' log resp blob_path report_id,
    let report_data : gmap string json :=
      {[ "filename" := JStr (App.secure_filename w filename);
         "blob_path" := JStr blob_path;
         "extracted_text" := JStr extracted_text;
         "ai_analysis" := JStr ai_analysis;
         "uploaded_at" := JStr (App.utcnow_isoformat w);
         "user_id" := JStr user_id ]} in
    App.upload_file w req disk = (disk', (log, Ok resp))
    /\ (match App.bucket w with
        | None => True
        | Some b =>
            exists e,
              App.upload_from_filename b
                ("medical_reports/" +:+ user_id +:+ "/"
                 +:+ Upload.unique_filename w filename)
                (Upload.temp_path w filename) = Raise e
        end -> blob_path = EmptyString)
    /\ (match App.db w with
        | None => True
        | Some d => exists e, App.document_set d user_id report_data = Raise e
        end -> report_id = EmptyString)
    /\ (is_Some (App.db w) -> App.DocumentSet user_id report_data ∈ log)
    /\ (App.os_remove w (Upload.temp_path w filename) = Ok tt ->
        resp = (JObj {[ "success" := JBool true;
                        "filename" := JStr (App.secure_filename w filename);
                        "extracted_text" := JStr extracted_text;
                        "ai_analysis" := JStr ai_analysis;
                        "report_id" := JStr report_id;
                        "message" := JStr "File processed successfully" ]},
                200%nat))
    /\ (forall e,
          App.os_remove w (Upload.temp_path w filename) = Raise e ->
          resp = (JObj {[ "error" := JStr ("Upload failed: " +:+ str_of_exn e) ]},
                  500%nat)).
Proof.
  intros Hauth Hfile Htruthy Hallowed Hsplit Hsaved Hproc.
  destruct (upload_file_stored w req disk l user_id filename stem ext pl
              extracted_text ai_analysis Hauth Hfile Htruthy Hallowed Hsplit
              Hsaved Hproc)
    as (sl & blob_path & report_id & Hrun & _ & Hbp & Hrid).
  cbv zeta in Hrun.
  eexists _, _, _, blob_path, report_id. cbv zeta.
  split; [exact Hrun |]. split; [exact Hbp |]. split; [exact Hrid |].
  split; [| split].
  - intros [d Hd]. rewrite Hd.
    apply elem_of_app. right. apply list_elem_of_further.
    apply elem_of_app. right. apply elem_of_app. right.
    apply list_elem_of_here.
  - intros Hrm. unfold Upload.after_removal. by rewrite Hrm.
  - intros e Hrm. unfold Upload.after_removal. by rewrite Hrm.
Qed.

End UploadClaims.

Lemma upload_degrades_gracefully_witness :
  exists disk' log,
    App.upload_file
      (Demo.world (Some Demo.failing_bucket) (Some Demo.failing_store)
         (Demo.services [] "Hemoglobin 13.5 g/dL" (Ok (Some "All normal."))))
      (Demo.upload_request "alice" "scan.PNG") ∅
    = (disk',
       (log,
        Ok (JObj {[ "success" := JBool true;
                    "filename" := JStr "scan.PNG";
                    "extracted_text" := JStr "Hemoglobin 13.5 g/dL";
                    "ai_analysis" := JStr "All normal.";
                    "report_id" := JStr EmptyString;
                    "message" := JStr "File processed successfully" ]},
            200%nat)))
    /\ App.DocumentSet "alice"
         {[ "filename" := JStr "scan.PNG";
            "blob_path" := JStr EmptyString;
            "extracted_text" := JStr "Hemoglobin 13.5 g/dL";
            "ai_analysis" := JStr "All normal.";
            "uploaded_at" := JStr "2024-05-01T10:00:00";
            "user_id" := JStr "alice" ]} ∈ log.
Proof.
  destruct (upload_degrades_gracefully
              (Demo.world (Some Demo.failing_bucket) (Some Demo.failing_store)
                 (Demo.services [] "Hemoglobin 13.5 g/dL"
                    (Ok (Some "All normal."))))
              (Demo.upload_request "alice" "scan.PNG") ∅
              [App.VerifyIdToken "tok-alice"] "alice" "scan.PNG" "scan" "PNG"
              [Utils.ImageOpen "uploads/0b6f_scan.PNG";
               Utils.ImageToString "Hemoglobin 13.5 g/dL";
               Utils.GenerateContent
                 (Utils.user_prompt "Hemoglobin 13.5 g/dL")]
              "Hemoglobin 13.5 g/dL" "All normal."
              eq_refl eq_refl eq_refl eq_refl eq_refl eq_refl eq_refl)
    as (disk' & log & resp & blob_path & report_id
        & Hrun & Hbp & Hrid & Hlog & Hok & _).
  assert (Hb : blob_path = EmptyString).
  { apply Hbp. exists (Exception "bucket not found"). reflexivity. }
  assert (Hr : report_id = EmptyString).
  { apply Hrid. exists (Exception "deadline exceeded"). reflexivity. }
  subst blob_path report_id.
  exists disk', log. split.
  - rewrite Hrun, (Hok eq_refl). reflexivity.
  - apply Hlog. eexists. reflexivity.
Defined.

(** C5 as stated fails when the temporary file cannot be removed: an
    upload that went through a failing bucket and a failing store is then
    answered 500 by the outer handler, not 200, and the file is left. *)
Lemma upload_degraded_and_file_held_500 :
  App.upload_file
    (Lab.world (fun _ => App.Saved) Lab.held (fun _ => 0)
       (Some Demo.failing_bucket) (Some Demo.failing_store)
       (Demo.services [] "Hemoglobin 13.5 g/dL" (Ok (Some "All normal."))))
    (Demo.upload_request "alice" "scan.PNG") ∅
  = ({[ "uploads/0b6f_scan.PNG" ]},
     ([App.VerifyIdToken "tok-alice";
       App.FileSave "uploads/0b6f_scan.PNG";
       App.Pipeline (Utils.ImageOpen "uploads/0b6f_scan.PNG");
       App.Pipeline (Utils.ImageToString "Hemoglobin 13.5 g/dL");
       App.Pipeline (Utils.GenerateContent
                       (Utils.user_prompt "Hemoglobin 13.5 g/dL"));
       App.UploadFromFilename "medical_reports/alice/0b6f_scan.PNG"
         "uploads/0b6f_scan.PNG";
       App.DocumentSet "alice"
         {[ "filename" := JStr "scan.PNG";
            "blob_path" := JStr EmptyString;
            "extracted_text" := JStr "Hemoglobin 13.5 g/dL";
            "ai_analysis" := JStr "All normal.";
            "uploaded_at" := JStr "2024-05-01T10:00:00";
            "user_id" := JStr "alice" ]};
       App.OsRemove "uploads/0b6f_scan.PNG"],
      Ok (App.error_body
            "Upload failed: The file is being used by another process",
          500%nat))).
Proof. vm_compute. reflexivity. Qed.

Section TempFile.
Context {Image : Type} (w : App.world Image).

Lemma upload_file_early (req : App.request) (disk : gset string)
    (l : list (App.ext_call Image)) (user_id : string)
    (k : string -> EffS (gset string) (App.ext_call Image) App.response)
    (resp : App.response) :
  App.get_authenticated_user w req disk = (disk, (l, Ok user_id)) ->
  k user_id disk = (disk, ([], Ok resp)) ->
  App.guarded "Upload failed: "
    (auth ← st_attempt (App.get_authenticated_user w req);
     match auth with
     | Raise e => mret (App.error_body (str_of_exn e), 401%nat)
     | Ok authenticated_uid => k authenticated_uid
     end) disk
  = (disk, (l, Ok resp)).
Proof.
  intros Hauth Hk.
  rewrite (guarded_after_auth w _ _ _ _ _ _ _ Hauth), Hk. simpl.
  by rewrite app_nil_r.
Qed.

(** The ways an upload request can go: answered before anything is saved;
    or, for a file name that passed validation, the save raised, or the
    file was saved and the handler came to its removal. *)
Lemma upload_file_cases (req : App.request) (disk : gset string) :
  exists l,
    (forall c, c ∈ l -> exists id_token, c = App.VerifyIdToken id_token)
    /\ ((exists resp,
           Upload.rejected w req disk l resp
           /\ (resp.2 = 400 \/ resp.2 = 401 \/ resp.2 = 500))
        \/ (exists filename,
              App.file_part req = Some (Some filename)
              /\ (Upload.not_saved w req disk l (Upload.temp_path w filename)
                  \/ exists mid resp,
                       Upload.saved w req disk l (Upload.temp_path w filename)
                         mid resp))).
Proof.
  pose proof (get_authenticated_user_frame w req disk) as [Hdisk Hlog].
  destruct (App.get_authenticated_user w req disk) as [d0 [l auth]] eqn:Hauth.
  simpl in Hdisk, Hlog. subst d0. exists l. split; [exact Hlog |].
  destruct auth as [user_id | e].
  2:{ left. eexists. split.
      - unfold Upload.rejected, App.upload_file, App.guarded.
        eapply st_bind_run_log;
          [ apply st_attempt_run; eapply st_bind_run;
            [ apply st_attempt_run; exact Hauth
            | cbv beta iota; apply st_mret_run ]
          | cbv beta iota; apply st_mret_run
          | by rewrite !app_nil_r ].
      - right; left; reflexivity. }
  destruct (App.file_part req) as [name |] eqn:Hfile.
  2:{ left. eexists. split.
      - unfold Upload.rejected, App.upload_file.
        apply (upload_file_early req disk l user_id _ _ Hauth).
        rewrite Hfile. reflexivity.
      - left; reflexivity. }
  destruct (PyStr.truthy (default EmptyString name)) eqn:Htruthy.
  2:{ left. eexists. split.
      - unfold Upload.rejected, App.upload_file.
        apply (upload_file_early req disk l user_id _ _ Hauth).
        rewrite Hfile. cbv zeta. rewrite Htruthy. reflexivity.
      - left; reflexivity. }
  destruct name as [filename |]; [| discriminate]. cbn in Htruthy.
  destruct (App.allowed_file filename) eqn:Hallowed.
  2:{ left. eexists. split.
      - unfold Upload.rejected, App.upload_file.
        apply (upload_file_early req disk l user_id _ _ Hauth).
        rewrite Hfile. cbv zeta. cbn [default from_option id].
        rewrite Htruthy, Hallowed. reflexivity.
      - left; reflexivity. }
  destruct (PyStr.rsplit1 "." (App.secure_filename w filename))
    as [[stem ext] |] eqn:Hsplit.
  2:{ left. eexists. split.
      - unfold Upload.rejected, App.upload_file.
        rewrite (guarded_after_auth w _ _ _ _ _ _ _ Hauth).
        rewrite Hfile. cbv zeta. cbn [default from_option id].
        rewrite Htruthy, Hallowed. cbn [negb]. cbv iota. rewrite Hsplit.
        simpl. by rewrite app_nil_r.
      - right; right; reflexivity. }
  right. exists filename. split; [reflexivity |].
  destruct (App.save w (Upload.temp_path w filename))
    as [| e file_left] eqn:Hsave.
  2:{ left. exists e, file_left. split; [exact Hsave |].
      by apply (upload_file_not_saved w req disk l user_id filename stem ext). }
  right.
  destruct (Utils.process_uploaded_file (App.pipeline w)
              (Upload.temp_path w filename) (PyStr.lower ext))
    as [pl [[extracted_text ai_analysis] | e]] eqn:Hproc.
  - destruct (upload_file_stored w req disk l user_id filename stem ext pl
                extracted_text ai_analysis Hauth Hfile Htruthy Hallowed Hsplit
                Hsave Hproc)
      as (sl & blob_path & report_id & Hrun & Hsl & _ & _).
    cbv zeta in Hrun.
    exists ((App.Pipeline <$> pl) ++ sl
       ++ match App.db w with
          | Some _ =>
              [App.DocumentSet user_id
                 (Upload.record w user_id filename blob_path extracted_text
                    ai_analysis)]
          | None => []
          end)%list,
      (App.upload_success (App.secure_filename w filename) extracted_text
         ai_analysis report_id, 200%nat).
    split; [exact Hsave |].
    split; [rewrite Hrun, <- !app_assoc; reflexivity |].
    split; [| left; reflexivity].
    intros p Hp. rewrite !elem_of_app in Hp.
    destruct Hp as [Hp | [Hp | Hp]].
    + apply list_elem_of_fmap in Hp as (c & Hc & _). discriminate.
    + apply Hsl in Hp. discriminate.
    + destruct (App.db w); [| by apply elem_of_nil in Hp].
      apply list_elem_of_singleton in Hp. discriminate.
  - exists (App.Pipeline <$> pl),
      (App.error_body ("Processing failed: " +:+ str_of_exn e), 500%nat).
    split; [exact Hsave |].
    split; [| split; [| right; reflexivity]].
    + by apply (upload_file_unprocessed w req disk l user_id filename stem ext).
    + intros p Hp. apply list_elem_of_fmap in Hp as (c & Hc & _). discriminate.
Qed.

(** C8 (as amended): the upload handler always answers.  A request
    rejected with 400 or 401 (no file, file not allowed, authentication
    failure) saves no file and leaves the disk as it was.  When the
    temporary file was saved, its removal is the last thing the handler
    does, after a processing failure as after a success, degraded or not;
    if the removal succeeds the file is not on the disk at the end and the
    response is that 500 or that 200; if the removal raises, the file is
    still on the disk at the end and the response is the 500 of the outer
    handler. *)
Theorem temp_file_is_removed (req : App.request) (disk : gset string) :
  exists disk' log resp,
    App.upload_file w req disk = (disk', (log, Ok resp))
    /\ (resp.2 = 400 \/ resp.2 = 401 ->
        disk' = disk /\ forall file_path, App.FileSave file_path ∉ log)
    /\ (forall file_path,
          App.FileSave file_path ∈ log ->
          App.save w file_path = App.Saved ->
          (exists before mid,
             log = (before ++ App.FileSave file_path
                      :: mid ++ [App.OsRemove file_path])%list)
          /\ (App.os_remove w file_path = Ok tt ->
              (file_path ∉ disk') /\ (resp.2 = 200 \/ resp.2 = 500))
          /\ (forall e,
                App.os_remove w file_path = Raise e ->
                file_path ∈ disk'
                /\ resp = (App.error_body ("Upload failed: " +:+ str_of_exn e),
                           500%nat))).
Proof.
  destruct (upload_file_cases req disk) as (l & Hl & Hcases).
  assert (Hnosave : forall p, App.FileSave p ∉ l).
  { intros p Hp. apply Hl in Hp as [id_token Hp]. discriminate. }
  destruct Hcases
    as [(resp & Hrun & _)
       | (filename & _ & [(e & file_left & Hsave & Hrun)
                         | (mid & resp & Hsave & Hrun & Hmid & Hst)])].
  - exists disk, l, resp. split; [exact Hrun |]. split.
    + intros _. split; [reflexivity | exact Hnosave].
    + intros p Hp. by apply Hnosave in Hp.
  - eexists _, _, _. split; [exact Hrun |]. split.
    + intros [H4 | H4]; discriminate.
    + intros p Hp Hsaved.
      apply elem_of_app in Hp as [Hp | Hp]; [by apply Hnosave in Hp |].
      apply list_elem_of_singleton in Hp. injection Hp as ->. congruence.
  - eexists _, _, _. split; [exact Hrun |]. split.
    + unfold Upload.after_removal.
      destruct (App.os_remove w (Upload.temp_path w filename));
        cbn [fst snd];
        intros [H4 | H4]; try discriminate;
        destruct Hst as [Hst | Hst]; rewrite Hst in H4; discriminate.
    + intros p Hp _.
      assert (p = Upload.temp_path w filename) as ->.
      { apply elem_of_app in Hp as [Hp | Hp]; [by apply Hnosave in Hp |].
        apply elem_of_cons in Hp as [Hp | Hp]; [congruence |].
        apply elem_of_app in Hp as [Hp | Hp]; [by apply Hmid in Hp |].
        apply list_elem_of_singleton in Hp. discriminate. }
      split; [by exists l, mid |].
      unfold Upload.after_removal. split.
      * intros ->. cbn [fst snd]. split; [| exact Hst].
        intros Hin. apply elem_of_difference in Hin as [_ Hin].
        apply Hin. by apply elem_of_singleton.
      * intros e ->. cbn [fst snd]. split; [| reflexivity].
        apply elem_of_union. left. by apply elem_of_singleton.
Qed.

End TempFile.

(** C8 as stated fails when the removal raises: the file of an upload that
    was saved and processed is still on the disk when the handler returns,
    through its outer handler. *)
Lemma temp_file_left_when_removal_raises :
  App.upload_file
    (Lab.world (fun _ => App.Saved) Lab.held (fun _ => 0) None None
       (Demo.services [] "Hemoglobin 13.5 g/dL" (Ok (Some "All normal."))))
    (Demo.upload_request "alice" "scan.png") ∅
  = ({[ "uploads/0b6f_scan.png" ]},
     ([App.VerifyIdToken "tok-alice";
       App.FileSave "uploads/0b6f_scan.png";
       App.Pipeline (Utils.ImageOpen "uploads/0b6f_scan.png");
       App.Pipeline (Utils.ImageToString "Hemoglobin 13.5 g/dL");
       App.Pipeline (Utils.GenerateContent
                       (Utils.user_prompt "Hemoglobin 13.5 g/dL"));
       App.OsRemove "uploads/0b6f_scan.png"],
      Ok (App.error_body
            "Upload failed: The file is being used by another process",
          500%nat))).
Proof. vm_compute. reflexivity. Qed.

(** * Further properties of the code *)

(** ** Trimming *)

Lemma str_append_nil_l (s : string) : EmptyString +:+ s = s.
Proof. reflexivity. Qed.

Lemma str_append_cons (c : ascii) (s t : string) :
  String c s +:+ t = String c (s +:+ t).
Proof. reflexivity. Qed.

Lemma str_append_assoc (a b c : string) : (a +:+ b) +:+ c = a +:+ (b +:+ c).
Proof.
  induction a as [| x a IH]; [reflexivity |].
  change (String x ((a +:+ b) +:+ c) = String x (a +:+ (b +:+ c))).
  by rewrite IH.
Qed.

Lemma str_length_append (a b : string) :
  String.length (a +:+ b) = String.length a + String.length b.
Proof.
  induction a as [| x a IH]; [reflexivity |].
  change (S (String.length (a +:+ b)) = S (String.length a + String.length b)).
  by rewrite IH.
Qed.

Lemma rstrip_cons (c : ascii) (t : string) :
  PyStr.rstrip (String c t) =
  match PyStr.rstrip t with
  | EmptyString =>
      if PyStr.is_space c then EmptyString else String c EmptyString
  | String a r => String c (String a r)
  end.
Proof. reflexivity. Qed.

Lemma rstrip_nonspace_head (c : ascii) (t : string) :
  PyStr.is_space c = false ->
  PyStr.rstrip (String c t) = String c (PyStr.rstrip t).
Proof.
  intros Hc. rewrite rstrip_cons, Hc. by destruct (PyStr.rstrip t).
Qed.

Lemma rstrip_idempotent (s : string) :
  PyStr.rstrip (PyStr.rstrip s) = PyStr.rstrip s.
Proof.
  induction s as [| c s IH]; [reflexivity |].
  rewrite rstrip_cons. destruct (PyStr.rstrip s) as [| a r] eqn:Hr.
  - destruct (PyStr.is_space c) eqn:Hc; [reflexivity |].
    by rewrite rstrip_cons, Hc.
  - rewrite rstrip_cons, IH. reflexivity.
Qed.

(** What is left of [a] stays when a trimmed, non-empty [b] follows. *)
Lemma rstrip_append_fixed (a b : string) :
  b <> EmptyString -> PyStr.rstrip b = b ->
  PyStr.rstrip (a +:+ b) = a +:+ b.
Proof.
  intros Hb Hfix. induction a as [| x a IH]; [exact Hfix |].
  change (PyStr.rstrip (String x (a +:+ b)) = String x (a +:+ b)).
  rewrite rstrip_cons, IH.
  destruct (a +:+ b) as [| y r] eqn:Hab; [| reflexivity].
  destruct a; [change (b = EmptyString) in Hab; contradiction | discriminate].
Qed.

Lemma lstrip_head (s : string) :
  PyStr.lstrip s = EmptyString
  \/ exists c t, PyStr.lstrip s = String c t /\ PyStr.is_space c = false.
Proof.
  induction s as [| c s IH]; [by left |].
  simpl. destruct (PyStr.is_space c) eqn:Hc; [exact IH |]. right. eauto.
Qed.

(** [s.strip().strip() == s.strip()] *)
Lemma strip_idempotent (s : string) :
  PyStr.strip (PyStr.strip s) = PyStr.strip s.
Proof.
  unfold PyStr.strip.
  destruct (lstrip_head s) as [-> | (c & t & -> & Hc)]; [reflexivity |].
  rewrite (rstrip_nonspace_head c t Hc). cbn [PyStr.lstrip]. rewrite Hc.
  rewrite (rstrip_nonspace_head c _ Hc), rstrip_idempotent. reflexivity.
Qed.

(** A string that opens with a non-space character and is trimmed on the
    right is its own [strip]. *)
Lemma strip_fixed (c : ascii) (t : string) :
  PyStr.is_space c = false ->
  PyStr.rstrip (String c t) = String c t ->
  PyStr.strip (String c t) = String c t.
Proof.
  intros Hc Hfix. unfold PyStr.strip. cbn [PyStr.lstrip]. by rewrite Hc.
Qed.

(** ** Text extraction: trimming and failures *)

Section ExtractionMore.
Context {Image : Type} (svc : Utils.services Image).

(** X1: the image extractor opens the file, reads it once and returns the text
    trimmed; trimming it again changes nothing. *)
Theorem extract_text_from_image_trimmed
    (image_path : string) (image : Image) (text : string) :
  Utils.image_open svc image_path = Ok image ->
  Utils.image_to_string svc image = Ok text ->
  Utils.extract_text_from_image svc image_path
    = ([Utils.ImageOpen image_path; Utils.ImageToString image],
       Ok (PyStr.strip text))
  /\ PyStr.strip (PyStr.strip text) = PyStr.strip text.
Proof.
  intros Hopen Hocr. split; [| apply strip_idempotent].
  unfold Utils.extract_text_from_image.
  rewrite Hopen, bind_call_ok, Hocr, bind_call_ok. reflexivity.
Qed.

(** X2: when the file cannot be opened the OCR engine is not called; when the
    OCR engine fails nothing is returned; either failure is raised again
    with the prefix of the image extractor. *)
Theorem extract_text_from_image_failure (image_path : string) (e : exn) :
  (Utils.image_open svc image_path = Raise e ->
     Utils.extract_text_from_image svc image_path
     = ([Utils.ImageOpen image_path],
        Raise (Exception ("Failed to extract text from image: "
                          +:+ str_of_exn e))))
  /\ (forall image,
        Utils.image_open svc image_path = Ok image ->
        Utils.image_to_string svc image = Raise e ->
        Utils.extract_text_from_image svc image_path
        = ([Utils.ImageOpen image_path; Utils.ImageToString image],
           Raise (Exception ("Failed to extract text from image: "
                             +:+ str_of_exn e)))).
Proof.
  unfold Utils.extract_text_from_image. split.
  - intros Hopen. rewrite Hopen, bind_call_raise. reflexivity.
  - intros image Hopen Hocr.
    rewrite Hopen, bind_call_ok, Hocr, bind_call_raise. reflexivity.
Qed.

(** The page loop stops at the first page the OCR engine fails on. *)
Lemma pdf_pages_fail (pre : list Image) (texts : list string) (image : Image)
    (post : list Image) (e : exn) :
  Forall2 (fun image t => Utils.image_to_string svc image = Ok t) pre texts ->
  Utils.image_to_string svc image = Raise e ->
  forall (i : nat) (all_text : list string),
    Utils.pdf_pages svc i (pre ++ image :: post)%list all_text
    = (Utils.ImageToString <$> (pre ++ [image])%list, Raise e).
Proof.
  intros Hpre Hfail.
  induction Hpre as [| im t pre texts Hocr _ IH]; intros i all_text.
  - cbn [app Utils.pdf_pages]. rewrite Hfail, bind_call_raise. reflexivity.
  - cbn [app Utils.pdf_pages]. rewrite Hocr, bind_call_ok.
    destruct (PyStr.truthy (PyStr.strip t)); rewrite IH; reflexivity.
Qed.

(** X3: a failure of the conversion, or of the OCR of any page, aborts the PDF
    extraction: the pages after the failing one are not read, the text of
    the pages before it is dropped, and the failure is raised again with
    the prefix of the PDF extractor. *)
Theorem extract_text_from_pdf_aborts (pdf_path : string) (e : exn) :
  (Utils.convert_from_path svc pdf_path = Raise e ->
     Utils.extract_text_from_pdf svc pdf_path
     = ([Utils.ConvertFromPath pdf_path],
        Raise (Exception ("Failed to extract text from PDF: "
                          +:+ str_of_exn e))))
  /\ (forall pre image post texts,
        Utils.convert_from_path svc pdf_path = Ok (pre ++ image :: post)%list ->
        Forall2 (fun image t => Utils.image_to_string svc image = Ok t)
          pre texts ->
        Utils.image_to_string svc image = Raise e ->
        Utils.extract_text_from_pdf svc pdf_path
        = (Utils.ConvertFromPath pdf_path
             :: (Utils.ImageToString <$> (pre ++ [image])%list),
           Raise (Exception ("Failed to extract text from PDF: "
                             +:+ str_of_exn e)))).
Proof.
  unfold Utils.extract_text_from_pdf. split.
  - intros Hconv. rewrite Hconv, bind_call_raise. reflexivity.
  - intros pre image post texts Hconv Hpre Hfail.
    rewrite Hconv, bind_call_ok, (pdf_pages_fail pre texts image post e Hpre Hfail).
    simpl. by rewrite app_nil_r.
Qed.

End ExtractionMore.

Lemma extract_text_from_image_trimmed_witness :
  Utils.extract_text_from_image
    (Lab.services [] "  Hb 13.5  " (Ok None)) "scan.png"
    = ([Utils.ImageOpen "scan.png"; Utils.ImageToString "  Hb 13.5  "],
       Ok "Hb 13.5")
  /\ PyStr.strip (PyStr.strip "  Hb 13.5  ") = PyStr.strip "  Hb 13.5  ".
Proof.
  apply (extract_text_from_image_trimmed
           (Lab.services [] "  Hb 13.5  " (Ok None)) "scan.png"
           "  Hb 13.5  " "  Hb 13.5  ");
    reflexivity.
Defined.

Lemma extract_text_from_image_failure_witness :
  Utils.extract_text_from_image
    (Lab.services [] "smudge" (Ok None)) "missing.png"
    = ([Utils.ImageOpen "missing.png"],
       Raise (Exception
         "Failed to extract text from image: No such file or directory"))
  /\ Utils.extract_text_from_image
       (Lab.services [] "smudge" (Ok None)) "scan.png"
     = ([Utils.ImageOpen "scan.png"; Utils.ImageToString "smudge"],
        Raise (Exception
          "Failed to extract text from image: tesseract is not installed")).
Proof.
  split.
  - apply (extract_text_from_image_failure
             (Lab.services [] "smudge" (Ok None)) "missing.png"
             (Exception "No such file or directory")).
    reflexivity.
  - apply (extract_text_from_image_failure
             (Lab.services [] "smudge" (Ok None)) "scan.png"
             (Exception "tesseract is not installed"));
      reflexivity.
Defined.

Lemma extract_text_from_pdf_aborts_witness :
  Utils.extract_text_from_pdf
    (Lab.services ["Hb 13.5"; "smudge"; "WBC 7.2"] "" (Ok None)) "report.pdf"
  = ([Utils.ConvertFromPath "report.pdf"; Utils.ImageToString "Hb 13.5";
      Utils.ImageToString "smudge"],
     Raise (Exception
       "Failed to extract text from PDF: tesseract is not installed")).
Proof.
  apply (extract_text_from_pdf_aborts
           (Lab.services ["Hb 13.5"; "smudge"; "WBC 7.2"] "" (Ok None))
           "report.pdf" (Exception "tesseract is not installed"))
    with (pre := ["Hb 13.5"]) (post := ["WBC 7.2"]) (texts := ["Hb 13.5"]).
  - reflexivity.
  - repeat constructor.
  - reflexivity.
Defined.

(** ** The joined PDF text is trimmed, and what follows for the pipeline *)

Lemma truthy_nonempty (s : string) :
  PyStr.truthy s = true <-> s <> EmptyString.
Proof. destruct s; simpl; split; congruence. Qed.

Lemma page_section_fixed (i : nat) (stripped : string) :
  stripped <> EmptyString -> PyStr.rstrip stripped = stripped ->
  PyStr.rstrip (Utils.page_section i stripped) = Utils.page_section i stripped.
Proof.
  intros Hne Hfix. unfold Utils.page_section.
  rewrite <- !str_append_assoc. by apply rstrip_append_fixed.
Qed.

Lemma page_section_length (i : nat) (stripped : string) :
  14 + String.length stripped <= String.length (Utils.page_section i stripped).
Proof.
  unfold Utils.page_section. rewrite !str_length_append.
  change (String.length "--- Page ") with 9.
  change (String.length " ---") with 4.
  change (String.length PyStr.nl) with 1. lia.
Qed.

(** The sections are trimmed on the right and none is empty. *)
Lemma sections_from_fixed (texts : list string) (i : nat) :
  Forall (fun s => PyStr.rstrip s = s /\ PyStr.startswith "--- Page " s = true
                   /\ 14 <= String.length s)
    (PdfOutput.sections_from i texts).
Proof.
  revert i. induction texts as [| t texts IH]; intros i; [constructor |].
  rewrite sections_from_cons. unfold PdfOutput.section_of.
  destruct (PyStr.truthy (PyStr.strip t)) eqn:Ht; [| apply IH].
  constructor; [| apply IH].
  apply truthy_nonempty in Ht.
  assert (Hfix : PyStr.rstrip (PyStr.strip t) = PyStr.strip t)
    by apply rstrip_idempotent.
  split; [by apply page_section_fixed |]. split; [reflexivity |].
  pose proof (page_section_length i (PyStr.strip t)) as Hlen. lia.
Qed.

Lemma sections_from_nil (texts : list string) (i : nat) :
  PdfOutput.sections_from i texts = []
  <-> Forall (fun t => PyStr.strip t = EmptyString) texts.
Proof.
  revert i. induction texts as [| t texts IH]; intros i;
    [split; [constructor | reflexivity] |].
  rewrite sections_from_cons. unfold PdfOutput.section_of.
  destruct (PyStr.truthy (PyStr.strip t)) eqn:Ht.
  - apply truthy_nonempty in Ht. split; [discriminate |].
    intros Hall. inversion Hall; subst. contradiction.
  - rewrite IH. destruct (PyStr.strip t) eqn:Hs; [| discriminate].
    split; [by constructor |]. intros Hall. by inversion Hall.
Qed.

Lemma startswith_append (p x tail : string) :
  PyStr.startswith p x = true -> PyStr.startswith p (x +:+ tail) = true.
Proof.
  revert x. induction p as [| a p IH]; intros x Hp; [reflexivity |].
  destruct x as [| b x]; [discriminate |].
  change (PyStr.startswith (String a p) (String b (x +:+ tail)) = true).
  cbn [PyStr.startswith] in Hp |- *.
  destruct (ascii_dec a b); [by apply IH | discriminate].
Qed.

(** Joining trimmed, non-empty pieces gives a trimmed text that opens with
    the first piece. *)
Lemma join_fixed (sep x : string) (l : list string) :
  Forall (fun s => PyStr.rstrip s = s /\ s <> EmptyString) (x :: l) ->
  PyStr.rstrip (PyStr.join sep (x :: l)) = PyStr.join sep (x :: l)
  /\ PyStr.join sep (x :: l) <> EmptyString
  /\ exists tail, PyStr.join sep (x :: l) = x +:+ tail.
Proof.
  revert x. induction l as [| y l IH]; intros x Hall.
  - inversion Hall as [| ? ? [Hx Hne] _]; subst. cbn [PyStr.join].
    split; [exact Hx |]. split; [exact Hne |].
    exists EmptyString. clear. induction x as [| c x IHx]; [reflexivity |].
    change (String c x = String c (x +:+ EmptyString)). by rewrite <- IHx.
  - inversion Hall as [| ? ? [Hx Hne] Hrest]; subst.
    destruct (IH y Hrest) as (Hfix & Hnonempty & _).
    change (PyStr.join sep (x :: y :: l))
      with (x +:+ sep +:+ PyStr.join sep (y :: l)).
    split; [| split].
    + rewrite <- str_append_assoc. by apply rstrip_append_fixed.
    + destruct x; [done | discriminate].
    + eauto.
Qed.

(** The joined text of a PDF: empty exactly when every page is blank; else
    it opens with the first marker, is at least 14 characters long and is
    its own [strip]. *)
Lemma joined_shape (texts : list string) :
  (PdfOutput.joined texts = EmptyString
   <-> Forall (fun t => PyStr.strip t = EmptyString) texts)
  /\ PyStr.strip (PdfOutput.joined texts) = PdfOutput.joined texts
  /\ (PdfOutput.joined texts <> EmptyString ->
      PyStr.startswith "--- Page " (PdfOutput.joined texts) = true
      /\ 14 <= String.length (PdfOutput.joined texts)).
Proof.
  unfold PdfOutput.joined.
  pose proof (sections_from_fixed texts 0) as Hfixed.
  pose proof (sections_from_nil texts 0) as Hnil.
  destruct (PdfOutput.sections_from 0 texts) as [| x l] eqn:Hsec.
  - split; [| split; [reflexivity | done]].
    split; intros _; [by apply Hnil | reflexivity].
  - assert (Hall : Forall (fun s => PyStr.rstrip s = s /\ s <> EmptyString)
                     (x :: l)).
    { eapply Forall_impl; [exact Hfixed |]. intros s (Hs & _ & Hlen).
      split; [exact Hs |]. intros ->. simpl in Hlen. lia. }
    destruct (join_fixed (PyStr.nl +:+ PyStr.nl) x l Hall)
      as (Hfix & Hne & tail & Htail).
    inversion Hfixed as [| ? ? (_ & Hstart & Hlen) _]; subst.
    assert (Hopen : PyStr.startswith "--- Page "
                      (PyStr.join (PyStr.nl +:+ PyStr.nl) (x :: l)) = true
                    /\ 14 <= String.length
                         (PyStr.join (PyStr.nl +:+ PyStr.nl) (x :: l))).
    { rewrite Htail, str_length_append. split; [| lia].
      by apply startswith_append. }
    split; [| split; [| intros _; exact Hopen]].
    + split; [intros H; by rewrite H in Hne |].
      intros Hall0. apply Hnil in Hall0. discriminate.
    + destruct Hopen as [Hstart' _].
      destruct (PyStr.join (PyStr.nl +:+ PyStr.nl) (x :: l)) as [| c t] eqn:Hj;
        [done |].
      apply strip_fixed; [| exact Hfix].
      cbn [PyStr.startswith] in Hstart'.
      destruct (ascii_dec "-" c) as [<- |]; [reflexivity | discriminate].
Qed.

Section PdfPipeline.
Context {Image : Type} (svc : Utils.services Image).

(** X4: the text the PDF extractor returns needs no further trimming, and it is
    empty exactly when every page is blank (in particular for a PDF without
    pages). *)
Theorem extract_text_from_pdf_trimmed
    (pdf_path : string) (images : list Image) (texts : list string) :
  Utils.convert_from_path svc pdf_path = Ok images ->
  Forall2 (fun image t => Utils.image_to_string svc image = Ok t) images texts ->
  exists out,
    Utils.extract_text_from_pdf svc pdf_path
    = (Utils.ConvertFromPath pdf_path :: (Utils.ImageToString <$> images),
       Ok out)
    /\ PyStr.strip out = out
    /\ (out = EmptyString
        <-> Forall (fun t => PyStr.strip t = EmptyString) texts).
Proof.
  intros Hconv Hocr. exists (PdfOutput.joined texts).
  destruct (joined_shape texts) as (Hempty & Hfix & _).
  split; [| by split].
  unfold Utils.extract_text_from_pdf.
  rewrite Hconv, bind_call_ok, (pdf_pages_run svc images texts Hocr).
  rewrite bind_ok. simpl. by rewrite app_nil_r.
Qed.

(** X5: the pipeline on a PDF: when every page is blank it answers with the
    no-text pair and the generation service is not called; when some page
    has text the joined text always passes both length guards, so the
    generation service is called, once, with the prompt built from the
    joined text. *)
Theorem process_pdf_by_pages
    (file_path file_extension : string) (images : list Image)
    (texts : list string) :
  PyStr.lower file_extension = "pdf" ->
  Utils.convert_from_path svc file_path = Ok images ->
  Forall2 (fun image t => Utils.image_to_string svc image = Ok t) images texts ->
  (Forall (fun t => PyStr.strip t = EmptyString) texts ->
     Utils.process_uploaded_file svc file_path file_extension
     = (Utils.ConvertFromPath file_path :: (Utils.ImageToString <$> images),
        Ok (EmptyString, Utils.no_text_message)))
  /\ (~ Forall (fun t => PyStr.strip t = EmptyString) texts ->
      (Utils.process_uploaded_file svc file_path file_extension).1
      = (Utils.ConvertFromPath file_path :: (Utils.ImageToString <$> images)
         ++ [Utils.GenerateContent
               (Utils.user_prompt
                  (Utils.limit_input (PdfOutput.joined texts)))])%list).
Proof.
  intros Hext Hconv Hocr.
  destruct (joined_shape texts) as (Hempty & Hfix & Hshape).
  assert (Hrun : Utils.extract_by_extension svc file_path file_extension
                 = (Utils.ConvertFromPath file_path
                      :: (Utils.ImageToString <$> images),
                    Ok (PdfOutput.joined texts))).
  { unfold Utils.extract_by_extension. rewrite Hext. cbn [String.eqb].
    change (String.eqb "pdf" "pdf") with true. cbv iota.
    unfold Utils.extract_text_from_pdf.
    rewrite Hconv, bind_call_ok, (pdf_pages_run svc images texts Hocr).
    rewrite bind_ok. simpl. by rewrite app_nil_r. }
  unfold Utils.process_uploaded_file, Utils.process_uploaded_file_with.
  rewrite Hrun, bind_ok, short_guard by lia. split.
  - intros Hblank. apply Hempty in Hblank. rewrite Hblank. simpl.
    by rewrite app_nil_r.
  - intros Hsome.
    assert (Hne : PdfOutput.joined texts <> EmptyString) by tauto.
    destruct (Hshape Hne) as [_ Hlen].
    rewrite Hfix.
    assert (H5 : (PyStr.len (PdfOutput.joined texts) <? 5)%nat = false)
      by (apply Nat.ltb_ge; unfold PyStr.len; lia).
    rewrite H5.
    pose proof (analyze_calls_once svc (PdfOutput.joined texts)) as Hcall.
    rewrite Hfix in Hcall. specialize (Hcall ltac:(unfold PyStr.len; lia)).
    destruct (Utils.analyze_medical_text_with_ai svc (PdfOutput.joined texts))
      as [l2 [a | e]]; simpl in Hcall; subst l2.
    + rewrite bind_ok. simpl. by rewrite ?app_nil_r.
    + simpl. by rewrite ?app_nil_r.
Qed.

End PdfPipeline.

Lemma extract_text_from_pdf_trimmed_witness :
  exists out,
    Utils.extract_text_from_pdf
      (Lab.services ["   "; PyStr.nl] "" (Ok None)) "report.pdf"
    = ([Utils.ConvertFromPath "report.pdf"; Utils.ImageToString "   ";
        Utils.ImageToString PyStr.nl], Ok out)
    /\ PyStr.strip out = out
    /\ (out = EmptyString
        <-> Forall (fun t => PyStr.strip t = EmptyString) ["   "; PyStr.nl]).
Proof.
  apply (extract_text_from_pdf_trimmed
           (Lab.services ["   "; PyStr.nl] "" (Ok None)) "report.pdf"
           ["   "; PyStr.nl] ["   "; PyStr.nl]).
  - reflexivity.
  - repeat constructor.
Defined.

Lemma process_pdf_by_pages_witness :
  (Utils.process_uploaded_file
     (Lab.services ["   "; "Hb 13.5"] "" (Ok (Some "All normal.")))
     "uploads/0b6f_report.pdf" "PDF").1
  = [Utils.ConvertFromPath "uploads/0b6f_report.pdf";
     Utils.ImageToString "   "; Utils.ImageToString "Hb 13.5";
     Utils.GenerateContent
       (Utils.user_prompt ("--- Page 2 ---" +:+ PyStr.nl +:+ "Hb 13.5"))].
Proof.
  apply (process_pdf_by_pages
           (Lab.services ["   "; "Hb 13.5"] "" (Ok (Some "All normal.")))
           "uploads/0b6f_report.pdf" "PDF" ["   "; "Hb 13.5"]
           ["   "; "Hb 13.5"]).
  - reflexivity.
  - reflexivity.
  - repeat constructor.
  - intros Hall. inversion Hall as [| ? ? _ Hrest]; subst.
    inversion Hrest as [| ? ? Hb _]; subst. discriminate Hb.
Defined.

(** ** The analysis function and the pipeline: what is returned *)

Lemma lower_char_idempotent (c : ascii) :
  PyStr.lower_char (PyStr.lower_char c) = PyStr.lower_char c.
Proof. destruct c as [[] [] [] [] [] [] [] []]; reflexivity. Qed.

Lemma lower_idempotent (s : string) :
  PyStr.lower (PyStr.lower s) = PyStr.lower s.
Proof.
  induction s as [| c s IH]; [reflexivity |].
  cbn [PyStr.lower]. by rewrite lower_char_idempotent, IH.
Qed.

Section PipelineMore.
Context {Image : Type} (svc : Utils.services Image).

(** X6: past the guard, what the generation service answers is returned as it
    is when it is a non-empty text; an absent or empty answer gives the
    fixed could-not-be-generated message, as a value. *)
Theorem analyze_returns_response (extracted_text : string)
    (response_text : option string) :
  10 <= PyStr.len (PyStr.strip extracted_text) ->
  Utils.generate_content svc
    (Utils.user_prompt (Utils.limit_input extracted_text)) = Ok response_text ->
  Utils.analyze_medical_text_with_ai svc extracted_text
  = ([Utils.GenerateContent
        (Utils.user_prompt (Utils.limit_input extracted_text))],
     Ok match response_text with
        | Some (String c text) => String c text
        | _ => Utils.no_analysis_message
        end).
Proof.
  intros Hlen Hgen. unfold Utils.analyze_medical_text_with_ai.
  rewrite short_guard by lia.
  assert (Hge : (PyStr.len (PyStr.strip extracted_text) <? 10)%nat = false)
    by (apply Nat.ltb_ge; exact Hlen).
  rewrite Hge. cbv zeta. rewrite Hgen, bind_call_ok.
  destruct response_text as [[| c text] |]; reflexivity.
Qed.

(** X7: an extension other than pdf, png, jpg, jpeg and gif (compared in lower
    case) makes the pipeline raise at once: no collaborator is called and
    the analysis function is not invoked. *)
Theorem process_unsupported_extension
    (analyze : string -> Eff (Utils.ext_call Image) string)
    (file_path file_extension : string) :
  PyStr.lower file_extension ∉ ["pdf"; "png"; "jpg"; "jpeg"; "gif"] ->
  Utils.process_uploaded_file_with svc analyze file_path file_extension
  = ([], Raise (Exception ("Failed to process file: Unsupported file type: "
                           +:+ file_extension))).
Proof.
  intros Hnot.
  unfold Utils.process_uploaded_file_with, Utils.extract_by_extension.
  destruct (String.eqb_spec (PyStr.lower file_extension) "pdf") as [Heq | _];
    [exfalso; apply Hnot; rewrite Heq; apply list_elem_of_here |].
  destruct (existsb _ _) eqn:Hex; [| reflexivity].
  exfalso. apply Hnot. apply existsb_exists in Hex as (x & Hin & Hx).
  apply String.eqb_eq in Hx. subst x.
  apply list_elem_of_further. by apply list_elem_of_In.
Qed.

(** X8: every extension the router accepts is one the pipeline has an extractor
    for: with the lower-cased extension of an allowed file name the pipeline
    runs the PDF extractor or the image extractor, never the
    unsupported-type failure. *)
Theorem allowed_extension_is_supported (filename stem ext file_path : string) :
  App.allowed_file filename = true ->
  PyStr.rsplit1 "." filename = Some (stem, ext) ->
  Utils.extract_by_extension svc file_path (PyStr.lower ext)
  = if String.eqb (PyStr.lower ext) "pdf"
    then Utils.extract_text_from_pdf svc file_path
    else Utils.extract_text_from_image svc file_path.
Proof.
  intros Hallowed Hsplit. unfold App.allowed_file in Hallowed.
  rewrite Hsplit in Hallowed. apply andb_true_iff in Hallowed as [_ Hin].
  unfold Utils.extract_by_extension. rewrite lower_idempotent.
  destruct (String.eqb (PyStr.lower ext) "pdf") eqn:Hpdf; [reflexivity |].
  unfold App.ALLOWED_EXTENSIONS in Hin. cbn [existsb] in Hin |- *.
  rewrite Hpdf in Hin. cbn [orb] in Hin |- *. by rewrite Hin.
Qed.

(** X9: a failure of the extraction, or of the analysis, is raised again by the
    pipeline with its own prefix; after a failed extraction the analysis
    function is not invoked, and in neither case is a partial result
    returned. *)
Theorem process_wraps_failures
    (analyze : string -> Eff (Utils.ext_call Image) string)
    (file_path file_extension : string)
    (log : list (Utils.ext_call Image)) (e : exn) :
  (Utils.extract_by_extension svc file_path file_extension = (log, Raise e) ->
     Utils.process_uploaded_file_with svc analyze file_path file_extension
     = (log, Raise (Exception ("Failed to process file: " +:+ str_of_exn e))))
  /\ (forall text log',
        Utils.extract_by_extension svc file_path file_extension
        = (log, Ok text) ->
        5 <= PyStr.len (PyStr.strip text) ->
        analyze text = (log', Raise e) ->
        Utils.process_uploaded_file_with svc analyze file_path file_extension
        = ((log ++ log')%list,
           Raise (Exception ("Failed to process file: " +:+ str_of_exn e)))).
Proof.
  unfold Utils.process_uploaded_file_with. split.
  - intros Hext. rewrite Hext. simpl. by rewrite app_nil_r.
  - intros text log' Hext Hlen Han.
    rewrite Hext, bind_ok, short_guard by lia.
    assert (H5 : (PyStr.len (PyStr.strip text) <? 5)%nat = false)
      by (apply Nat.ltb_ge; exact Hlen).
    rewrite H5, Han. simpl. by rewrite app_nil_r.
Qed.

(** X10: a text of 5 to 9 characters once trimmed passes the guard of the
    pipeline but not the one of the analysis function: the pipeline returns
    the text as extracted with the insufficient-text message, and the
    generation service is not called. *)
Theorem process_near_empty_text (file_path file_extension text : string)
    (log : list (Utils.ext_call Image)) :
  Utils.extract_by_extension svc file_path file_extension = (log, Ok text) ->
  5 <= PyStr.len (PyStr.strip text) < 10 ->
  Utils.process_uploaded_file svc file_path file_extension
  = (log, Ok (text, Utils.insufficient_text_message)).
Proof.
  intros Hext [H5 H10].
  unfold Utils.process_uploaded_file, Utils.process_uploaded_file_with.
  rewrite Hext, bind_ok, short_guard by lia.
  assert (Hge : (PyStr.len (PyStr.strip text) <? 5)%nat = false)
    by (apply Nat.ltb_ge; exact H5).
  rewrite Hge. unfold Utils.analyze_medical_text_with_ai.
  rewrite short_guard by lia.
  assert (Hlt : (PyStr.len (PyStr.strip text) <? 10)%nat = true)
    by (apply Nat.ltb_lt; exact H10).
  rewrite Hlt. simpl. by rewrite app_nil_r.
Qed.

(** X11: on success the pipeline returns the text exactly as extracted, also
    when the analysis was given only its first 15,000 characters, together
    with the answer of the generation service, after one call to it. *)
Theorem process_returns_full_text (file_path file_extension text : string)
    (log : list (Utils.ext_call Image)) (c : ascii) (answer : string) :
  Utils.extract_by_extension svc file_path file_extension = (log, Ok text) ->
  10 <= PyStr.len (PyStr.strip text) ->
  Utils.generate_content svc (Utils.user_prompt (Utils.limit_input text))
  = Ok (Some (String c answer)) ->
  Utils.process_uploaded_file svc file_path file_extension
  = ((log ++ [Utils.GenerateContent
                (Utils.user_prompt (Utils.limit_input text))])%list,
     Ok (text, String c answer)).
Proof.
  intros Hext Hlen Hgen.
  unfold Utils.process_uploaded_file, Utils.process_uploaded_file_with.
  rewrite Hext, bind_ok, short_guard by lia.
  assert (Hge : (PyStr.len (PyStr.strip text) <? 5)%nat = false)
    by (apply Nat.ltb_ge; lia).
  rewrite Hge. unfold Utils.analyze_medical_text_with_ai.
  rewrite short_guard by lia.
  assert (Hge' : (PyStr.len (PyStr.strip text) <? 10)%nat = false)
    by (apply Nat.ltb_ge; exact Hlen).
  rewrite Hge'. cbv zeta. rewrite Hgen, bind_call_ok. reflexivity.
Qed.

End PipelineMore.

Lemma analyze_returns_response_witness :
  Utils.analyze_medical_text_with_ai
    (Lab.services [] "" (Ok (Some EmptyString))) "Hemoglobin 13.5 g/dL"
  = ([Utils.GenerateContent (Utils.user_prompt "Hemoglobin 13.5 g/dL")],
     Ok Utils.no_analysis_message).
Proof.
  apply (analyze_returns_response
           (Lab.services [] "" (Ok (Some EmptyString)))
           "Hemoglobin 13.5 g/dL" (Some EmptyString)).
  - vm_compute. lia.
  - reflexivity.
Defined.

Lemma process_unsupported_extension_witness :
  Utils.process_uploaded_file (Lab.services [] "" (Ok None))
    "uploads/0b6f_notes.TXT" "TXT"
  = ([], Raise (Exception
       "Failed to process file: Unsupported file type: TXT")).
Proof.
  apply (process_unsupported_extension (Lab.services [] "" (Ok None))
           (Utils.analyze_medical_text_with_ai (Lab.services [] "" (Ok None)))
           "uploads/0b6f_notes.TXT" "TXT").
  intros Hin.
  repeat (apply elem_of_cons in Hin as [Hin | Hin]; [discriminate Hin |]).
  by apply elem_of_nil in Hin.
Defined.

Lemma allowed_extension_is_supported_witness :
  Utils.extract_by_extension (Lab.services [] "Hb 13.5" (Ok None))
    "uploads/0b6f_scan.PNG" (PyStr.lower "PNG")
  = Utils.extract_text_from_image (Lab.services [] "Hb 13.5" (Ok None))
      "uploads/0b6f_scan.PNG".
Proof.
  apply (allowed_extension_is_supported (Lab.services [] "Hb 13.5" (Ok None))
           "scan.PNG" "scan" "PNG" "uploads/0b6f_scan.PNG");
    reflexivity.
Defined.

Lemma process_wraps_failures_witness :
  Utils.process_uploaded_file (Lab.services [] "" (Ok None)) "missing.png" "png"
  = ([Utils.ImageOpen "missing.png"],
     Raise (Exception ("Failed to process file: "
       +:+ "Failed to extract text from image: No such file or directory"))).
Proof.
  apply (process_wraps_failures (Lab.services [] "" (Ok None))
           (Utils.analyze_medical_text_with_ai (Lab.services [] "" (Ok None)))
           "missing.png" "png" [Utils.ImageOpen "missing.png"]
           (Exception
              "Failed to extract text from image: No such file or directory")).
  reflexivity.
Defined.

Lemma process_near_empty_text_witness :
  Utils.process_uploaded_file
    (Lab.services [] " Hb 13.5 " (Ok (Some "All normal.")))
    "uploads/0b6f_scan.png" "png"
  = ([Utils.ImageOpen "uploads/0b6f_scan.png";
      Utils.ImageToString " Hb 13.5 "],
     Ok ("Hb 13.5", Utils.insufficient_text_message)).
Proof.
  apply (process_near_empty_text
           (Lab.services [] " Hb 13.5 " (Ok (Some "All normal.")))
           "uploads/0b6f_scan.png" "png" "Hb 13.5").
  - reflexivity.
  - vm_compute. lia.
Defined.

Lemma process_returns_full_text_witness :
  Utils.process_uploaded_file
    (Lab.services [] "Hemoglobin 13.5 g/dL" (Ok (Some "All normal.")))
    "uploads/0b6f_scan.png" "png"
  = ([Utils.ImageOpen "uploads/0b6f_scan.png";
      Utils.ImageToString "Hemoglobin 13.5 g/dL";
      Utils.GenerateContent (Utils.user_prompt "Hemoglobin 13.5 g/dL")],
     Ok ("Hemoglobin 13.5 g/dL", "All normal.")).
Proof.
  apply (process_returns_full_text
           (Lab.services [] "Hemoglobin 13.5 g/dL" (Ok (Some "All normal.")))
           "uploads/0b6f_scan.png" "png" "Hemoglobin 13.5 g/dL"
           [Utils.ImageOpen "uploads/0b6f_scan.png";
            Utils.ImageToString "Hemoglobin 13.5 g/dL"] "A" "ll normal.").
  - reflexivity.
  - vm_compute. lia.
  - reflexivity.
Defined.

(** ** Splitting: the bearer token and the file extension *)

Lemma split_go_nonempty (sep : string) (s : string) :
  forall (skip : nat) (cur : list ascii),
    exists x l, PyStr.split_go sep skip cur s = x :: l.
Proof.
  induction s as [| c s IH]; intros skip cur; [simpl; eauto |].
  cbn [PyStr.split_go]. destruct skip as [| k]; [| apply IH].
  destruct (PyStr.startswith sep (String c s)); [eauto | apply IH].
Qed.

(** Characters still to be skipped are passed over. *)
Lemma split_go_skip (sep u t : string) (cur : list ascii) :
  PyStr.split_go sep (String.length u) cur (u +:+ t)
  = PyStr.split_go sep 0 cur t.
Proof.
  induction u as [| c u IH]; [reflexivity |].
  change (PyStr.split_go sep (S (String.length u)) cur (String c (u +:+ t))
          = PyStr.split_go sep 0 cur t).
  cbn [PyStr.split_go]. exact IH.
Qed.

Lemma string_of_list_ascii_snoc (l : list ascii) (c : ascii) (t : string) :
  string_of_list_ascii (l ++ [c]) +:+ t
  = string_of_list_ascii l +:+ String c t.
Proof.
  induction l as [| a l IH]; [reflexivity |].
  change (String a (string_of_list_ascii (l ++ [c]) +:+ t)
          = String a (string_of_list_ascii l +:+ String c t)).
  by rewrite IH.
Qed.

(** Without an occurrence of the separator there is one piece. *)
Lemma split_go_no_separator (sep t : string) :
  PyStr.contains sep t = false ->
  forall cur : list ascii,
    PyStr.split_go sep 0 cur t = [string_of_list_ascii (rev cur) +:+ t].
Proof.
  induction t as [| c t IH]; intros Hno cur.
  - cbn [PyStr.split_go]. f_equal.
    induction (string_of_list_ascii (rev cur)) as [| a s IHs]; [reflexivity |].
    change (String a s = String a (s +:+ EmptyString)). by rewrite <- IHs.
  - cbn [PyStr.contains] in Hno. apply orb_false_iff in Hno as [Hstart Hrest].
    cbn [PyStr.split_go]. rewrite Hstart, (IH Hrest).
    cbn [rev]. by rewrite string_of_list_ascii_snoc.
Qed.

(** [("Bearer " + t).split("Bearer ")[1] == t] when [t] holds no further
    occurrence of the prefix. *)
Lemma split_bearer (t : string) :
  PyStr.contains "Bearer " t = false ->
  PyStr.split "Bearer " ("Bearer " +:+ t) = [EmptyString; t].
Proof.
  intros Hno. unfold PyStr.split.
  change ("Bearer " +:+ t) with (String "B" ("earer " +:+ t)).
  cbn [PyStr.split_go].
  change (PyStr.startswith "Bearer " (String "B" ("earer " +:+ t))) with true.
  cbv iota. f_equal.
  change (String.length "Bearer " - 1) with (String.length "earer ").
  rewrite split_go_skip. by rewrite (split_go_no_separator _ _ Hno).
Qed.

(** A header with the prefix always has a second piece. *)
Lemma split_bearer_second (auth_header : string) :
  PyStr.startswith "Bearer " auth_header = true ->
  exists id_token, PyStr.split "Bearer " auth_header !! 1%nat = Some id_token.
Proof.
  intros Hstart. unfold PyStr.split.
  destruct auth_header as [| c h]; [discriminate |].
  cbn [PyStr.split_go]. rewrite Hstart.
  destruct (split_go_nonempty "Bearer " h (String.length "Bearer " - 1) [])
    as (x & l & ->).
  by exists x.
Qed.

Lemma one_char_contains (c a : ascii) (s : string) :
  PyStr.contains (String c EmptyString) (String a s)
  = (if ascii_dec c a then true else false)
    || PyStr.contains (String c EmptyString) s.
Proof. cbn [PyStr.contains PyStr.startswith]. by destruct (ascii_dec c a). Qed.

(** [rsplit1] finds nothing exactly when the character does not occur. *)
Lemma rsplit1_none (c : ascii) (s : string) :
  PyStr.rsplit1 c s = None <-> PyStr.contains (String c EmptyString) s = false.
Proof.
  induction s as [| a s IH]; [by split |].
  rewrite one_char_contains. cbn [PyStr.rsplit1].
  destruct (PyStr.rsplit1 c s) as [[h t] |].
  - split; [discriminate |]. intros Hno.
    apply orb_false_iff in Hno as [_ Hno]. apply IH in Hno. discriminate.
  - destruct IH as [IH _]. rewrite (IH eq_refl).
    destruct (ascii_dec a c) as [-> | Hne].
    + destruct (ascii_dec c c); [by split | done].
    + destruct (ascii_dec c a) as [-> |]; [done | by split].
Qed.

(** [rsplit1] cuts at the last occurrence: the text after it holds none. *)
Lemma rsplit1_some (c : ascii) (s h t : string) :
  PyStr.rsplit1 c s = Some (h, t) <->
  s = h +:+ String c t /\ PyStr.contains (String c EmptyString) t = false.
Proof.
  revert h. induction s as [| a s IH]; intros h.
  - split; [discriminate |]. intros [Hs _]. destruct h; discriminate.
  - cbn [PyStr.rsplit1].
    destruct (PyStr.rsplit1 c s) as [[h' t'] |] eqn:Hr.
    + split.
      * intros [= <- <-]. destruct (IH h') as [IH1 _].
        destruct (IH1 eq_refl) as [-> Hno]. by split.
      * intros [Hs Hno]. destruct h as [| b h];
          rewrite ?str_append_nil_l, ?str_append_cons in Hs;
          injection Hs as Ha Hs; subst.
        -- apply rsplit1_none in Hno. congruence.
        -- destruct (IH h) as [_ IH2].
           assert (Hsame : Some (h', t') = Some (h, t)) by (apply IH2; by split).
           by injection Hsame as -> ->.
    + apply rsplit1_none in Hr. split.
      * destruct (ascii_dec a c) as [-> |]; [| discriminate].
        intros [= <- <-]. by split.
      * intros [Hs Hno]. destruct h as [| b h];
          rewrite ?str_append_nil_l, ?str_append_cons in Hs;
          injection Hs as Ha Hs; subst.
        -- by destruct (ascii_dec c c).
        -- exfalso. clear -Hr.
           induction h as [| x h IHh].
           ++ rewrite str_append_nil_l, one_char_contains in Hr.
              by destruct (ascii_dec c c).
           ++ apply IHh. rewrite str_append_cons, one_char_contains in Hr.
              by apply orb_false_iff in Hr as [_ Hr].
Qed.

(** ** Authentication *)

Section AuthenticationMore.
Context {Image : Type} (w : App.world Image).

(** X12: a request without the header, or with one that does not open with the
    bearer prefix (an empty one included), is refused with the fixed message
    and the identity service is not called. *)
Theorem authentication_refuses_header (req : App.request)
    (disk : gset string) :
  (forall auth_header, App.authorization req = Some auth_header ->
     PyStr.startswith "Bearer " auth_header = false) ->
  App.get_authenticated_user w req disk
  = (disk, ([], Raise (Exception "Missing or invalid Authorization header"))).
Proof.
  intros Hbad. unfold App.get_authenticated_user.
  destruct (App.authorization req) as [auth_header |]; [| reflexivity].
  rewrite (Hbad auth_header eq_refl), orb_true_r. reflexivity.
Qed.

(** X13: for the header made of the prefix and a token [t] (free of the prefix)
    the identity service is asked once, about [t] itself: a verified token
    gives its subject, a revoked one and any other failure are raised with
    their own messages. *)
Theorem bearer_token_is_verified (req : App.request) (disk : gset string)
    (t : string) :
  App.authorization req = Some ("Bearer " +:+ t) ->
  PyStr.contains "Bearer " t = false ->
  App.get_authenticated_user w req disk
  = (disk,
     ([App.VerifyIdToken t],
      match App.verify_id_token w t with
      | App.Verified uid => Ok uid
      | App.RevokedIdTokenError => Raise (Exception "Token has been revoked")
      | App.VerificationError e =>
          Raise (Exception ("Invalid authentication token: " +:+ str_of_exn e))
      end)).
Proof.
  intros Hauth Hno. unfold App.get_authenticated_user. rewrite Hauth.
  rewrite (startswith_append "Bearer " "Bearer " t eq_refl).
  change (PyStr.truthy ("Bearer " +:+ t)) with true.
  cbn [negb orb]. rewrite (split_bearer t Hno). reflexivity.
Qed.

(** X14: whatever follows the prefix, the header splits into at least two
    pieces: the index error of [split(...)[1]] cannot occur, and the
    identity service is asked exactly once. *)
Theorem bearer_header_reaches_identity_service (req : App.request)
    (disk : gset string) (auth_header : string) :
  App.authorization req = Some auth_header ->
  PyStr.startswith "Bearer " auth_header = true ->
  exists id_token,
    App.get_authenticated_user w req disk
    = App.verify_firebase_token w id_token disk
    /\ (App.get_authenticated_user w req disk).2.1
       = [App.VerifyIdToken id_token].
Proof.
  intros Hauth Hstart. unfold App.get_authenticated_user. rewrite Hauth, Hstart.
  destruct (split_bearer_second auth_header Hstart) as [id_token Hsplit].
  exists id_token. rewrite Hsplit.
  destruct auth_header; [discriminate |]. split; reflexivity.
Qed.

(** X15: a request whose authentication fails is answered 401 with the message
    of the failure by each of the three handlers, which then do nothing
    else: the disk is untouched and the log is the one of the
    authentication. *)
Theorem unauthenticated_is_401 (req : App.request) (disk : gset string)
    (l : list (App.ext_call Image)) (e : exn) (id : string) :
  App.get_authenticated_user w req disk = (disk, (l, Raise e)) ->
  App.upload_file w req disk
    = (disk, (l, Ok (App.error_body (str_of_exn e), 401%nat)))
  /\ App.get_user_reports w id req disk
     = (disk, (l, Ok (App.error_body (str_of_exn e), 401%nat)))
  /\ App.get_report_detail w id req disk
     = (disk, (l, Ok (App.error_body (str_of_exn e), 401%nat))).
Proof.
  intros Hauth.
  assert (Hrun : forall prefix
      (k : string -> EffS (gset string) (App.ext_call Image) App.response),
    App.guarded prefix
      (auth ← st_attempt (App.get_authenticated_user w req);
       match auth with
       | Raise e => mret (App.error_body (str_of_exn e), 401%nat)
       | Ok authenticated_uid => k authenticated_uid
       end) disk
    = (disk, (l, Ok (App.error_body (str_of_exn e), 401%nat)))).
  { intros prefix k. unfold App.guarded.
    eapply st_bind_run_log;
      [ apply st_attempt_run; eapply st_bind_run;
        [ apply st_attempt_run; exact Hauth
        | cbv beta iota; apply st_mret_run ]
      | cbv beta iota; apply st_mret_run
      | by rewrite !app_nil_r ]. }
  split; [apply Hrun |]. split; apply Hrun.
Qed.

End AuthenticationMore.

Lemma authentication_refuses_header_witness :
  App.get_authenticated_user
    (Demo.world None None (Demo.services [] "" (Ok None)))
    {| App.authorization := Some "bearer tok-alice";
       App.file_part := None; App.args := ∅ |} ∅
  = (∅, ([], Raise (Exception "Missing or invalid Authorization header"))).
Proof.
  apply (authentication_refuses_header
           (Demo.world None None (Demo.services [] "" (Ok None)))).
  intros auth_header [= <-]. reflexivity.
Defined.

Lemma bearer_token_is_verified_witness :
  App.get_authenticated_user
    (Demo.world None None (Demo.services [] "" (Ok None)))
    (Demo.query_request "alice" ∅) ∅
  = (∅, ([App.VerifyIdToken "tok-alice"], Ok "alice")).
Proof.
  apply (bearer_token_is_verified
           (Demo.world None None (Demo.services [] "" (Ok None)))
           (Demo.query_request "alice" ∅) ∅ "tok-alice");
    reflexivity.
Defined.

Lemma bearer_header_reaches_identity_service_witness :
  exists id_token,
    App.get_authenticated_user
      (Demo.world None None (Demo.services [] "" (Ok None)))
      {| App.authorization := Some "Bearer tok-aliceBearer tok-bob";
         App.file_part := None; App.args := ∅ |} ∅
    = App.verify_firebase_token
        (Demo.world None None (Demo.services [] "" (Ok None))) id_token ∅
    /\ (App.get_authenticated_user
          (Demo.world None None (Demo.services [] "" (Ok None)))
          {| App.authorization := Some "Bearer tok-aliceBearer tok-bob";
             App.file_part := None; App.args := ∅ |} ∅).2.1
       = [App.VerifyIdToken id_token].
Proof.
  apply (bearer_header_reaches_identity_service
           (Demo.world None None (Demo.services [] "" (Ok None)))
           {| App.authorization := Some "Bearer tok-aliceBearer tok-bob";
              App.file_part := None; App.args := ∅ |} ∅
           "Bearer tok-aliceBearer tok-bob");
    reflexivity.
Defined.

Lemma unauthenticated_is_401_witness :
  App.upload_file (Demo.world None None (Demo.services [] "" (Ok None)))
    {| App.authorization := Some "Bearer forged";
       App.file_part := Some (Some "scan.png"); App.args := ∅ |} ∅
    = (∅, ([App.VerifyIdToken "forged"],
           Ok (App.error_body "Invalid authentication token: bad signature"
                 , 401%nat)))
  /\ App.get_user_reports
       (Demo.world None None (Demo.services [] "" (Ok None))) "alice"
       {| App.authorization := Some "Bearer forged";
       App.file_part := Some (Some "scan.png"); App.args := ∅ |} ∅
     = (∅, ([App.VerifyIdToken "forged"],
            Ok (App.error_body "Invalid authentication token: bad signature",
                401%nat)))
  /\ App.get_report_detail
       (Demo.world None None (Demo.services [] "" (Ok None))) "alice"
       {| App.authorization := Some "Bearer forged";
       App.file_part := Some (Some "scan.png"); App.args := ∅ |} ∅
     = (∅, ([App.VerifyIdToken "forged"],
            Ok (App.error_body "Invalid authentication token: bad signature",
                401%nat))).
Proof.
  apply (unauthenticated_is_401
           (Demo.world None None (Demo.services [] "" (Ok None)))
           {| App.authorization := Some "Bearer forged";
       App.file_part := Some (Some "scan.png"); App.args := ∅ |} ∅ [App.VerifyIdToken "forged"]
           (Exception "Invalid authentication token: bad signature") "alice").
  reflexivity.
Defined.

(** ** File names, blob paths and the two stores *)

(** X16: a file name is accepted exactly when it is a stem, a dot and an
    extension without a further dot that is, in lower case, one of the
    allowed ones; so a name without a dot, or ending in a dot, is refused,
    and only what follows the last dot counts. *)
Theorem allowed_file_spec (filename : string) :
  App.allowed_file filename = true <->
  exists stem ext,
    filename = stem +:+ "." +:+ ext
    /\ PyStr.contains "." ext = false
    /\ PyStr.lower ext ∈ App.ALLOWED_EXTENSIONS.
Proof.
  unfold App.allowed_file. split.
  - intros Hallowed. apply andb_true_iff in Hallowed as [_ Hext].
    destruct (PyStr.rsplit1 "." filename) as [[stem ext] |] eqn:Hsplit;
      [| discriminate].
    apply rsplit1_some in Hsplit as [Hname Hno].
    exists stem, ext. split; [exact Hname |]. split; [exact Hno |].
    apply existsb_exists in Hext as (x & Hin & Hx).
    apply String.eqb_eq in Hx. subst x. by apply list_elem_of_In.
  - intros (stem & ext & Hname & Hno & Hin).
    assert (Hsplit : PyStr.rsplit1 "." filename = Some (stem, ext))
      by (apply rsplit1_some; by split).
    rewrite Hsplit. apply andb_true_iff. split.
    + destruct (PyStr.contains "." filename) eqn:Hdot; [reflexivity |].
      apply rsplit1_none in Hdot. congruence.
    + apply existsb_exists. exists (PyStr.lower ext).
      split; [by apply list_elem_of_In | apply String.eqb_refl].
Qed.

Lemma str_append_inv_head (p a b : string) : p +:+ a = p +:+ b -> a = b.
Proof.
  induction p as [| c p IH]; [done |].
  rewrite !str_append_cons. intros [= H]. by apply IH.
Qed.

Section StoresMore.
Context {Image : Type}.

(** The storage step logs at most the one upload, to the path made of the
    user id and the file name. *)
Lemma upload_to_firebase_storage_log (w : App.world Image)
    (local_file_path filename user_id : string) (disk : gset string)
    (c : App.ext_call Image) :
  c ∈ (App.upload_to_firebase_storage w local_file_path filename user_id
         disk).2.1 ->
  c = App.UploadFromFilename
        ("medical_reports/" +:+ user_id +:+ "/" +:+ filename) local_file_path.
Proof.
  unfold App.upload_to_firebase_storage.
  destruct (App.bucket w) as [b |]; [| intros Hc; by apply elem_of_nil in Hc].
  cbv zeta. intros Hc.
  erewrite st_bind_ok in Hc by (apply st_attempt_run; reflexivity).
  cbn [fst snd] in Hc.
  destruct (App.upload_from_filename b _ local_file_path);
    cbn in Hc; by apply list_elem_of_singleton in Hc.
Qed.

(** X17: blob paths are per user: two uploads, by whatever users and in whatever
    process, of files whose stored names hold no slash go to the same blob
    path only when the user and the name are the same. *)
Theorem blob_paths_do_not_collide (w1 w2 : App.world Image)
    (local1 local2 name1 name2 user1 user2 blob_path q1 q2 : string)
    (disk1 disk2 : gset string) :
  PyStr.contains "/" name1 = false ->
  PyStr.contains "/" name2 = false ->
  App.UploadFromFilename blob_path q1
    ∈ (App.upload_to_firebase_storage w1 local1 name1 user1 disk1).2.1 ->
  App.UploadFromFilename blob_path q2
    ∈ (App.upload_to_firebase_storage w2 local2 name2 user2 disk2).2.1 ->
  user1 = user2 /\ name1 = name2.
Proof.
  intros Hn1 Hn2 H1 H2.
  apply upload_to_firebase_storage_log in H1. injection H1 as H1 _.
  apply upload_to_firebase_storage_log in H2. injection H2 as H2 _.
  rewrite H1 in H2.
  rewrite <- (str_append_assoc _ user1), <- (str_append_assoc _ user2) in H2.
  assert (Hs1 : PyStr.rsplit1 "/" (("medical_reports/" +:+ user1) +:+ "/" +:+ name1)
                = Some ("medical_reports/" +:+ user1, name1))
    by (apply rsplit1_some; by split).
  assert (Hs2 : PyStr.rsplit1 "/" (("medical_reports/" +:+ user2) +:+ "/" +:+ name2)
                = Some ("medical_reports/" +:+ user2, name2))
    by (apply rsplit1_some; by split).
  rewrite H2, Hs2 in Hs1. injection Hs1 as Hu Hn.
  apply str_append_inv_head in Hu. by split.
Qed.

(** X18: signing never raises and leaves the disk alone: without a bucket, or
    for a blob path that is empty (more generally falsy), the answer is the
    empty string and the storage service is not called; when the service is
    called and raises, the answer is the empty string as well. *)
Theorem generate_signed_url_never_raises (w : App.world Image)
    (blob_path : json) (disk : gset string) :
  exists signed_url,
    App.generate_signed_url w blob_path disk
    = (disk,
       (match App.bucket w with
        | Some _ =>
            if json_truthy blob_path then [App.GenerateSignedUrl blob_path]
            else []
        | None => []
        end, Ok signed_url))
    /\ (App.bucket w = None \/ json_truthy blob_path = false
        \/ (exists b e, App.bucket w = Some b
              /\ App.generate_signed_url_v4 b blob_path = Raise e) ->
        signed_url = EmptyString).
Proof.
  unfold App.generate_signed_url.
  destruct (App.bucket w) as [b |]; [| exists EmptyString; by split].
  destruct (json_truthy blob_path); [| exists EmptyString; by split].
  cbn [negb]. cbv iota.
  destruct (App.generate_signed_url_v4 b blob_path) as [url | e] eqn:Hsign.
  - exists url. split.
    + eapply st_bind_run_log;
        [ apply st_attempt_run; reflexivity
        | cbv beta iota; apply st_mret_run
        | reflexivity ].
    + intros [Hb | [Ht | (b' & e & Hb & He)]]; [discriminate .. |].
      injection Hb as <-. congruence.
  - exists EmptyString. split; [| reflexivity].
    eapply st_bind_run_log;
      [ apply st_attempt_run; reflexivity
      | cbv beta iota; apply st_mret_run
      | reflexivity ].
Qed.

(** X19: saving a record: without a store nothing is written and the failure
    says so; a write that raises is raised again with the prefix of this
    function; otherwise the id the store gave is returned. The disk is
    never touched. *)
Theorem save_report_to_firestore_outcomes (w : App.world Image)
    (user_id : string) (report_data : gmap string json) (disk : gset string) :
  (App.db w = None ->
     App.save_report_to_firestore w user_id report_data disk
     = (disk, ([], Raise (Exception
          "Failed to save report to database: Database not available"))))
  /\ (forall d, App.db w = Some d ->
        App.save_report_to_firestore w user_id report_data disk
        = (disk,
           ([App.DocumentSet user_id report_data],
            match App.document_set d user_id report_data with
            | Ok doc_id => Ok doc_id
            | Raise e => Raise (Exception
                ("Failed to save report to database: " +:+ str_of_exn e))
            end))).
Proof.
  unfold App.save_report_to_firestore. split.
  - intros ->. reflexivity.
  - intros d ->. destruct (App.document_set d user_id report_data) eqn:Hset.
    + eapply st_bind_run_log;
        [ apply st_attempt_run; reflexivity
        | cbv beta iota; apply st_mret_run
        | reflexivity ].
    + reflexivity.
Qed.

End StoresMore.

Lemma blob_paths_do_not_collide_witness :
  "alice" = "alice" /\ "0b6f_scan.png" = "0b6f_scan.png".
Proof.
  apply (blob_paths_do_not_collide
           (Demo.world (Some Demo.failing_bucket) None
              (Demo.services [] "" (Ok None)))
           (Demo.world (Some Demo.failing_bucket) None
              (Demo.services [] "" (Ok None)))
           "uploads/0b6f_scan.png" "uploads/0b6f_scan.png"
           "0b6f_scan.png" "0b6f_scan.png" "alice" "alice"
           "medical_reports/alice/0b6f_scan.png"
           "uploads/0b6f_scan.png" "uploads/0b6f_scan.png" ∅ ∅).
  - reflexivity.
  - reflexivity.
  - apply list_elem_of_here.
  - apply list_elem_of_here.
Defined.

Lemma save_report_to_firestore_outcomes_witness :
  App.save_report_to_firestore
    (Demo.world None None (Demo.services [] "" (Ok None))) "alice" ∅ ∅
  = (∅, ([], Raise (Exception
       "Failed to save report to database: Database not available"))).
Proof.
  apply (save_report_to_firestore_outcomes
           (Demo.world None None (Demo.services [] "" (Ok None)))
           "alice" ∅ ∅).
  reflexivity.
Defined.

(** ** The read handlers *)

Section ReadHandlers.
Context {Image : Type} (w : App.world Image).

Lemma generate_signed_url_frame (blob_path : json) (disk : gset string) :
  exists signed_url log,
    App.generate_signed_url w blob_path disk = (disk, (log, Ok signed_url))
    /\ forall c, c ∈ log -> c = App.GenerateSignedUrl blob_path.
Proof.
  unfold App.generate_signed_url.
  destruct (App.bucket w) as [b |];
    [| exists EmptyString, []; split;
       [reflexivity | intros c Hc; by apply elem_of_nil in Hc]].
  destruct (json_truthy blob_path);
    [| exists EmptyString, []; split;
       [reflexivity | intros c Hc; by apply elem_of_nil in Hc]].
  cbn [negb]. cbv iota.
  destruct (App.generate_signed_url_v4 b blob_path) as [url | e];
    eexists _, _; (split;
      [ eapply st_bind_run;
          [apply st_attempt_run; reflexivity | cbv beta iota; apply st_mret_run]
      | intros c Hc; rewrite app_nil_r in Hc;
        by apply list_elem_of_singleton in Hc ]).
Qed.

(** One document, as handed out: never an exception, the disk as it was,
    signing as the only call. *)
Lemma present_report_run (doc : string * gmap string json)
    (disk : gset string) :
  exists fields log,
    App.present_report w doc disk = (disk, (log, Ok fields))
    /\ Calls.presents doc (JObj fields)
    /\ (forall c, c ∈ log -> exists b, c = App.GenerateSignedUrl b).
Proof.
  unfold App.present_report. cbv zeta.
  assert (Hbase : Calls.presents doc (JObj (<["report_id" := JStr doc.1]> doc.2))).
  { eexists. split; [reflexivity |]. split; [apply lookup_insert_eq |].
    intros k Hk _. by rewrite lookup_insert_ne. }
  destruct (<["report_id" := JStr doc.1]> doc.2 !! "blob_path")
    as [blob_path |];
    [| eexists _, []; split; [reflexivity |]; split;
       [exact Hbase | intros c Hc; by apply elem_of_nil in Hc]].
  destruct (json_truthy blob_path);
    [| eexists _, []; split; [reflexivity |]; split;
       [exact Hbase | intros c Hc; by apply elem_of_nil in Hc]].
  destruct (generate_signed_url_frame blob_path disk)
    as (url & log & Hsign & Hlog).
  eexists _, _. split; [| split].
  - eapply st_bind_run; [exact Hsign | cbv beta; apply st_mret_run].
  - eexists. split; [reflexivity |]. split.
    + rewrite lookup_insert_ne by done. apply lookup_insert_eq.
    + intros k Hk Hk'. by rewrite !lookup_insert_ne.
  - intros c Hc. rewrite app_nil_r in Hc. apply Hlog in Hc. eauto.
Qed.

Lemma present_reports_run (docs : list (string * gmap string json)) :
  forall (reports : list json) (disk : gset string),
    exists presented log,
      App.present_reports w docs reports disk
      = (disk, (log, Ok (reports ++ presented)%list))
      /\ Forall2 Calls.presents docs presented
      /\ (forall c, c ∈ log -> exists b, c = App.GenerateSignedUrl b).
Proof.
  induction docs as [| doc docs IH]; intros reports disk.
  - exists [], []. rewrite app_nil_r. split; [reflexivity |].
    split; [constructor | intros c Hc; by apply elem_of_nil in Hc].
  - destruct (present_report_run doc disk) as (fields & l1 & Hone & Hp & Hl1).
    destruct (IH (reports ++ [JObj fields])%list disk)
      as (presented & l2 & Hrest & Hps & Hl2).
    rewrite <- app_assoc in Hrest.
    exists (JObj fields :: presented), (l1 ++ l2)%list. split; [| split].
    + cbn [App.present_reports].
      eapply st_bind_run_log; [exact Hone | cbv beta; exact Hrest |].
      reflexivity.
    + by constructor.
    + intros c Hc. apply elem_of_app in Hc as [Hc | Hc]; eauto.
Qed.

End ReadHandlers.

Section ReadHandlerClaims.
Context {Image : Type} (w : App.world Image).

(** A handler whose authentication failed. *)
Lemma guarded_auth_failure (prefix : string) (req : App.request)
    (disk : gset string) (l : list (App.ext_call Image)) (e : exn)
    (k : string -> EffS (gset string) (App.ext_call Image) App.response) :
  App.get_authenticated_user w req disk = (disk, (l, Raise e)) ->
  App.guarded prefix
    (auth ← st_attempt (App.get_authenticated_user w req);
     match auth with
     | Raise e => mret (App.error_body (str_of_exn e), 401%nat)
     | Ok authenticated_uid => k authenticated_uid
     end) disk
  = (disk, (l, Ok (App.error_body (str_of_exn e), 401%nat))).
Proof.
  intros Hauth. unfold App.guarded.
  eapply st_bind_run_log;
    [ apply st_attempt_run; eapply st_bind_run;
      [ apply st_attempt_run; exact Hauth
      | cbv beta iota; apply st_mret_run ]
    | cbv beta iota; apply st_mret_run
    | by rewrite !app_nil_r ].
Qed.

(** A handler whose authentication succeeded and whose continuation runs
    to [r]. *)
Lemma guarded_auth_success (prefix : string) (req : App.request)
    (disk disk' : gset string) (l l' : list (App.ext_call Image))
    (uid : string) (r : result App.response)
    (k : string -> EffS (gset string) (App.ext_call Image) App.response) :
  App.get_authenticated_user w req disk = (disk, (l, Ok uid)) ->
  k uid disk = (disk', (l', r)) ->
  App.guarded prefix
    (auth ← st_attempt (App.get_authenticated_user w req);
     match auth with
     | Raise e => mret (App.error_body (str_of_exn e), 401%nat)
     | Ok authenticated_uid => k authenticated_uid
     end) disk
  = (disk', ((l ++ l')%list,
             Ok match r with
                | Ok resp => resp
                | Raise e => (App.error_body (prefix +:+ str_of_exn e), 500%nat)
                end)).
Proof.
  intros Hauth Hk.
  rewrite (guarded_after_auth w _ _ _ _ _ _ _ Hauth), Hk. reflexivity.
Qed.

(** X20: the listing, for the caller's own id and an available store whose query
    streams [docs]: the response is 200, [count] is the number of documents
    streamed, and the reports are the documents in the order streamed, each
    with [report_id] set to the id of its document; beyond the query the only
    calls are signing calls, and the disk is untouched. *)
Theorem listing_returns_the_stream (user_id : string) (req : App.request)
    (disk : gset string) (l : list (App.ext_call Image))
    (d : App.firestore_client) (docs : list (string * gmap string json)) :
  App.get_authenticated_user w req disk = (disk, (l, Ok user_id)) ->
  App.db w = Some d ->
  App.query_stream d user_id (App.requested_limit req) = Ok docs ->
  exists reports signing,
    App.get_user_reports w user_id req disk
    = (disk,
       ((l ++ App.QueryStream user_id (App.requested_limit req) :: signing)%list,
        Ok (JObj {[ "success" := JBool true;
                    "user_id" := JStr user_id;
                    "count" := JNum (Z.of_nat (length docs));
                    "reports" := JArr reports ]}, 200%nat)))
    /\ Forall2 Calls.presents docs reports
    /\ (forall c, c ∈ signing -> exists b, c = App.GenerateSignedUrl b).
Proof.
  intros Hauth Hdb Hq.
  destruct (present_reports_run w docs [] disk)
    as (reports & signing & Hrun & Hps & Hsign).
  exists reports, signing. split; [| by split].
  unfold App.get_user_reports.
  erewrite (guarded_auth_success _ _ _ _ _ _ _ _ _ Hauth).
  2:{ rewrite String.eqb_refl, Hdb. cbn [negb]. cbv beta iota zeta.
      eapply st_bind_run; [unfold st_call; rewrite Hq; reflexivity |].
      eapply st_bind_run; [exact Hrun |]. apply st_mret_run. }
  cbn [app]. rewrite app_nil_r.
  by rewrite (Forall2_length _ _ _ Hps).
Qed.

(** X21: the listing for the caller's own id when the store cannot answer:
    without a store the fixed 503 response, the store not being queried;
    when the query raises, a 500 response that carries the message. *)
Theorem listing_store_failures (user_id : string) (req : App.request)
    (disk : gset string) (l : list (App.ext_call Image)) :
  App.get_authenticated_user w req disk = (disk, (l, Ok user_id)) ->
  (App.db w = None ->
     App.get_user_reports w user_id req disk
     = (disk, (l, Ok (App.error_body "Database not available", 503%nat))))
  /\ (forall d e,
        App.db w = Some d ->
        App.query_stream d user_id (App.requested_limit req) = Raise e ->
        App.get_user_reports w user_id req disk
        = (disk,
           ((l ++ [App.QueryStream user_id (App.requested_limit req)])%list,
            Ok (App.error_body
                  ("Failed to retrieve reports: " +:+ str_of_exn e),
                500%nat)))).
Proof.
  intros Hauth. unfold App.get_user_reports. split.
  - intros Hdb.
    erewrite (guarded_auth_success _ _ _ _ _ _ _ _ _ Hauth).
    2:{ rewrite String.eqb_refl, Hdb. reflexivity. }
    by rewrite app_nil_r.
  - intros d e Hdb Hq.
    erewrite (guarded_auth_success _ _ _ _ _ _ _ _ _ Hauth).
    2:{ rewrite String.eqb_refl, Hdb. cbn [negb]. cbv beta iota zeta.
        unfold mbind, effs_mbind, st_bind, st_call. rewrite Hq. reflexivity. }
    reflexivity.
Qed.

(** X22: the report detail with the store available, when no report comes back:
    a missing or empty [user_id] parameter gives the fixed 400 response and
    the store is not read; for the caller's own id, a document that does
    not exist gives the fixed 404 response and a read that raises gives a
    500 response that carries the message. *)
Theorem report_detail_without_report (report_id : string) (req : App.request)
    (disk : gset string) (l : list (App.ext_call Image)) (uid : string)
    (d : App.firestore_client) :
  App.get_authenticated_user w req disk = (disk, (l, Ok uid)) ->
  App.db w = Some d ->
  (App.args req !! "user_id" = None
   \/ App.args req !! "user_id" = Some EmptyString ->
     App.get_report_detail w report_id req disk
     = (disk, (l, Ok (App.error_body "user_id parameter is required",
                      400%nat))))
  /\ (App.args req !! "user_id" = Some uid -> uid <> EmptyString ->
      (App.document_get d uid report_id = Ok None ->
         App.get_report_detail w report_id req disk
         = (disk, ((l ++ [App.DocumentGet uid report_id])%list,
                   Ok (App.error_body "Report not found", 404%nat))))
      /\ (forall e, App.document_get d uid report_id = Raise e ->
            App.get_report_detail w report_id req disk
            = (disk, ((l ++ [App.DocumentGet uid report_id])%list,
                      Ok (App.error_body
                            ("Failed to retrieve report: " +:+ str_of_exn e),
                          500%nat))))).
Proof.
  intros Hauth Hdb. unfold App.get_report_detail. split.
  - intros Harg.
    erewrite (guarded_auth_success _ _ _ _ _ _ _ _ _ Hauth).
    2:{ rewrite Hdb. destruct Harg as [-> | ->]; reflexivity. }
    by rewrite app_nil_r.
  - intros Harg Hne.
    assert (Htruthy : PyStr.truthy uid = true) by (by destruct uid).
    split.
    + intros Hget.
      erewrite (guarded_auth_success _ _ _ _ _ _ _ _ _ Hauth).
      2:{ rewrite Hdb, Harg. cbv zeta. cbn [default from_option id].
          rewrite Htruthy, String.eqb_refl. cbn [negb]. cbv iota.
          unfold mbind, effs_mbind, st_bind, st_call. rewrite Hget.
          reflexivity. }
      reflexivity.
    + intros e Hget.
      erewrite (guarded_auth_success _ _ _ _ _ _ _ _ _ Hauth).
      2:{ rewrite Hdb, Harg. cbv zeta. cbn [default from_option id].
          rewrite Htruthy, String.eqb_refl. cbn [negb]. cbv iota.
          unfold mbind, effs_mbind, st_bind, st_call. rewrite Hget.
          reflexivity. }
      reflexivity.
Qed.

(** X23: the report detail for the caller's own id and a document that exists:
    the response is 200 with the fields of the document and [report_id] set
    to the id asked for; beyond the read the only calls are signing calls,
    and the disk is untouched. *)
Theorem report_detail_found (report_id : string) (req : App.request)
    (disk : gset string) (l : list (App.ext_call Image)) (uid : string)
    (d : App.firestore_client) (fields : gmap string json) :
  App.get_authenticated_user w req disk = (disk, (l, Ok uid)) ->
  App.db w = Some d ->
  App.args req !! "user_id" = Some uid -> uid <> EmptyString ->
  App.document_get d uid report_id = Ok (Some fields) ->
  exists report signing,
    App.get_report_detail w report_id req disk
    = (disk,
       ((l ++ App.DocumentGet uid report_id :: signing)%list,
        Ok (JObj {[ "success" := JBool true; "report" := report ]}, 200%nat)))
    /\ Calls.presents (report_id, fields) report
    /\ (forall c, c ∈ signing -> exists b, c = App.GenerateSignedUrl b).
Proof.
  intros Hauth Hdb Harg Hne Hget.
  assert (Htruthy : PyStr.truthy uid = true) by (by destruct uid).
  destruct (present_report_run w (report_id, fields) disk)
    as (report & signing & Hrun & Hp & Hsign).
  exists (JObj report), signing. split; [| by split].
  unfold App.get_report_detail.
  erewrite (guarded_auth_success _ _ _ _ _ _ _ _ _ Hauth).
  2:{ rewrite Hdb, Harg. cbv zeta. cbn [default from_option id].
      rewrite Htruthy, String.eqb_refl. cbn [negb]. cbv iota.
      eapply st_bind_run; [unfold st_call; rewrite Hget; reflexivity |].
      cbv beta iota.
      eapply st_bind_run; [exact Hrun |]. apply st_mret_run. }
  cbn [app]. by rewrite app_nil_r.
Qed.

End ReadHandlerClaims.

Section ReadOnly.
Context {Image : Type} (w : App.world Image).

(** X24: the rule for [file_url]: a document whose [blob_path] is truthy is
    handed out with [report_id] set and with [file_url] set to the link the
    bucket signs for that blob path, the one call made; to the empty string
    when the signing raises, and, without a call, when there is no bucket.
    A document without [blob_path], or with a falsy one, is handed out with
    [report_id] set and nothing else changed, and no signing call is
    made. *)
Theorem present_report_file_url (doc : string * gmap string json)
    (disk : gset string) :
  (forall blob_path,
     doc.2 !! "blob_path" = Some blob_path ->
     json_truthy blob_path = true ->
     App.present_report w doc disk
     = (disk,
        (match App.bucket w with
         | Some _ => [App.GenerateSignedUrl blob_path]
         | None => []
         end,
         Ok (<["file_url" :=
                 JStr match App.bucket w with
                      | Some b =>
                          match App.generate_signed_url_v4 b blob_path with
                          | Ok signed_url => signed_url
                          | Raise _ => EmptyString
                          end
                      | None => EmptyString
                      end]>
               (<["report_id" := JStr doc.1]> doc.2)))))
  /\ (doc.2 !! "blob_path" = None
      \/ (exists blob_path, doc.2 !! "blob_path" = Some blob_path
            /\ json_truthy blob_path = false) ->
      App.present_report w doc disk
      = (disk, ([], Ok (<["report_id" := JStr doc.1]> doc.2)))).
Proof.
  unfold App.present_report. cbv zeta.
  rewrite lookup_insert_ne by done. split.
  - intros blob_path Hblob Htruthy. rewrite Hblob, Htruthy.
    assert (Hsign : App.generate_signed_url w blob_path disk
              = (disk,
                 (match App.bucket w with
                  | Some _ => [App.GenerateSignedUrl blob_path]
                  | None => []
                  end,
                  Ok match App.bucket w with
                     | Some b =>
                         match App.generate_signed_url_v4 b blob_path with
                         | Ok signed_url => signed_url
                         | Raise _ => EmptyString
                         end
                     | None => EmptyString
                     end))).
    { unfold App.generate_signed_url. rewrite Htruthy.
      destruct (App.bucket w) as [b |]; [| reflexivity].
      cbn [negb]. cbv iota.
      eapply st_bind_run_log; [apply st_attempt_run; reflexivity | |].
      - destruct (App.generate_signed_url_v4 b blob_path);
          cbv beta iota; apply st_mret_run.
      - reflexivity. }
    eapply st_bind_run_log; [exact Hsign | cbv beta; apply st_mret_run |].
    by rewrite app_nil_r.
  - intros [-> | (blob_path & -> & ->)]; reflexivity.
Qed.

(** X25: the two read handlers only read: whatever the request and the state of
    the services, they answer (never raise), leave the disk as it was, and
    their calls are verifications of the token, the query or the read of
    the store, and signing calls; nothing is written or uploaded. *)
Theorem read_handlers_only_read (id : string) (req : App.request)
    (disk : gset string) :
  (exists log resp,
     App.get_user_reports w id req disk = (disk, (log, Ok resp))
     /\ forall c, c ∈ log -> Calls.read_only c)
  /\ (exists log resp,
        App.get_report_detail w id req disk = (disk, (log, Ok resp))
        /\ forall c, c ∈ log -> Calls.read_only c).
Proof.
  pose proof (get_authenticated_user_frame w req disk) as [Hdisk Hlog].
  destruct (App.get_authenticated_user w req disk) as [d0 [l auth]] eqn:Hauth.
  simpl in Hdisk, Hlog. subst d0.
  assert (Hl : forall c, c ∈ l -> Calls.read_only c).
  { intros c Hc. apply Hlog in Hc as [t ->]. exact I. }
  assert (Hsigning : forall signing : list (App.ext_call Image),
            (forall c, c ∈ signing -> exists b, c = App.GenerateSignedUrl b) ->
            forall c, c ∈ signing -> Calls.read_only c).
  { intros signing Hs c Hc. apply Hs in Hc as [b ->]. exact I. }
  destruct auth as [uid | e].
  2:{ split; eexists _, _; (split; [by apply guarded_auth_failure | exact Hl]). }
  split.
  - unfold App.get_user_reports.
    destruct (String.eqb uid id) eqn:Heq.
    2:{ eexists _, _. split.
        - eapply guarded_auth_success; [exact Hauth |].
          rewrite ?Heq. reflexivity.
        - by rewrite app_nil_r. }
    destruct (App.db w) as [d |] eqn:Hdb.
    2:{ eexists _, _. split.
        - eapply guarded_auth_success; [exact Hauth |].
          rewrite ?Heq, ?Hdb. reflexivity.
        - by rewrite app_nil_r. }
    apply String.eqb_eq in Heq. subst id.
    destruct (App.query_stream d uid (App.requested_limit req))
      as [docs | e] eqn:Hq.
    + destruct (present_reports_run w docs [] disk)
        as (reports & signing & Hrun & _ & Hsign).
      eexists _, _. split.
      * eapply guarded_auth_success; [exact Hauth |].
        rewrite ?String.eqb_refl, ?Hdb. cbn [negb]. cbv beta iota zeta.
        eapply st_bind_run; [unfold st_call; rewrite ?Hq; reflexivity |].
        eapply st_bind_run; [exact Hrun |]. apply st_mret_run.
      * intros c Hc. rewrite app_nil_r in Hc.
        apply elem_of_app in Hc as [Hc | Hc]; [by apply Hl |].
        apply elem_of_cons in Hc as [-> | Hc]; [exact I |].
        by apply (Hsigning signing).
    + eexists _, _. split.
      * eapply guarded_auth_success; [exact Hauth |].
        rewrite ?String.eqb_refl, ?Hdb. cbn [negb]. cbv beta iota zeta.
        unfold mbind, effs_mbind, st_bind, st_call. rewrite ?Hq. reflexivity.
      * intros c Hc. apply elem_of_app in Hc as [Hc | Hc]; [by apply Hl |].
        apply list_elem_of_singleton in Hc as ->. exact I.
  - unfold App.get_report_detail.
    destruct (App.db w) as [d |] eqn:Hdb.
    2:{ eexists _, _. split.
        - eapply guarded_auth_success; [exact Hauth |].
          rewrite ?Hdb. reflexivity.
        - by rewrite app_nil_r. }
    destruct (PyStr.truthy (default EmptyString (App.args req !! "user_id")))
      eqn:Htruthy.
    2:{ eexists _, _. split.
        - eapply guarded_auth_success; [exact Hauth |].
          rewrite ?Hdb. cbv zeta. rewrite ?Htruthy. reflexivity.
        - by rewrite app_nil_r. }
    destruct (String.eqb uid (default EmptyString (App.args req !! "user_id")))
      eqn:Heq.
    2:{ eexists _, _. split.
        - eapply guarded_auth_success; [exact Hauth |].
          rewrite ?Hdb. cbv zeta. rewrite ?Htruthy, ?Heq. reflexivity.
        - by rewrite app_nil_r. }
    destruct (App.document_get d
                (default EmptyString (App.args req !! "user_id")) id)
      as [[fields |] | e] eqn:Hget.
    + destruct (present_report_run w (id, fields) disk)
        as (report & signing & Hrun & _ & Hsign).
      eexists _, _. split.
      * eapply guarded_auth_success; [exact Hauth |].
        rewrite ?Hdb. cbv zeta. rewrite ?Htruthy, ?Heq. cbn [negb]. cbv iota.
        eapply st_bind_run; [unfold st_call; rewrite ?Hget; reflexivity |].
        cbv beta iota.
        eapply st_bind_run; [exact Hrun |]. apply st_mret_run.
      * intros c Hc. rewrite app_nil_r in Hc.
        apply elem_of_app in Hc as [Hc | Hc]; [by apply Hl |].
        apply elem_of_cons in Hc as [-> | Hc]; [exact I |].
        by apply (Hsigning signing).
    + eexists _, _. split.
      * eapply guarded_auth_success; [exact Hauth |].
        rewrite ?Hdb. cbv zeta. rewrite ?Htruthy, ?Heq. cbn [negb]. cbv iota.
        eapply st_bind_run; [unfold st_call; rewrite ?Hget; reflexivity |].
        cbv beta iota. apply st_mret_run.
      * intros c Hc. rewrite app_nil_r in Hc.
        apply elem_of_app in Hc as [Hc | Hc]; [by apply Hl |].
        apply list_elem_of_singleton in Hc as ->. exact I.
    + eexists _, _. split.
      * eapply guarded_auth_success; [exact Hauth |].
        rewrite ?Hdb. cbv zeta. rewrite ?Htruthy, ?Heq. cbn [negb]. cbv iota.
        unfold mbind, effs_mbind, st_bind, st_call. rewrite ?Hget. reflexivity.
      * intros c Hc. apply elem_of_app in Hc as [Hc | Hc]; [by apply Hl |].
        apply list_elem_of_singleton in Hc as ->. exact I.
Qed.

End ReadOnly.

(** ** The upload handler writes under the caller's id only *)

Lemma startswith_refl (p : string) : PyStr.startswith p p = true.
Proof.
  induction p as [| c p IH]; [reflexivity |].
  cbn [PyStr.startswith]. by destruct (ascii_dec c c).
Qed.

Section UploadNamespace.
Context {Image : Type} (w : App.world Image).

(** X26: whatever an upload of user [user_id] does outside the process is done
    under that user's name: the only upload goes below the user's blob
    folder, the only record written goes to the user's collection and
    names the user as owner; the handler never queries or reads the report
    store and never asks for a signed link. *)
Theorem upload_stays_in_own_namespace (req : App.request)
    (disk : gset string) (l : list (App.ext_call Image)) (user_id : string) :
  App.get_authenticated_user w req disk = (disk, (l, Ok user_id)) ->
  forall c, c ∈ (App.upload_file w req disk).2.1 -> Calls.own_write user_id c.
Proof.
  intros Hauth.
  pose proof (get_authenticated_user_frame w req disk) as [_ Hlog].
  rewrite Hauth in Hlog. cbn [fst snd] in Hlog.
  assert (Hl : forall c, c ∈ l -> Calls.own_write user_id c).
  { intros c Hc. apply Hlog in Hc as [t ->]. exact I. }
  assert (Hearly : forall resp,
            App.upload_file w req disk = (disk, (l, Ok resp)) ->
            forall c, c ∈ (App.upload_file w req disk).2.1 ->
                      Calls.own_write user_id c).
  { intros resp ->. exact Hl. }
  destruct (App.file_part req) as [name |] eqn:Hfile.
  2:{ eapply Hearly. unfold App.upload_file.
      apply (upload_file_early w req disk l user_id _ _ Hauth).
      rewrite Hfile. reflexivity. }
  destruct (PyStr.truthy (default EmptyString name)) eqn:Htruthy.
  2:{ eapply Hearly. unfold App.upload_file.
      apply (upload_file_early w req disk l user_id _ _ Hauth).
      rewrite Hfile. cbv zeta. rewrite Htruthy. reflexivity. }
  destruct name as [filename |]; [| discriminate]. cbn in Htruthy.
  destruct (App.allowed_file filename) eqn:Hallowed.
  2:{ eapply Hearly. unfold App.upload_file.
      apply (upload_file_early w req disk l user_id _ _ Hauth).
      rewrite Hfile. cbv zeta. cbn [default from_option id].
      rewrite Htruthy, Hallowed. reflexivity. }
  destruct (PyStr.rsplit1 "." (App.secure_filename w filename))
    as [[stem ext] |] eqn:Hsplit.
  2:{ eapply Hearly. unfold App.upload_file.
      rewrite (guarded_after_auth w _ _ _ _ _ _ _ Hauth).
      rewrite Hfile. cbv zeta. cbn [default from_option id].
      rewrite Htruthy, Hallowed. cbn [negb]. cbv iota. rewrite Hsplit.
      simpl. by rewrite app_nil_r. }
  destruct (App.save w (Upload.temp_path w filename))
    as [| e file_left] eqn:Hsave.
  2:{ rewrite (upload_file_not_saved w req disk l user_id filename stem ext
                 e file_left Hauth Hfile Htruthy Hallowed Hsplit Hsave).
      cbn [fst snd]. intros c Hc.
      apply elem_of_app in Hc as [Hc | Hc]; [by apply Hl |].
      apply list_elem_of_singleton in Hc as ->. exact I. }
  destruct (Utils.process_uploaded_file (App.pipeline w)
              (Upload.temp_path w filename) (PyStr.lower ext))
    as [pl [[extracted_text ai_analysis] | e]] eqn:Hproc.
  - destruct (upload_file_stored w req disk l user_id filename stem ext pl
                extracted_text ai_analysis Hauth Hfile Htruthy Hallowed Hsplit
                Hsave Hproc)
      as (sl & blob_path & report_id & Hrun & Hsl & _ & _).
    cbv zeta in Hrun. rewrite Hrun. cbn [fst snd].
    intros c Hc. apply elem_of_app in Hc as [Hc | Hc]; [by apply Hl |].
    apply elem_of_cons in Hc as [-> | Hc]; [exact I |].
    rewrite !elem_of_app in Hc. destruct Hc as [Hc | [Hc | [Hc | Hc]]].
    + apply list_elem_of_fmap in Hc as (pc & -> & _). exact I.
    + apply Hsl in Hc as ->. unfold Calls.own_write, Upload.blob_path_of.
      assert (Hpath : "medical_reports/" +:+ user_id +:+ "/"
                        +:+ Upload.unique_filename w filename
                      = ("medical_reports/" +:+ user_id +:+ "/")
                        +:+ Upload.unique_filename w filename)
        by (by rewrite !str_append_assoc).
      rewrite Hpath. apply startswith_append, startswith_refl.
    + destruct (App.db w); [| by apply elem_of_nil in Hc].
      apply list_elem_of_singleton in Hc as ->. split; reflexivity.
    + apply list_elem_of_singleton in Hc as ->. exact I.
  - pose proof (upload_file_unprocessed w req disk l user_id filename stem ext
                  pl e Hauth Hfile Htruthy Hallowed Hsplit Hsave Hproc)
      as Hrun.
    cbv zeta in Hrun. rewrite Hrun. cbn [fst snd]. intros c Hc.
    apply elem_of_app in Hc as [Hc | Hc]; [by apply Hl |].
    apply elem_of_cons in Hc as [-> | Hc]; [exact I |].
    apply elem_of_app in Hc as [Hc | Hc].
    + apply list_elem_of_fmap in Hc as (pc & -> & _). exact I.
    + apply list_elem_of_singleton in Hc as ->. exact I.
Qed.

End UploadNamespace.

(** ** Failures of the generation service, seen from the pipeline *)

Section ServiceFailure.
Context {Image : Type} (svc : Utils.services Image).

(** X27: when the generation service raises on a text that passed both guards:
    a failure that carries one of the signals makes the pipeline succeed,
    with the text as extracted and one of the three fixed messages in the
    place of the analysis; a failure without any signal makes the pipeline
    raise, the message wrapped by the analysis function and then by the
    pipeline. *)
Theorem process_after_service_failure (file_path file_extension text : string)
    (log : list (Utils.ext_call Image)) (e : exn) :
  Utils.extract_by_extension svc file_path file_extension = (log, Ok text) ->
  10 <= PyStr.len (PyStr.strip text) ->
  Utils.generate_content svc (Utils.user_prompt (Utils.limit_input text))
  = Raise e ->
  (Utils.process_uploaded_file svc file_path file_extension).1
  = (log ++ [Utils.GenerateContent
               (Utils.user_prompt (Utils.limit_input text))])%list
  /\ (Signals.quota_or_rate (PyStr.lower (str_of_exn e))
      || Signals.invalid_api (PyStr.lower (str_of_exn e))
      || Signals.token_or_length (PyStr.lower (str_of_exn e)) = true ->
      exists message,
        (Utils.process_uploaded_file svc file_path file_extension).2
        = Ok (text, message)
        /\ message ∈ [Utils.unavailable_message; Utils.configuration_message;
                      Utils.too_large_message])
  /\ (Signals.quota_or_rate (PyStr.lower (str_of_exn e))
      || Signals.invalid_api (PyStr.lower (str_of_exn e))
      || Signals.token_or_length (PyStr.lower (str_of_exn e)) = false ->
      (Utils.process_uploaded_file svc file_path file_extension).2
      = Raise (Exception
          ("Failed to process file: "
           +:+ ("Failed to analyze medical text with AI: " +:+ str_of_exn e)))).
Proof.
  intros Hext Hlen Hgen.
  assert (Hrun : Utils.analyze_medical_text_with_ai svc text
                 = ([Utils.GenerateContent
                       (Utils.user_prompt (Utils.limit_input text))],
                    (Utils.analysis_failure (Image := Image) e).2)).
  { unfold Utils.analyze_medical_text_with_ai.
    rewrite short_guard by lia.
    assert (Hge : (PyStr.len (PyStr.strip text) <? 10)%nat = false)
      by (apply Nat.ltb_ge; exact Hlen).
    rewrite Hge. cbv zeta. rewrite Hgen, bind_call_raise. unfold try_except.
    pose proof (analysis_failure_log (Image := Image) e) as Hnil.
    destruct (Utils.analysis_failure e) as [l r]. simpl in Hnil. subst l.
    reflexivity. }
  unfold Utils.process_uploaded_file, Utils.process_uploaded_file_with.
  rewrite Hext, bind_ok, short_guard by lia.
  assert (H5 : (PyStr.len (PyStr.strip text) <? 5)%nat = false)
    by (apply Nat.ltb_ge; lia).
  rewrite H5, Hrun. unfold Utils.analysis_failure.
  unfold Signals.quota_or_rate, Signals.invalid_api, Signals.token_or_length.
  destruct (PyStr.contains "quota" _ || PyStr.contains "rate" _) eqn:H1.
  { split; [reflexivity |]. split; [| discriminate]. intros _.
    eexists. split; [reflexivity |]. apply list_elem_of_here. }
  destruct (PyStr.contains "invalid" _ && PyStr.contains "api" _) eqn:H2.
  { split; [reflexivity |]. split; [| discriminate]. intros _.
    eexists. split; [reflexivity |].
    apply list_elem_of_further, list_elem_of_here. }
  destruct (PyStr.contains "token" _ || PyStr.contains "length" _) eqn:H3.
  { split; [reflexivity |]. split; [| discriminate]. intros _.
    eexists. split; [reflexivity |].
    do 2 apply list_elem_of_further. apply list_elem_of_here. }
  split; [simpl; by rewrite app_nil_r |]. split; [discriminate | reflexivity].
Qed.

End ServiceFailure.

(** ** The upload handler: validation, processing failure, the disk *)

Lemma disk_add_other (p file_path : string) (disk : gset string) :
  p <> file_path -> p ∈ {[ file_path ]} ∪ disk <-> p ∈ disk.
Proof.
  intros Hne. rewrite elem_of_union, elem_of_singleton. tauto.
Qed.

Lemma disk_add_remove_other (p file_path : string) (disk : gset string) :
  p <> file_path ->
  p ∈ ({[ file_path ]} ∪ disk) ∖ {[ file_path ]} <-> p ∈ disk.
Proof.
  intros Hne.
  rewrite elem_of_difference, elem_of_union, elem_of_singleton. tauto.
Qed.

Section UploadMore.
Context {Image : Type} (w : App.world Image).

(** X28: after a verified credential, the upload handler validates in this
    order, each failure being answered before anything is saved or any
    other service called: no [file] part, 400 and no file provided; an
    absent or empty file name, 400 and no file selected; a name that is
    not allowed, 400 and a message that lists the allowed types; and an allowed name
    whose sanitised form has lost its dot, 500 through the outer handler
    with the message of the index error. *)
Theorem upload_validation_responses (req : App.request) (disk : gset string)
    (l : list (App.ext_call Image)) (user_id : string) :
  App.get_authenticated_user w req disk = (disk, (l, Ok user_id)) ->
  (App.file_part req = None ->
     App.upload_file w req disk
     = (disk, (l, Ok (App.error_body "No file provided", 400%nat))))
  /\ (App.file_part req = Some None
      \/ App.file_part req = Some (Some EmptyString) ->
      App.upload_file w req disk
      = (disk, (l, Ok (App.error_body "No file selected", 400%nat))))
  /\ (forall filename,
        App.file_part req = Some (Some filename) ->
        filename <> EmptyString ->
        App.allowed_file filename = false ->
        exists types,
          App.upload_file w req disk
          = (disk, (l, Ok (App.error_body
               ("Invalid file type. Allowed types: " +:+ types), 400%nat))))
  /\ (forall filename,
        App.file_part req = Some (Some filename) ->
        App.allowed_file filename = true ->
        PyStr.rsplit1 "." (App.secure_filename w filename) = None ->
        App.upload_file w req disk
        = (disk, (l, Ok (App.error_body
             "Upload failed: list index out of range", 500%nat)))).
Proof.
  intros Hauth. unfold App.upload_file. repeat split.
  - intros Hfile.
    apply (upload_file_early w req disk l user_id _ _ Hauth).
    rewrite Hfile. reflexivity.
  - intros Hfile.
    apply (upload_file_early w req disk l user_id _ _ Hauth).
    destruct Hfile as [-> | ->]; reflexivity.
  - intros filename Hfile Hne Hallowed. eexists.
    apply (upload_file_early w req disk l user_id _ _ Hauth).
    rewrite Hfile. cbv zeta. cbn [default from_option id].
    rewrite Hallowed. destruct filename; [done | reflexivity].
  - intros filename Hfile Hallowed Hsplit.
    assert (Htruthy : PyStr.truthy filename = true).
    { destruct filename; [discriminate Hallowed | reflexivity]. }
    rewrite (guarded_after_auth w _ _ _ _ _ _ _ Hauth).
    rewrite Hfile. cbv zeta. cbn [default from_option id].
    rewrite Htruthy, Hallowed. cbn [negb]. cbv iota. rewrite Hsplit.
    simpl. by rewrite app_nil_r.
Qed.

(** X29: when the pipeline raises on a file that was saved, neither the
    bucket nor the report store is called, so no report is recorded, and
    the handler goes to remove the temporary file: if the removal succeeds
    the file is gone and the answer is 500 with the message of the
    processing failure; if the removal raises, the file stays and the
    answer is the 500 of the outer handler, with the message of the
    removal. *)
Theorem upload_processing_failure (req : App.request) (disk : gset string)
    (l : list (App.ext_call Image)) (user_id filename stem ext : string)
    (pl : list (Utils.ext_call Image)) (e : exn) :
  App.get_authenticated_user w req disk = (disk, (l, Ok user_id)) ->
  App.file_part req = Some (Some filename) ->
  App.allowed_file filename = true ->
  PyStr.rsplit1 "." (App.secure_filename w filename) = Some (stem, ext) ->
  App.save w (Upload.temp_path w filename) = App.Saved ->
  Utils.process_uploaded_file (App.pipeline w) (Upload.temp_path w filename)
    (PyStr.lower ext) = (pl, Raise e) ->
  (App.os_remove w (Upload.temp_path w filename) = Ok tt ->
   App.upload_file w req disk
   = (({[ Upload.temp_path w filename ]} ∪ disk)
        ∖ {[ Upload.temp_path w filename ]},
      ((l ++ App.FileSave (Upload.temp_path w filename)
          :: (App.Pipeline <$> pl)
          ++ [App.OsRemove (Upload.temp_path w filename)])%list,
       Ok (JObj {[ "error" := JStr ("Processing failed: " +:+ str_of_exn e) ]},
           500%nat))))
  /\ (forall e',
        App.os_remove w (Upload.temp_path w filename) = Raise e' ->
        App.upload_file w req disk
        = ({[ Upload.temp_path w filename ]} ∪ disk,
           ((l ++ App.FileSave (Upload.temp_path w filename)
               :: (App.Pipeline <$> pl)
               ++ [App.OsRemove (Upload.temp_path w filename)])%list,
            Ok (JObj {[ "error" := JStr ("Upload failed: " +:+ str_of_exn e') ]},
                500%nat)))).
Proof.
  intros Hauth Hfile Hallowed Hsplit Hsaved Hproc.
  assert (Htruthy : PyStr.truthy filename = true).
  { destruct filename; [discriminate Hallowed | reflexivity]. }
  pose proof (upload_file_unprocessed w req disk l user_id filename stem ext
                pl e Hauth Hfile Htruthy Hallowed Hsplit Hsaved Hproc) as Hrun.
  cbv zeta in Hrun. unfold Upload.after_removal in Hrun. split.
  - intros Hrm. rewrite Hrm in Hrun. exact Hrun.
  - intros e' Hrm. rewrite Hrm in Hrun. exact Hrun.
Qed.

(** X30: the upload handler touches one path of the disk at most, the
    temporary path it makes from the file name of the request: every other
    path is on the disk at the end exactly when it was at the start.  A file
    that is new at the end is there because a disk operation raised: the
    save, leaving a file behind, or the removal after a save.  A file that
    is gone at the end was saved over and then removed by the handler. *)
Theorem upload_leaves_no_new_file (req : App.request) (disk : gset string) :
  (forall p,
     (forall filename, App.file_part req = Some (Some filename) ->
                       p <> Upload.temp_path w filename) ->
     p ∈ (App.upload_file w req disk).1 <-> p ∈ disk)
  /\ (forall p,
        p ∈ (App.upload_file w req disk).1 -> p ∉ disk ->
        (exists e, App.save w p = App.SaveFailed e true)
        \/ (App.save w p = App.Saved /\ exists e, App.os_remove w p = Raise e))
  /\ (forall p,
        p ∈ disk -> p ∉ (App.upload_file w req disk).1 ->
        App.save w p = App.Saved /\ App.os_remove w p = Ok tt
        /\ exists before mid,
             (App.upload_file w req disk).2.1
             = (before ++ App.FileSave p :: mid ++ [App.OsRemove p])%list).
Proof.
  destruct (upload_file_cases w req disk)
    as (l & _ & [(resp & Hrun & _)
                | (filename & Hfile
                   & [(e & file_left & Hsave & Hrun)
                     | (mid & resp & Hsave & Hrun & _ & _)])]).
  - unfold Upload.rejected in Hrun. rewrite Hrun. cbn [fst snd].
    split; [done |]. split; intros p Hin Hout; contradiction.
  - rewrite Hrun. cbn [fst snd]. split; [| split].
    + intros p Hp. specialize (Hp filename Hfile).
      destruct file_left; [| done]. by apply disk_add_other.
    + intros p Hin Hout. left. exists e.
      destruct file_left; [| contradiction].
      apply elem_of_union in Hin as [Hin | Hin]; [| contradiction].
      apply elem_of_singleton in Hin. by subst p.
    + intros p Hin Hout. exfalso. apply Hout.
      destruct file_left; [| done]. apply elem_of_union. by right.
  - rewrite Hrun. cbn [fst snd]. unfold Upload.after_removal.
    destruct (App.os_remove w (Upload.temp_path w filename))
      as [[] | e] eqn:Hrm; cbn [fst snd].
    + split; [| split].
      * intros p Hp. specialize (Hp filename Hfile).
        by apply disk_add_remove_other.
      * intros p Hin Hout. exfalso.
        apply elem_of_difference in Hin as [Hin Hne].
        apply elem_of_union in Hin as [Hin | Hin]; contradiction.
      * intros p Hin Hout.
        assert (p = Upload.temp_path w filename) as ->.
        { destruct (decide (p = Upload.temp_path w filename)) as [| Hne];
            [done |].
          exfalso. apply Hout. by apply disk_add_remove_other. }
        split; [exact Hsave |]. split; [exact Hrm |]. by exists l, mid.
    + split; [| split].
      * intros p Hp. specialize (Hp filename Hfile).
        by apply disk_add_other.
      * intros p Hin Hout. right.
        apply elem_of_union in Hin as [Hin | Hin]; [| contradiction].
        apply elem_of_singleton in Hin. subst p. split; [exact Hsave |].
        by exists e.
      * intros p Hin Hout. exfalso. apply Hout.
        apply elem_of_union. by right.
Qed.

End UploadMore.

(** ** The handlers on concrete requests *)

Lemma listing_returns_the_stream_witness :
  exists reports signing,
    App.get_user_reports
      (Demo.world (Some Lab.bucket) (Some Lab.store)
         (Demo.services [] "" (Ok None)))
      "alice" (Demo.query_request "alice" ∅) ∅
    = (∅,
       (([App.VerifyIdToken "tok-alice"]
           ++ App.QueryStream "alice" 50 :: signing)%list,
        Ok (JObj {[ "success" := JBool true;
                    "user_id" := JStr "alice";
                    "count" := JNum 1;
                    "reports" := JArr reports ]}, 200%nat)))
    /\ Forall2 Calls.presents [("r1", Lab.report)] reports
    /\ (forall c : App.ext_call string,
          c ∈ signing -> exists b, c = App.GenerateSignedUrl b).
Proof.
  destruct (listing_returns_the_stream
              (Demo.world (Some Lab.bucket) (Some Lab.store)
                 (Demo.services [] "" (Ok None)))
              "alice" (Demo.query_request "alice" ∅) ∅
              [App.VerifyIdToken "tok-alice"] Lab.store [("r1", Lab.report)]
              eq_refl eq_refl eq_refl)
    as (reports & signing & Hrun & Hpresented & Hsigning).
  exists reports, signing. split; [| by split].
  rewrite Hrun. reflexivity.
Defined.

Lemma listing_store_failures_witness :
  App.get_user_reports
    (Demo.world None (Some Lab.store) (Demo.services [] "" (Ok None)))
    "bob" (Demo.query_request "bob" {[ "limit" := "500" ]}) ∅
  = (∅, ([App.VerifyIdToken "tok-bob"; App.QueryStream "bob" 100],
         Ok (App.error_body "Failed to retrieve reports: permission denied",
             500%nat))).
Proof.
  destruct (listing_store_failures
              (Demo.world None (Some Lab.store) (Demo.services [] "" (Ok None)))
              "bob" (Demo.query_request "bob" {[ "limit" := "500" ]}) ∅
              [App.VerifyIdToken "tok-bob"] eq_refl)
    as [_ Hfails].
  apply (Hfails Lab.store (Exception "permission denied")); reflexivity.
Defined.

Lemma report_detail_without_report_witness :
  App.get_report_detail
    (Demo.world None (Some Lab.store) (Demo.services [] "" (Ok None)))
    "r9" (Demo.query_request "alice" {[ "user_id" := "alice" ]}) ∅
  = (∅, ([App.VerifyIdToken "tok-alice"; App.DocumentGet "alice" "r9"],
         Ok (App.error_body "Report not found", 404%nat))).
Proof.
  destruct (report_detail_without_report
              (Demo.world None (Some Lab.store) (Demo.services [] "" (Ok None)))
              "r9" (Demo.query_request "alice" {[ "user_id" := "alice" ]}) ∅
              [App.VerifyIdToken "tok-alice"] "alice" Lab.store
              eq_refl eq_refl)
    as [_ Hown].
  destruct (Hown eq_refl) as [Hmissing _]; [discriminate |].
  apply Hmissing. reflexivity.
Defined.

Lemma report_detail_found_witness :
  exists report signing,
    App.get_report_detail
      (Demo.world None (Some Lab.store) (Demo.services [] "" (Ok None)))
      "r1" (Demo.query_request "alice" {[ "user_id" := "alice" ]}) ∅
    = (∅,
       (([App.VerifyIdToken "tok-alice"]
           ++ App.DocumentGet "alice" "r1" :: signing)%list,
        Ok (JObj {[ "success" := JBool true; "report" := report ]}, 200%nat)))
    /\ Calls.presents ("r1", Lab.report) report
    /\ (forall c : App.ext_call string,
          c ∈ signing -> exists b, c = App.GenerateSignedUrl b).
Proof.
  apply (report_detail_found
           (Demo.world None (Some Lab.store) (Demo.services [] "" (Ok None)))
           "r1" (Demo.query_request "alice" {[ "user_id" := "alice" ]}) ∅
           [App.VerifyIdToken "tok-alice"] "alice" Lab.store Lab.report);
    first [reflexivity | discriminate].
Defined.

Lemma upload_stays_in_own_namespace_witness :
  Calls.own_write (Image := string) "alice"
    (App.UploadFromFilename "medical_reports/alice/0b6f_scan.png"
       "uploads/0b6f_scan.png").
Proof.
  apply (upload_stays_in_own_namespace
           (Demo.world (Some Lab.bucket) (Some Lab.store)
              (Demo.services [] "Hemoglobin 13.5 g/dL"
                 (Ok (Some "All normal."))))
           (Demo.upload_request "alice" "scan.png") ∅
           [App.VerifyIdToken "tok-alice"] "alice" eq_refl).
  vm_compute. do 5 apply list_elem_of_further. apply list_elem_of_here.
Defined.

Lemma process_after_service_failure_witness :
  (Utils.process_uploaded_file
     (Lab.services [] "Hemoglobin 13.5 g/dL"
        (Raise (Exception "connection reset by peer")))
     "uploads/0b6f_scan.png" "png").2
  = Raise (Exception
      ("Failed to process file: "
       +:+ ("Failed to analyze medical text with AI: "
            +:+ "connection reset by peer"))).
Proof.
  apply (process_after_service_failure
           (Lab.services [] "Hemoglobin 13.5 g/dL"
              (Raise (Exception "connection reset by peer")))
           "uploads/0b6f_scan.png" "png" "Hemoglobin 13.5 g/dL"
           [Utils.ImageOpen "uploads/0b6f_scan.png";
            Utils.ImageToString "Hemoglobin 13.5 g/dL"]
           (Exception "connection reset by peer")).
  - reflexivity.
  - vm_compute. lia.
  - reflexivity.
  - reflexivity.
Defined.

Lemma upload_validation_responses_witness :
  App.upload_file
    (Demo.world None None (Demo.services [] "" (Ok None)))
    {| App.authorization := Demo.bearer "alice";
       App.file_part := Some (Some EmptyString); App.args := ∅ |} ∅
  = (∅, ([App.VerifyIdToken "tok-alice"],
         Ok (App.error_body "No file selected", 400%nat))).
Proof.
  destruct (upload_validation_responses
              (Demo.world None None (Demo.services [] "" (Ok None)))
              {| App.authorization := Demo.bearer "alice";
                 App.file_part := Some (Some EmptyString); App.args := ∅ |} ∅
              [App.VerifyIdToken "tok-alice"] "alice" eq_refl)
    as (_ & Hname & _).
  apply Hname. by right.
Defined.

Lemma upload_processing_failure_witness :
  App.upload_file
    (Demo.world (Some Lab.bucket) (Some Lab.store)
       (Lab.services ["smudge"] "" (Ok None)))
    (Demo.upload_request "alice" "report.pdf") ∅
  = (({[ "uploads/0b6f_report.pdf" ]} ∪ ∅) ∖ {[ "uploads/0b6f_report.pdf" ]},
     ([App.VerifyIdToken "tok-alice"; App.FileSave "uploads/0b6f_report.pdf";
       App.Pipeline (Utils.ConvertFromPath "uploads/0b6f_report.pdf");
       App.Pipeline (Utils.ImageToString "smudge");
       App.OsRemove "uploads/0b6f_report.pdf"],
      Ok (App.error_body
            ("Processing failed: "
             +:+ ("Failed to process file: "
                  +:+ "Failed to extract text from PDF: tesseract is not installed")),
          500%nat))).
Proof.
  apply (upload_processing_failure
           (Demo.world (Some Lab.bucket) (Some Lab.store)
              (Lab.services ["smudge"] "" (Ok None)))
           (Demo.upload_request "alice" "report.pdf") ∅
           [App.VerifyIdToken "tok-alice"] "alice" "report.pdf" "report" "pdf"
           [Utils.ConvertFromPath "uploads/0b6f_report.pdf";
            Utils.ImageToString "smudge"]
           (Exception
              ("Failed to process file: "
               +:+ "Failed to extract text from PDF: tesseract is not installed")));
    reflexivity.
Defined.

Lemma present_report_file_url_witness :
  App.present_report
    (Demo.world (Some Lab.bucket) None (Demo.services [] "" (Ok None)))
    ("r1", Lab.report) ∅
  = (∅,
     ([App.GenerateSignedUrl (JStr "medical_reports/alice/0b6f_scan.png")],
      Ok (<["file_url" := JStr "https://storage.test/signed"]>
            (<["report_id" := JStr "r1"]> Lab.report)))).
Proof.
  destruct (present_report_file_url
              (Demo.world (Some Lab.bucket) None
                 (Demo.services [] "" (Ok None)))
              ("r1", Lab.report) ∅)
    as [Hsigned _].
  apply (Hsigned (JStr "medical_reports/alice/0b6f_scan.png")); reflexivity.
Defined.
